(** * Travel listings: data model, validation hooks and the seed command

    A shallow embedding of [listings/models.py], [listings/serializers.py]
    and [listings/management/commands/seed.py], followed by the properties
    of the booking / listing / review data model that are established on
    it.

    Conventions of the embedding:
    - a [datetime.date] is its proleptic Gregorian ordinal
      ([date.toordinal()]), a [Z] between [date_min] and [date_max];
      adding a [timedelta] outside of that range raises [OverflowError];
    - a [decimal.Decimal] is a pair coefficient / exponent (the sign is
      folded into the coefficient), arithmetic rounds to the default
      context precision of 28 digits with ROUND_HALF_EVEN;
    - a [str] is the bytes of its UTF-8 encoding; lengths are counted
      and white space is trimmed by code point;
    - a serializer validates a request field by field, with the fields
      that the model columns declare, calls the hooks it finds under the
      names [validate_<field>] and [validate], and writes the validated
      data; a request carries every writable field of a listing, and
      the fields of a booking that it carries;
    - the database is a record of four tables, each a list of rows in
      insertion order; code that raises leaves the rows it has already
      written in place (no enclosing transaction);
    - [random] is a stream of raw draws that is consumed in program
      order; every property below is quantified over the stream;
    - [uuid.uuid4()] and the auto-increment key of [User] are counters:
      each call returns a value that was never returned before. *)

From Stdlib Require Import ZArith QArith List String Ascii Bool Lia Arith.
From Stdlib Require Import DecimalString.
Import ListNotations.

Local Close Scope Q_scope.
Local Open Scope string_scope.
Local Open Scope list_scope.

(* ================================================================== *)
(** * Exceptions and results *)
(* ================================================================== *)

Inductive Exception : Type :=
| ValidationError (msg : string)             (* django.core.exceptions *)
| SerializerValidationError (msg : string)   (* rest_framework.serializers *)
| IntegrityError (msg : string)
| MultipleObjectsReturned
| IndexError
| ValueError
| ZeroDivisionError
| OverflowError.

Inductive result (A : Type) : Type :=
| Ok (a : A)
| Raise (e : Exception).
Arguments Ok {A} a.
Arguments Raise {A} e.

Definition is_validation_error (e : Exception) : bool :=
  match e with
  | ValidationError _ | SerializerValidationError _ => true
  | _ => false
  end.

Definition raises_validation_error {A} (r : result A) : Prop :=
  exists e, r = Raise e /\ is_validation_error e = true.

(* ================================================================== *)
(** * decimal.Decimal *)
(* ================================================================== *)

Module Decimal.

Record t : Type := mk { coef : Z; exp : Z }.

(** Precision of the default arithmetic context. *)
Definition prec : Z := 28.

(** The number a decimal stands for. *)
Definition toQ (d : t) : Q :=
  if (0 <=? exp d)%Z
  then inject_Z (coef d * 10 ^ exp d)
  else Qmake (coef d) (Z.to_pos (10 ^ (- exp d))).

(** [Decimal(n)] for an [int]. *)
Definition of_int (n : Z) : t := mk n 0.

Fixpoint ndigits_aux (fuel : nat) (n : Z) : Z :=
  match fuel with
  | O => 1
  | S fuel' => if (n <? 10)%Z then 1%Z else (1 + ndigits_aux fuel' (n / 10))%Z
  end.

(** Number of decimal digits of a non-negative coefficient. *)
Definition ndigits (n : Z) : Z := ndigits_aux (S (Z.to_nat (Z.log2 n))) n.

(** [Decimal._fix]: round a result to [prec] digits, half to even. *)
Definition fix_ (d : t) : t :=
  let n := Z.abs (coef d) in
  let k := (ndigits n - prec)%Z in
  if (k <=? 0)%Z then d
  else
    let p := (10 ^ k)%Z in
    let q := (n / p)%Z in
    let r := (n mod p)%Z in
    let up := ((p <? 2 * r) || ((2 * r =? p) && Z.odd q))%Z in
    let q' := if up then (q + 1)%Z else q in
    let '(q'', k') := if (q' =? 10 ^ prec)%Z then ((q' / 10)%Z, (k + 1)%Z)
                      else (q', k) in
    mk (Z.sgn (coef d) * q'') (exp d + k').

(** [a * b] on decimals. *)
Definition mul (a b : t) : t :=
  fix_ (mk (coef a * coef b) (exp a + exp b)).

(** [d * n] with [n] an [int]: the int is converted first. *)
Definition mul_int (d : t) (n : Z) : t := mul d (of_int n).

End Decimal.

(** Comparisons of numbers of mixed types ([Decimal], [int], [float])
    are exact in Python; they are made on the rationals. *)
Definition Qltb (a b : Q) : bool := negb (Qle_bool b a).

(** The double nearest to [0.01], the literal of the model validators. *)
Definition float_0_01 : Q := Qmake 5764607523034235 (2 ^ 59).

(* ================================================================== *)
(** * datetime.date *)
(* ================================================================== *)

Definition date : Type := Z.

Definition date_min : date := 1%Z.         (* date(1, 1, 1).toordinal() *)
Definition date_max : date := 3652059%Z.   (* date(9999, 12, 31).toordinal() *)

(** [d + timedelta(days=n)]. *)
Definition date_add_days (d : date) (n : Z) : result date :=
  let o := (d + n)%Z in
  if ((date_min <=? o) && (o <=? date_max))%Z then Ok o else Raise OverflowError.

(* ================================================================== *)
(** * django.core.validators *)
(* ================================================================== *)

(** [MinValueValidator(limit)(value)]: fails when [value < limit]. *)
Definition MinValueValidator (limit value : Q) : result unit :=
  if Qltb value limit
  then Raise (ValidationError "Ensure this value is greater than or equal to the limit.")
  else Ok tt.

(** [MaxValueValidator(limit)(value)]: fails when [value > limit]. *)
Definition MaxValueValidator (limit value : Q) : result unit :=
  if Qltb limit value
  then Raise (ValidationError "Ensure this value is less than or equal to the limit.")
  else Ok tt.

Fixpoint run_validators (vs : list (Q -> result unit)) (value : Q) : result unit :=
  match vs with
  | [] => Ok tt
  | v :: vs' =>
      match v value with
      | Ok _ => run_validators vs' value
      | Raise e => Raise e
      end
  end.

(* ================================================================== *)
(** * listings/models.py *)
(* ================================================================== *)

Definition uuid : Type := nat.

Module User.
(** [django.contrib.auth.models.User], the fields that are used. *)
Record t : Type := mk {
  id : nat;
  username : string;
  email : string;
  first_name : string;
  last_name : string;
  is_superuser : bool;
  password : string
}.

(** [user.set_password(raw)]; the hasher is outside of this code, the
    stored value stands for the hash of [raw]. *)
Definition set_password (u : t) (raw : string) : t :=
  mk (id u) (username u) (email u) (first_name u) (last_name u)
     (is_superuser u) raw.
End User.

Module Listing.
Record t : Type := mk {
  property_id : uuid;
  host : nat;                       (* ForeignKey(User, CASCADE) *)
  name : string;
  description : string;
  location : string;
  price_per_night : Decimal.t
}.

Definition name_max_length : nat := 100.
Definition location_max_length : nat := 100.
Definition price_per_night_max_digits : Z := 10.
Definition price_per_night_decimal_places : Z := 2.
Definition price_per_night_validators : list (Q -> result unit) :=
  [MinValueValidator float_0_01].
End Listing.

Module Booking.
Definition STATUS_CHOICES : list (string * string) :=
  [("pending", "Pending"); ("confirmed", "Confirmed"); ("canceled", "Canceled")].

(** An instance; the two dates may be unset ([None]) on an instance
    that is being validated. *)
Record t : Type := mk {
  booking_id : uuid;
  property : uuid;                  (* ForeignKey(Listing, CASCADE) *)
  user : nat;                       (* ForeignKey(User, CASCADE) *)
  start_date : option date;
  end_date : option date;
  total_price : Decimal.t;
  status : string
}.

Definition total_price_max_digits : Z := 10.
Definition total_price_decimal_places : Z := 2.
Definition total_price_validators : list (Q -> result unit) :=
  [MinValueValidator float_0_01].
Definition status_default : string := "pending".

(** [Booking.clean]: validate that end_date is after start_date.  A
    date object is always true, so [self.end_date and self.start_date]
    holds exactly when neither attribute is [None]. *)
Definition clean (self : t) : result unit :=
  match end_date self, start_date self with
  | Some e, Some s =>
      if (e <=? s)%Z
      then Raise (ValidationError "End date must be after start date.")
      else Ok tt
  | _, _ => Ok tt
  end.
End Booking.

Module Review.
Record t : Type := mk {
  review_id : uuid;
  property : uuid;                  (* ForeignKey(Listing, CASCADE) *)
  user : nat;                       (* ForeignKey(User, CASCADE) *)
  rating : Z;
  comment : string
}.

Definition rating_validators : list (Q -> result unit) :=
  [MinValueValidator (inject_Z 1); MaxValueValidator (inject_Z 5)].

(** [Meta.unique_together = ['property', 'user']]. *)
Definition unique_key (r : t) : uuid * nat := (property r, user r).
End Review.

(* ================================================================== *)
(** * The database, the random source and the command monad *)
(* ================================================================== *)

Record Store : Type := mkStore {
  users : list User.t;
  listings : list Listing.t;
  bookings : list Booking.t;
  reviews : list Review.t;
  next_user_id : nat
}.

Definition set_users (s : Store) (us : list User.t) (n : nat) : Store :=
  mkStore us (listings s) (bookings s) (reviews s) n.
Definition set_listings (s : Store) (ls : list Listing.t) : Store :=
  mkStore (users s) ls (bookings s) (reviews s) (next_user_id s).
Definition set_bookings (s : Store) (bs : list Booking.t) : Store :=
  mkStore (users s) (listings s) bs (reviews s) (next_user_id s).
Definition set_reviews (s : Store) (rs : list Review.t) : Store :=
  mkStore (users s) (listings s) (bookings s) rs (next_user_id s).

Record World : Type := mkWorld {
  db : Store;
  draws : nat -> nat;        (* the raw draws of the random source *)
  drawn : nat;               (* how many of them were consumed *)
  next_uuid : uuid;          (* position of the uuid4 generator *)
  stdout : list string;      (* lines written so far *)
  today : date               (* the date the clock shows *)
}.

Definition set_db (w : World) (s : Store) : World :=
  mkWorld s (draws w) (drawn w) (next_uuid w) (stdout w) (today w).

(** A computation reads and writes the world; when it raises, the world
    it had reached stays. *)
Definition M (A : Type) : Type := World -> result A * World.

Definition ret {A} (a : A) : M A := fun w => (Ok a, w).
Definition raise {A} (e : Exception) : M A := fun w => (Raise e, w).
Definition bind {A B} (m : M A) (k : A -> M B) : M B :=
  fun w => match m w with
           | (Ok a, w') => k a w'
           | (Raise e, w') => (Raise e, w')
           end.
Definition lift {A} (r : result A) : M A := fun w => (r, w).

Notation "x <- m ;; k" := (bind m (fun x => k))
  (at level 61, m at next level, right associativity).
Notation "m ;;; k" := (bind m (fun _ => k))
  (at level 61, right associativity).

(** [for x in xs: ys.append(body(x))]. *)
Fixpoint forM {A B} (xs : list A) (body : A -> M B) : M (list B) :=
  match xs with
  | [] => ret []
  | x :: xs' => y <- body x ;; ys <- forM xs' body ;; ret (y :: ys)
  end.

Definition write (line : string) : M unit :=
  fun w => (Ok tt, mkWorld (db w) (draws w) (drawn w) (next_uuid w)
                           (stdout w ++ [line]) (today w)).

Definition uuid4 : M uuid :=
  fun w => (Ok (next_uuid w),
            mkWorld (db w) (draws w) (drawn w) (S (next_uuid w)) (stdout w)
                    (today w)).

(** [datetime.now().date()]. *)
Definition now_date : M date := fun w => (Ok (today w), w).

(** ** random *)

Module random.

Definition draw : M nat :=
  fun w => (Ok (draws w (drawn w)),
            mkWorld (db w) (draws w) (S (drawn w)) (next_uuid w) (stdout w)
                    (today w)).

(** [random.randint(a, b)]: an integer of [a..b], both included. *)
Definition randint (a b : Z) : M Z :=
  if (b <? a)%Z then raise ValueError
  else r <- draw ;; ret (a + Z.of_nat r mod (b - a + 1))%Z.

(** [random.choice(seq)]. *)
Definition choice {A} (seq : list A) : M A :=
  match seq with
  | [] => raise IndexError
  | _ :: _ =>
      r <- draw ;;
      match nth_error seq (r mod List.length seq) with
      | Some x => ret x
      | None => raise IndexError
      end
  end.

Definition remove_nth {A} (i : nat) (l : list A) : list A :=
  firstn i l ++ skipn (S i) l.

Fixpoint sample_loop {A} (k : nat) (pool : list A) : M (list A) :=
  match k with
  | O => ret []
  | S k' =>
      r <- draw ;;
      let i := r mod List.length pool in
      match nth_error pool i with
      | Some x => xs <- sample_loop k' (remove_nth i pool) ;; ret (x :: xs)
      | None => raise IndexError
      end
  end.

(** [random.sample(population, k)]: [k] elements at distinct
    positions of the population, in selection order. *)
Definition sample {A} (population : list A) (k : nat) : M (list A) :=
  if (List.length population <? k)%nat then raise ValueError
  else sample_loop k population.

End random.

(** ** The object managers *)

(** ['sub' in s]. *)
Fixpoint contains (sub s : string) : bool :=
  prefix sub s ||
  match s with
  | EmptyString => false
  | String _ s' => contains sub s'
  end.

Definition mem_nat (x : nat) (l : list nat) : bool := existsb (Nat.eqb x) l.

Module UserManager.

Record defaults : Type := mkDefaults {
  d_email : string; d_first_name : string; d_last_name : string
}.

(** [User.objects.get_or_create(username=..., defaults=...)]. *)
Definition get_or_create (name : string) (d : defaults) : M (User.t * bool) :=
  fun w =>
    let s := db w in
    match filter (fun u => String.eqb (User.username u) name) (users s) with
    | [] =>
        let u := User.mk (next_user_id s) name (d_email d) (d_first_name d)
                         (d_last_name d) false "" in
        (Ok (u, true), set_db w (set_users s (users s ++ [u]) (S (next_user_id s))))
    | [u] => (Ok (u, false), w)
    | _ :: _ :: _ => (Raise MultipleObjectsReturned, w)
    end.

(** [user.save()] of an instance that has a primary key: the row with
    that key is rewritten, or inserted when there is none. *)
Definition save (u : User.t) : M unit :=
  fun w =>
    let s := db w in
    if mem_nat (User.id u) (map User.id (users s))
    then (Ok tt, set_db w (set_users s
            (map (fun v => if Nat.eqb (User.id v) (User.id u) then u else v) (users s))
            (next_user_id s)))
    else (Ok tt, set_db w (set_users s (users s ++ [u]) (next_user_id s))).

(** [User.objects.filter(...).delete()]; [on_delete=CASCADE] of
    [Listing.host], [Booking.user] and [Review.user] takes the rows of
    the deleted users along, and the deleted listings take theirs. *)
Definition delete_where (sel : User.t -> bool) : M unit :=
  fun w =>
    let s := db w in
    let gone := map User.id (filter sel (users s)) in
    let gone_listings :=
      map Listing.property_id
          (filter (fun l => mem_nat (Listing.host l) gone) (listings s)) in
    (Ok tt, set_db w (mkStore
       (filter (fun u => negb (sel u)) (users s))
       (filter (fun l => negb (mem_nat (Listing.host l) gone)) (listings s))
       (filter (fun b => negb (mem_nat (Booking.user b) gone)
                         && negb (mem_nat (Booking.property b) gone_listings))
               (bookings s))
       (filter (fun r => negb (mem_nat (Review.user r) gone)
                         && negb (mem_nat (Review.property r) gone_listings))
               (reviews s))
       (next_user_id s))).

End UserManager.

Module ListingManager.

Record fields : Type := mkFields {
  f_name : string;
  f_description : string;
  f_location : string;
  f_price_per_night : Decimal.t
}.

(** [Listing.objects.create(host=h, **fields)]: the row is inserted as
    it is given, validators are not run by [create]. *)
Definition create (h : User.t) (f : fields) : M Listing.t :=
  pk <- uuid4 ;;
  let l := Listing.mk pk (User.id h) (f_name f) (f_description f)
                      (f_location f) (f_price_per_night f) in
  fun w => (Ok l, set_db w (set_listings (db w) (listings (db w) ++ [l]))).

(** Deletion of the listings selected by [sel]; [on_delete=CASCADE] of
    [Booking.property] and [Review.property] takes their rows along. *)
Definition delete_where (sel : Listing.t -> bool) : M unit :=
  fun w =>
    let s := db w in
    let gone := map Listing.property_id (filter sel (listings s)) in
    (Ok tt, set_db w (mkStore
       (users s)
       (filter (fun l => negb (sel l)) (listings s))
       (filter (fun b => negb (mem_nat (Booking.property b) gone)) (bookings s))
       (filter (fun r => negb (mem_nat (Review.property r) gone)) (reviews s))
       (next_user_id s))).

(** [Listing.objects.all().delete()]. *)
Definition all_delete : M unit := delete_where (fun _ => true).

(** [listing.delete()] for the listing of primary key [pk]. *)
Definition delete (pk : uuid) : M unit :=
  delete_where (fun l => Nat.eqb (Listing.property_id l) pk).

End ListingManager.

Module BookingManager.

(** [Booking.objects.create(...)]: [clean] and the field validators are
    not run by [create]; the date columns are NOT NULL. *)
Definition create (listing : Listing.t) (guest : User.t)
    (start_date end_date : option date) (total_price : Decimal.t)
    (status : string) : M Booking.t :=
  match start_date, end_date with
  | Some _, Some _ =>
      pk <- uuid4 ;;
      let b := Booking.mk pk (Listing.property_id listing) (User.id guest)
                          start_date end_date total_price status in
      fun w => (Ok b, set_db w (set_bookings (db w) (bookings (db w) ++ [b])))
  | _, _ => raise (IntegrityError "NOT NULL constraint failed")
  end.

(** [Booking.objects.all().delete()]. *)
Definition all_delete : M unit :=
  fun w => (Ok tt, set_db w (set_bookings (db w) [])).

End BookingManager.

Module ReviewManager.

Definition key_eqb (a b : uuid * nat) : bool :=
  Nat.eqb (fst a) (fst b) && Nat.eqb (snd a) (snd b).

(** [Review.objects.create(...)]: the insert fails on the unique
    constraint of [unique_together] when a row with the same
    (property, user) is stored. *)
Definition create (listing : Listing.t) (guest : User.t) (rating : Z)
    (comment : string) : M Review.t :=
  pk <- uuid4 ;;
  let r := Review.mk pk (Listing.property_id listing) (User.id guest)
                     rating comment in
  fun w =>
    if existsb (fun r' => key_eqb (Review.unique_key r') (Review.unique_key r))
               (reviews (db w))
    then (Raise (IntegrityError "UNIQUE constraint failed: review.property_id, review.user_id"), w)
    else (Ok r, set_db w (set_reviews (db w) (reviews (db w) ++ [r]))).

(** [Review.objects.all().delete()]. *)
Definition all_delete : M unit :=
  fun w => (Ok tt, set_db w (set_reviews (db w) [])).

End ReviewManager.

(* ================================================================== *)
(** * listings/serializers.py *)
(* ================================================================== *)

(** A [str] is kept as the bytes of its UTF-8 encoding; [len] and
    [strip] work on code points, as they do in Python. *)
Module Str.

(** A byte [10xxxxxx] continues the code point of the byte before. *)
Definition continuation (a : ascii) : bool :=
  let n := nat_of_ascii a in ((128 <=? n) && (n <? 192))%nat.

(** The code points of a string, each as the bytes that encode it. *)
Fixpoint chars (s : string) : list string :=
  match s with
  | EmptyString => []
  | String a rest =>
      match chars rest with
      | String b c :: cs =>
          if continuation b then String a (String b c) :: cs
          else String a EmptyString :: String b c :: cs
      | cs => String a EmptyString :: cs
      end
  end.

(** [len(s)]. *)
Definition len (s : string) : nat := List.length (chars s).

Definition utf8 (bytes : list nat) : string :=
  string_of_list_ascii (map ascii_of_nat bytes).

(** The code points for which [str.isspace] holds: U+0009..U+000D,
    U+001C..U+0020, U+0085, U+00A0, U+1680, U+2000..U+200A, U+2028,
    U+2029, U+202F, U+205F and U+3000. *)
Definition whitespace : list string :=
  map utf8
      ([[9]; [10]; [11]; [12]; [13]; [28]; [29]; [30]; [31]; [32];
        [194; 133]; [194; 160]; [225; 154; 128]]
       ++ map (fun c => [226; 128; c]) (seq 128 11)
       ++ [[226; 128; 168]; [226; 128; 169]; [226; 128; 175];
           [226; 129; 159]; [227; 128; 128]]).

Definition isspace (c : string) : bool := existsb (String.eqb c) whitespace.

Fixpoint lstrip (cs : list string) : list string :=
  match cs with
  | [] => []
  | c :: cs' => if isspace c then lstrip cs' else cs
  end.

(** [s.strip()]. *)
Definition strip (s : string) : string :=
  String.concat "" (rev (lstrip (rev (lstrip (chars s))))).

End Str.

(** Errors of a failed validation, by field name. *)
Definition errors : Type := list (string * Exception).

Definition field_error {A} (fname : string) (r : result A) : errors :=
  match r with
  | Ok _ => []
  | Raise e => [(fname, e)]
  end.

(** A field that is required: the key has to be in the data. *)
Definition required {A} (v : option A) : result A :=
  match v with
  | Some a => Ok a
  | None => Raise (SerializerValidationError "This field is required.")
  end.

(** [serializers.CharField], as a [ModelSerializer] declares it for a
    [models.CharField(max_length=n)] or a [models.TextField()]: the
    value is trimmed, a blank value is refused, and the validators of
    the field (the length in code points, no null character) run on the
    trimmed value. *)
Module CharField.

Definition too_long (max_length : option nat) (value : string) : bool :=
  match max_length with
  | Some n => (n <? Str.len value)%nat
  | None => false
  end.

Definition has_null (value : string) : bool :=
  existsb (Ascii.eqb zero) (list_ascii_of_string value).

Definition run_validation (max_length : option nat) (data : string)
    : result string :=
  let value := Str.strip data in
  if String.eqb value ""
  then Raise (SerializerValidationError "This field may not be blank.")
  else if too_long max_length value
  then Raise (SerializerValidationError
                "Ensure this field has no more than the allowed number of characters.")
  else if has_null value
  then Raise (SerializerValidationError "Null characters are not allowed.")
  else Ok value.

End CharField.

(** [serializers.DecimalField(max_digits, decimal_places)], as a
    [ModelSerializer] declares it for a [models.DecimalField]: the
    precision of the value is checked, the value is brought to
    [decimal_places] places, and the validators of the field run on the
    result.  The data is the decimal that the submitted text stands
    for. *)
Module DecimalField.

Definition digits (value : Decimal.t) : Z :=
  Decimal.ndigits (Z.abs (Decimal.coef value)).

Definition total_digits (value : Decimal.t) : Z :=
  let exponent := Decimal.exp value in
  if (0 <=? exponent)%Z then (digits value + exponent)%Z
  else if (Z.abs exponent <? digits value)%Z then digits value
  else Z.abs exponent.

Definition whole_digits (value : Decimal.t) : Z :=
  let exponent := Decimal.exp value in
  if (0 <=? exponent)%Z then (digits value + exponent)%Z
  else if (Z.abs exponent <? digits value)%Z
  then (digits value - Z.abs exponent)%Z
  else 0%Z.

Definition places (value : Decimal.t) : Z :=
  let exponent := Decimal.exp value in
  if (0 <=? exponent)%Z then 0%Z else Z.abs exponent.

(** [validate_precision]. *)
Definition validate_precision (max_digits decimal_places : Z)
    (value : Decimal.t) : result Decimal.t :=
  if (max_digits <? total_digits value)%Z
  then Raise (SerializerValidationError
                "Ensure that there are no more than the allowed digits in total.")
  else if (decimal_places <? places value)%Z
  then Raise (SerializerValidationError
                "Ensure that there are no more than the allowed decimal places.")
  else if (max_digits - decimal_places <? whole_digits value)%Z
  then Raise (SerializerValidationError
                "Ensure that there are no more than the allowed digits before the decimal point.")
  else Ok value.

(** [quantize]: the value at exactly [decimal_places] places.  A value
    that passed [validate_precision] has no more places than that, and
    zeros are appended; a value of more places would be rounded, half to
    even. *)
Definition quantize (decimal_places : Z) (value : Decimal.t) : Decimal.t :=
  let k := (- decimal_places - Decimal.exp value)%Z in
  if (k <=? 0)%Z
  then Decimal.mk (Decimal.coef value * 10 ^ (- k)) (- decimal_places)
  else
    let n := Z.abs (Decimal.coef value) in
    let p := (10 ^ k)%Z in
    let q := (n / p)%Z in
    let r := (n mod p)%Z in
    let up := ((p <? 2 * r) || ((2 * r =? p) && Z.odd q))%Z in
    Decimal.mk (Z.sgn (Decimal.coef value) * (if up then q + 1 else q))
               (- decimal_places).

Definition run_validation (max_digits decimal_places : Z)
    (validators : list (Q -> result unit)) (data : Decimal.t)
    : result Decimal.t :=
  match validate_precision max_digits decimal_places data with
  | Raise e => Raise e
  | Ok v =>
      let value := quantize decimal_places v in
      match run_validators validators (Decimal.toQ value) with
      | Ok _ => Ok value
      | Raise e => Raise e
      end
  end.

End DecimalField.

Module ListingSerializer.

(** The write representation: [host_id] and the writable fields, for a
    request that carries all of them. *)
Record data : Type := mkData {
  host_id : nat;
  name : string;
  description : string;
  location : string;
  price_per_night : Decimal.t
}.

(** [validate_price_per_night]: ensure price is positive. *)
Definition validate_price_per_night (value : Decimal.t) : result Decimal.t :=
  if Qle_bool (Decimal.toQ value) 0%Q
  then Raise (SerializerValidationError "Price per night must be greater than zero.")
  else Ok value.

(** [host_id = PrimaryKeyRelatedField(queryset=User.objects.all())]. *)
Definition resolve_host (s : Store) (pk : nat) : result User.t :=
  match find (fun u => Nat.eqb (User.id u) pk) (users s) with
  | Some u => Ok u
  | None => Raise (SerializerValidationError "Invalid pk - object does not exist.")
  end.

(** The field [price_per_night]: the field of the model column, with
    the validators that the model declares, then the hook that is named
    after the field, [validate_price_per_night]. *)
Definition run_price_per_night (value : Decimal.t) : result Decimal.t :=
  match DecimalField.run_validation Listing.price_per_night_max_digits
          Listing.price_per_night_decimal_places
          Listing.price_per_night_validators value with
  | Ok v => validate_price_per_night v
  | Raise e => Raise e
  end.

(** [run_validation]: every field is validated, the errors of all of
    them are collected. *)
Definition run_validation (s : Store) (d : data) : errors :=
  field_error "host_id" (resolve_host s (host_id d))
  ++ field_error "name"
       (CharField.run_validation (Some Listing.name_max_length) (name d))
  ++ field_error "description" (CharField.run_validation None (description d))
  ++ field_error "location"
       (CharField.run_validation (Some Listing.location_max_length) (location d))
  ++ field_error "price_per_night" (run_price_per_night (price_per_night d)).

(** The validated data of a request without errors: the values that the
    fields return, trimmed strings and the price at two places. *)
Definition validated_data (d : data) : ListingManager.fields :=
  ListingManager.mkFields
    (Str.strip (name d)) (Str.strip (description d)) (Str.strip (location d))
    (DecimalField.quantize Listing.price_per_night_decimal_places
                           (price_per_night d)).

Definition apply (pk : uuid) (d : data) : Listing.t :=
  let f := validated_data d in
  Listing.mk pk (host_id d) (ListingManager.f_name f)
             (ListingManager.f_description f) (ListingManager.f_location f)
             (ListingManager.f_price_per_night f).

(** [serializer.is_valid()] followed by [serializer.save()]: with no
    instance a row is created, with an instance its row is rewritten
    (inserted when it is gone); invalid data writes nothing. *)
Definition save (instance : option Listing.t) (d : data) : M (errors + Listing.t) :=
  fun w =>
    match run_validation (db w) d with
    | (_ :: _) as errs => (Ok (inl errs), w)
    | [] =>
        match instance with
        | None =>
            match resolve_host (db w) (host_id d) with
            | Ok h =>
                (l <- ListingManager.create h (validated_data d) ;;
                 ret (inr l)) w
            | Raise e => (Raise e, w)
            end
        | Some old =>
            let l := apply (Listing.property_id old) d in
            let s := db w in
            if mem_nat (Listing.property_id l) (map Listing.property_id (listings s))
            then (Ok (inr l), set_db w (set_listings s
                    (map (fun x => if Nat.eqb (Listing.property_id x)
                                              (Listing.property_id l)
                                   then l else x) (listings s))))
            else (Ok (inr l), set_db w (set_listings s (listings s ++ [l])))
        end
    end.

End ListingSerializer.

Module BookingSerializer.

(** The dictionary [data]: the request that the serializer receives and
    the validated data that a hook receives; an absent key reads as
    [None] through [data.get]. *)
Record data : Type := mkData {
  property : option uuid;
  user : option nat;
  start_date : option date;
  end_date : option date;
  total_price : option Decimal.t;
  status : option string
}.

(** [validate_booking(self, data)], with [self.instance] and the date
    of [timezone.now()] made explicit. *)
Definition validate_booking (instance : option Booking.t) (today : date)
    (d : data) : result data :=
  match start_date d, end_date d with
  | Some s, Some e =>
      if (e <=? s)%Z
      then Raise (SerializerValidationError "End date must be after start date.")
      else
        match instance with
        | None =>
            if (s <? today)%Z
            then Raise (SerializerValidationError "Start date cannot be in the past.")
            else Ok d
        | Some _ => Ok d
        end
  | _, _ => Ok d
  end.

(** [Meta.fields]. *)
Definition fields : list string :=
  ["booking_id"; "property"; "property_id"; "user"; "user_id"; "start_date";
   "end_date"; "total_price"; "status"; "created_at"].

(** The validation methods that the class defines, under their names. *)
Definition methods
    : list (string * (option Booking.t -> date -> data -> result data)) :=
  [("validate_booking", validate_booking)].

Definition method (name : string)
    : option (option Booking.t -> date -> data -> result data) :=
  option_map snd (find (fun m => String.eqb (fst m) name) methods).

(** The fields for which the class defines a method [validate_<field>],
    the hooks that a serializer calls on the value of a field. *)
Definition field_hooks : list string :=
  filter (fun f => match method ("validate_" ++ f) with
                   | Some _ => true
                   | None => false
                   end) fields.

(** [self.validate(attrs)], the hook that a serializer calls on the
    validated data: the method of that name when the class defines one,
    otherwise the inherited one, which returns [attrs]. *)
Definition validate (instance : option Booking.t) (today : date)
    (attrs : data) : result data :=
  match method "validate" with
  | Some hook => hook instance today attrs
  | None => Ok attrs
  end.

(** [property_id = PrimaryKeyRelatedField(queryset=Listing.objects.all())]. *)
Definition resolve_property (s : Store) (pk : uuid) : result Listing.t :=
  match find (fun l => Nat.eqb (Listing.property_id l) pk) (listings s) with
  | Some l => Ok l
  | None => Raise (SerializerValidationError "Invalid pk - object does not exist.")
  end.

Definition run_property_id (s : Store) (v : option uuid) : result Listing.t :=
  match required v with
  | Ok pk => resolve_property s pk
  | Raise e => Raise e
  end.

Definition run_user_id (s : Store) (v : option nat) : result User.t :=
  match required v with
  | Ok pk => ListingSerializer.resolve_host s pk
  | Raise e => Raise e
  end.

Definition run_total_price (v : option Decimal.t) : result Decimal.t :=
  match required v with
  | Ok value =>
      DecimalField.run_validation Booking.total_price_max_digits
        Booking.total_price_decimal_places Booking.total_price_validators value
  | Raise e => Raise e
  end.

(** [status]: a choice field that is not required, the column has a
    default. *)
Definition run_status (v : option string) : result (option string) :=
  match v with
  | None => Ok None
  | Some c =>
      if existsb (String.eqb c) (map fst Booking.STATUS_CHOICES)
      then Ok (Some c)
      else Raise (SerializerValidationError "The value is not a valid choice.")
  end.

Record validated : Type := mkValidated {
  v_property : Listing.t;
  v_user : User.t;
  v_start_date : date;
  v_end_date : date;
  v_total_price : Decimal.t;
  v_status : option string
}.

(** [to_internal_value]: every field is validated, the errors of all of
    them are collected; no field of this class has a hook. *)
Definition to_internal_value (s : Store) (d : data) : errors + validated :=
  match run_property_id s (property d), run_user_id s (user d),
        required (start_date d), required (end_date d),
        run_total_price (total_price d), run_status (status d) with
  | Ok l, Ok u, Ok sd, Ok ed, Ok total, Ok st =>
      inr (mkValidated l u sd ed total st)
  | rl, ru, rsd, red, rtotal, rst =>
      inl (field_error "property_id" rl ++ field_error "user_id" ru
           ++ field_error "start_date" rsd ++ field_error "end_date" red
           ++ field_error "total_price" rtotal ++ field_error "status" rst)
  end.

Definition attrs (v : validated) : data :=
  mkData (Some (Listing.property_id (v_property v))) (Some (User.id (v_user v)))
         (Some (v_start_date v)) (Some (v_end_date v)) (Some (v_total_price v))
         (v_status v).

(** [serializer.is_valid()] followed by [serializer.save()]: the fields
    are validated, then [validate] is called on the validated data; with
    no instance [Booking.objects.create] inserts a row, with an instance
    the submitted attributes are set on it and its row is rewritten
    (inserted when it is gone); invalid data writes nothing. *)
Definition save (instance : option Booking.t) (d : data) : M (errors + Booking.t) :=
  fun w =>
    match to_internal_value (db w) d with
    | inl errs => (Ok (inl errs), w)
    | inr v =>
        match validate instance (today w) (attrs v) with
        | Raise e => (Ok (inl [("non_field_errors", e)]), w)
        | Ok _ =>
            match instance with
            | None =>
                (b <- BookingManager.create (v_property v) (v_user v)
                        (Some (v_start_date v)) (Some (v_end_date v))
                        (v_total_price v)
                        (match v_status v with
                         | Some c => c
                         | None => Booking.status_default
                         end) ;;
                 ret (inr b)) w
            | Some old =>
                let b := Booking.mk (Booking.booking_id old)
                           (Listing.property_id (v_property v))
                           (User.id (v_user v))
                           (Some (v_start_date v)) (Some (v_end_date v))
                           (v_total_price v)
                           (match v_status v with
                            | Some c => c
                            | None => Booking.status old
                            end) in
                let s := db w in
                if mem_nat (Booking.booking_id b) (map Booking.booking_id (bookings s))
                then (Ok (inr b), set_db w (set_bookings s
                        (map (fun x => if Nat.eqb (Booking.booking_id x)
                                                  (Booking.booking_id b)
                                       then b else x) (bookings s))))
                else (Ok (inr b), set_db w (set_bookings s (bookings s ++ [b])))
            end
        end
    end.

End BookingSerializer.

Module ReviewSerializer.

(** [validate_rating]: ensure rating is between 1 and 5. *)
Definition validate_rating (value : Z) : result Z :=
  if ((value <? 1) || (5 <? value))%Z
  then Raise (SerializerValidationError "Rating must be between 1 and 5.")
  else Ok value.

End ReviewSerializer.

(* ================================================================== *)
(** * listings/management/commands/seed.py *)
(* ================================================================== *)

Module Command.

Record user_data : Type := mkUserData {
  ud_username : string; ud_email : string;
  ud_first_name : string; ud_last_name : string
}.

Definition users_data : list user_data :=
  [ mkUserData "john_host" "john@example.com" "John" "Doe";
    mkUserData "jane_host" "jane@example.com" "Jane" "Smith";
    mkUserData "mike_guest" "mike@example.com" "Mike" "Johnson";
    mkUserData "sarah_guest" "sarah@example.com" "Sarah" "Williams";
    mkUserData "david_host" "david@example.com" "David" "Brown";
    mkUserData "emma_guest" "emma@example.com" "Emma" "Davis" ].

(** One turn of the loop of [create_users]. *)
Definition create_user (ud : user_data) : M User.t :=
  uc <- UserManager.get_or_create (ud_username ud)
          (UserManager.mkDefaults (ud_email ud) (ud_first_name ud)
                                  (ud_last_name ud)) ;;
  let '(user, created) := uc in
  if created : bool
  then
    let user' := User.set_password user "password123" in
    UserManager.save user' ;;; ret user'
  else ret user.

(** [create_users]: create sample users. *)
Definition create_users : M (list User.t) := forM users_data create_user.

Definition listings_data : list ListingManager.fields :=
  [ ListingManager.mkFields "Cozy Beach House"
      "Beautiful beachfront property with stunning ocean views. Perfect for families and couples seeking a relaxing getaway."
      "Malibu, California" (Decimal.mk 25000 (-2));
    ListingManager.mkFields "Mountain Retreat Cabin"
      "Secluded cabin in the mountains with hiking trails nearby. Ideal for nature lovers and adventure seekers."
      "Aspen, Colorado" (Decimal.mk 18000 (-2));
    ListingManager.mkFields "Downtown Luxury Apartment"
      "Modern apartment in the heart of the city with all amenities. Walking distance to restaurants, shops, and entertainment."
      "New York, NY" (Decimal.mk 30000 (-2));
    ListingManager.mkFields "Countryside Villa"
      "Spacious villa surrounded by vineyards and rolling hills. Features a private pool and outdoor dining area."
      "Tuscany, Italy" (Decimal.mk 45000 (-2));
    ListingManager.mkFields "Tropical Paradise Bungalow"
      "Charming bungalow steps from pristine beaches. Includes hammocks, outdoor shower, and tropical garden."
      "Bali, Indonesia" (Decimal.mk 12000 (-2));
    ListingManager.mkFields "Historic City Loft"
      "Renovated loft in a historic building with exposed brick and high ceilings. Perfect for urban explorers."
      "Boston, Massachusetts" (Decimal.mk 22000 (-2));
    ListingManager.mkFields "Lakefront Cottage"
      "Peaceful cottage on a private lake with dock and kayaks included. Great for fishing and water activities."
      "Lake Tahoe, Nevada" (Decimal.mk 19500 (-2));
    ListingManager.mkFields "Desert Oasis Villa"
      "Stunning modern villa with infinity pool overlooking desert landscape. Solar-powered and eco-friendly."
      "Scottsdale, Arizona" (Decimal.mk 35000 (-2)) ].

(** [enumerate(xs)]. *)
Definition enumerate {A} (xs : list A) : list (nat * A) :=
  combine (seq 0 (List.length xs)) xs.

(** [seq[i % len(seq)]]. *)
Definition index_mod {A} (xs : list A) (i : nat) : M A :=
  match List.length xs with
  | O => raise ZeroDivisionError
  | S _ =>
      match nth_error xs (i mod List.length xs) with
      | Some x => ret x
      | None => raise IndexError
      end
  end.

(** [create_listings]: create sample property listings. *)
Definition create_listings (users : list User.t) : M (list Listing.t) :=
  let hosts := filter (fun u => contains "host" (User.username u)) users in
  forM (enumerate listings_data) (fun il =>
    h <- index_mod hosts (fst il) ;;
    ListingManager.create h (snd il)).

Definition statuses : list string :=
  ["pending"; "confirmed"; "confirmed"; "confirmed"; "canceled"].

(** One turn of the loop of [create_bookings]. *)
Definition create_booking (listings : list Listing.t) (guests : list User.t)
  : M Booking.t :=
  listing <- random.choice listings ;;
  guest <- random.choice guests ;;
  start_offset <- random.randint (-30) 60 ;;
  duration <- random.randint 2 14 ;;
  now <- now_date ;;
  start_date <- lift (date_add_days now start_offset) ;;
  end_date <- lift (date_add_days start_date duration) ;;
  let total_price := Decimal.mul_int (Listing.price_per_night listing) duration in
  status <- random.choice statuses ;;
  BookingManager.create listing guest (Some start_date) (Some end_date)
                        total_price status.

(** [create_bookings]: create sample bookings. *)
Definition create_bookings (listings : list Listing.t) (users : list User.t)
  : M (list Booking.t) :=
  let guests := filter (fun u => contains "guest" (User.username u)) users in
  forM (seq 0 15) (fun _ => create_booking listings guests).

Definition review_comments : list string :=
  [ "Amazing place! Highly recommended for anyone visiting the area.";
    "Great location and very clean. The host was very responsive.";
    "Beautiful property with stunning views. Would definitely stay again.";
    "Good value for money. Some minor issues but overall satisfied.";
    "Exactly as described. Perfect for our family vacation.";
    "Outstanding experience. The property exceeded our expectations.";
    "Nice place but could use some updates. Still enjoyable though.";
    "Wonderful stay! The amenities were top-notch.";
    "Very comfortable and well-maintained. Great communication with host.";
    "Decent property but not quite what we expected from the photos." ].

(** The inner loop of [create_reviews]. *)
Definition create_review (listing : Listing.t) (guest : User.t) : M Review.t :=
  rating <- random.randint 3 5 ;;
  comment <- random.choice review_comments ;;
  ReviewManager.create listing guest rating comment.

(** The body of the outer loop of [create_reviews]. *)
Definition review_listing (guests : list User.t) (listing : Listing.t)
  : M (list Review.t) :=
  num_reviews <- random.randint 1 3 ;;
  review_guests <- random.sample guests
                     (Nat.min (Z.to_nat num_reviews) (List.length guests)) ;;
  forM review_guests (create_review listing).

(** [create_reviews]: create 1-3 reviews for random listings. *)
Definition create_reviews (listings : list Listing.t) (users : list User.t)
  : M (list Review.t) :=
  let guests := filter (fun u => contains "guest" (User.username u)) users in
  sampled <- random.sample listings (Nat.min 6 (List.length listings)) ;;
  rss <- forM sampled (review_listing guests) ;;
  ret (List.concat rss).

Definition created (n : nat) (what : string) : string :=
  "✓ Created " ++ NilZero.string_of_uint (Nat.to_uint n) ++ " " ++ what.

(** The body of [if options['clear']] in [handle]. *)
Definition clear_data : M unit :=
  write "Clearing existing data..." ;;;
  ReviewManager.all_delete ;;;
  BookingManager.all_delete ;;;
  ListingManager.all_delete ;;;
  UserManager.delete_where (fun u => negb (User.is_superuser u)) ;;;
  write "✓ Data cleared".

(** [handle]: the seed command; [clear] is [options['clear']]. *)
Definition handle (clear : bool) : M unit :=
  (if clear then clear_data else ret tt) ;;;
  write "Starting database seeding..." ;;;
  users <- create_users ;;
  write (created (List.length users) "users") ;;;
  listings <- create_listings users ;;
  write (created (List.length listings) "listings") ;;;
  bookings <- create_bookings listings users ;;
  write (created (List.length bookings) "bookings") ;;;
  reviews <- create_reviews listings users ;;
  write (created (List.length reviews) "reviews") ;;;
  write (String (ascii_of_nat 10) "✨ Database seeding completed successfully!").

End Command.

(** A world whose tables are all empty. *)
Definition empty_store (n : nat) : Store := mkStore [] [] [] [] n.

Definition tables_empty (s : Store) : Prop :=
  users s = [] /\ listings s = [] /\ bookings s = [] /\ reviews s = [].

(* ================================================================== *)
(** * Vocabulary of the properties *)
(* ================================================================== *)

(** The invariants of the stored rows. *)
Definition price_positive (l : Listing.t) : Prop :=
  (0 < Decimal.toQ (Listing.price_per_night l))%Q.

Definition listings_priced (s : Store) : Prop :=
  Forall price_positive (listings s).

Definition reviews_unique (s : Store) : Prop :=
  NoDup (map Review.unique_key (reviews s)).

Definition store_invariant (w : World) : Prop :=
  listings_priced (db w) /\ reviews_unique (db w).

(** One write of the application: the listing serializer, the managers
    that the code calls, the seed command; between two writes the clock
    and the random source move freely. *)
Inductive step : World -> World -> Prop :=
| step_listing_save instance d w :
    step w (snd (ListingSerializer.save instance d w))
| step_listing_delete pk w :
    step w (snd (ListingManager.delete pk w))
| step_booking_create l g s e total st w :
    step w (snd (BookingManager.create l g s e total st w))
| step_review_create l g rating c w :
    step w (snd (ReviewManager.create l g rating c w))
| step_user_get_or_create name d w :
    step w (snd (UserManager.get_or_create name d w))
| step_user_delete sel w :
    step w (snd (UserManager.delete_where sel w))
| step_seed clear w :
    step w (snd (Command.handle clear w))
| step_environment w f n out t :
    step w (mkWorld (db w) f n (next_uuid w) out t).

Inductive reachable : World -> Prop :=
| reachable_init w : tables_empty (db w) -> reachable w
| reachable_step w w' : reachable w -> step w w' -> reachable w'.

(** Well-formed worlds: user names and keys are unique, keys were
    issued by the counters, and the clock is far enough from the ends
    of the range of dates for the seeded dates to exist. *)
Definition users_wf (s : Store) : Prop :=
  NoDup (map User.username (users s)) /\
  NoDup (map User.id (users s)) /\
  Forall (fun u => User.id u < next_user_id s) (users s).

Definition clock_ok (t : date) : Prop :=
  (date_min + 30 <= t <= date_max - 74)%Z.

Definition world_wf (w : World) : Prop :=
  users_wf (db w) /\
  Forall (fun r => Review.property r < next_uuid w) (reviews (db w)) /\
  clock_ok (today w).

(** The store after the clearing part of [handle]. *)
Definition cleared (s : Store) : Store :=
  mkStore (filter User.is_superuser (users s)) [] [] [] (next_user_id s).

(** The writable fields of a stored listing. *)
Definition listing_fields (l : Listing.t) : ListingManager.fields :=
  ListingManager.mkFields (Listing.name l) (Listing.description l)
                          (Listing.location l) (Listing.price_per_night l).

(** What [create_bookings] promises of a booking [b], for the listings
    [ls] it draws from and the date [t] of the clock. *)
Definition booking_seeded (ls : list Listing.t) (t : date) (b : Booking.t) : Prop :=
  exists (l : Listing.t) (k d : Z),
    In l ls /\ Booking.property b = Listing.property_id l /\
    (-30 <= k <= 60)%Z /\ (2 <= d <= 14)%Z /\
    Booking.start_date b = Some (t + k)%Z /\
    Booking.end_date b = Some (t + k + d)%Z /\
    Booking.total_price b = Decimal.mul_int (Listing.price_per_night l) d.

(** [w'] differs from [w] by the position of the random source and by
    the output only. *)
Definition unchanged (w w' : World) : Prop :=
  db w' = db w /\ next_uuid w' = next_uuid w /\ today w' = today w.

(** [m] keeps [I], whether it returns or raises. *)
Definition preserves {A} (I : World -> Prop) (m : M A) : Prop :=
  forall w, I w -> I (snd (m w)).

(** Referential integrity of a store: every foreign key names a stored
    row. *)
Definition fk_integrity (s : Store) : Prop :=
  Forall (fun l => In (Listing.host l) (map User.id (users s))) (listings s) /\
  Forall (fun b => In (Booking.property b) (map Listing.property_id (listings s)) /\
                   In (Booking.user b) (map User.id (users s))) (bookings s) /\
  Forall (fun r => In (Review.property r) (map Listing.property_id (listings s)) /\
                   In (Review.user r) (map User.id (users s))) (reviews s).

(* ================================================================== *)
(** * The embedding on concrete inputs *)
(* ================================================================== *)

Example decimal_price_times_nights :
  Decimal.mul_int (Decimal.mk 25000 (-2)) 14 = Decimal.mk 350000 (-2).
Proof. reflexivity. Qed.

Example decimal_product_rounds_to_28_digits :
  Decimal.mul (Decimal.mk 9999999999999999999999999999 0) (Decimal.mk 95 (-1))
  = Decimal.mk 9499999999999999999999999999 1.
Proof. vm_compute. reflexivity. Qed.

Example decimal_rounds_half_to_even :
  Decimal.mul (Decimal.mk 12345678901234567890123456785 0) (Decimal.mk 1 0)
  = Decimal.mk 1234567890123456789012345678 1.
Proof. vm_compute. reflexivity. Qed.

(** The double [0.01] lies above one cent, so the model validator of a
    price refuses a price of exactly [0.01]. *)
Example one_cent_is_below_the_limit :
  run_validators Listing.price_per_night_validators (Decimal.toQ (Decimal.mk 1 (-2)))
  = Raise (ValidationError "Ensure this value is greater than or equal to the limit.").
Proof. reflexivity. Qed.

Example zero_price_is_refused :
  ListingSerializer.validate_price_per_night (Decimal.mk 0 (-2))
  = Raise (SerializerValidationError "Price per night must be greater than zero.").
Proof. reflexivity. Qed.

(** The price field refuses a third decimal place and an eleventh
    digit, and returns an accepted price at two places. *)
Example price_of_three_places_is_refused :
  ListingSerializer.run_price_per_night (Decimal.mk 1005 (-3))
  = Raise (SerializerValidationError
             "Ensure that there are no more than the allowed decimal places.").
Proof. reflexivity. Qed.

Example price_of_thirteen_digits_is_refused :
  ListingSerializer.run_price_per_night (Decimal.mk 1234567890123 0)
  = Raise (SerializerValidationError
             "Ensure that there are no more than the allowed digits in total.").
Proof. vm_compute. reflexivity. Qed.

Example price_is_brought_to_two_places :
  ListingSerializer.run_price_per_night (Decimal.mk 5 0) = Ok (Decimal.mk 500 (-2)).
Proof. reflexivity. Qed.

(** Characters are code points, counted after the trimming. *)
Example hundred_letters_and_a_blank_are_accepted :
  CharField.run_validation (Some 100) (String.concat "" (repeat "a" 100) ++ " ")
  = Ok (String.concat "" (repeat "a" 100)).
Proof. vm_compute. reflexivity. Qed.

Example two_byte_letters_count_once :
  Str.len (String.concat "" (repeat "é" 51)) = 51 /\
  String.length (String.concat "" (repeat "é" 51)) = 102.
Proof. split; vm_compute; reflexivity. Qed.

Example blank_text_is_refused :
  CharField.run_validation None "   "
  = Raise (SerializerValidationError "This field may not be blank.").
Proof. vm_compute. reflexivity. Qed.

(** No hook of the booking serializer is found under the names that a
    serializer looks up. *)
Example booking_serializer_hooks :
  BookingSerializer.method "validate" = None /\
  BookingSerializer.field_hooks = [] /\
  map fst BookingSerializer.methods = ["validate_booking"].
Proof. repeat split. Qed.

Example rating_six_is_refused :
  ReviewSerializer.validate_rating 6
  = Raise (SerializerValidationError "Rating must be between 1 and 5.").
Proof. reflexivity. Qed.

(** 2025-01-10 is day 739261. *)
Example equal_dates_are_refused :
  Booking.clean (Booking.mk 0 0 0 (Some 739261%Z) (Some 739261%Z)
                            (Decimal.mk 25000 (-2)) "pending")
  = Raise (ValidationError "End date must be after start date.").
Proof. reflexivity. Qed.

Example date_max_plus_one_overflows :
  date_add_days date_max 1 = Raise OverflowError.
Proof. reflexivity. Qed.

Example host_in_username :
  map (fun ud => contains "host" (Command.ud_username ud)) Command.users_data
  = [true; true; false; false; true; false].
Proof. reflexivity. Qed.

Example seed_run_counts :
  let w := mkWorld (empty_store 1) (fun n => n * 7 + 3) 0 0 [] 739000%Z in
  let w' := snd (Command.handle true w) in
  (List.length (users (db w')), List.length (listings (db w')),
   List.length (bookings (db w')), List.length (reviews (db w')))
  = (6, 8, 15, 12).
Proof. vm_compute. reflexivity. Qed.

(* ================================================================== *)
(** * Properties: the validation hooks *)
(* ================================================================== *)

Lemma raises_validation_error_intro {A} (r : result A) (e : Exception) :
  r = Raise e -> is_validation_error e = true -> raises_validation_error r.
Proof. intros H1 H2. exists e. split; assumption. Qed.

Lemma clean_dates (b : Booking.t) (s e : date) :
  Booking.start_date b = Some s -> Booking.end_date b = Some e ->
  Booking.clean b =
  if (e <=? s)%Z then Raise (ValidationError "End date must be after start date.")
  else Ok tt.
Proof. intros Hs He. unfold Booking.clean. rewrite Hs, He. reflexivity. Qed.

(** C1, as stated, fails on the code.  On the write paths of a booking
    the dates are not compared: a create through the booking
    serializer with [end_date] equal to [start_date] stores the booking,
    an update of that booking with [end_date] before [start_date]
    rewrites it, and so does [Booking.objects.create], which the seed
    command calls.  The two methods that make the comparison refuse
    these dates when they are called, but no write calls them:
    [validate_booking] is named neither [validate] nor after a field,
    the names under which a serializer looks for its hooks, and [clean]
    is not run by a serializer or by [create]. *)
Theorem booking_write_stores_end_date_not_after_start_date :
  let john := User.mk 1 "john_host" "" "" "" false "" in
  let mike := User.mk 3 "mike_guest" "" "" "" false "" in
  let house := Listing.mk 10 1 "Cozy Beach House" "A house by the sea."
                          "Malibu, California" (Decimal.mk 25000 (-2)) in
  let price := Decimal.mk 25000 (-2) in
  let w := mkWorld (mkStore [john; mike] [house] [] [] 4) (fun n => n) 0 11 []
                   739000%Z in
  (* 2025-01-10 to 2025-01-10, then 2025-01-10 to 2025-01-04 *)
  let equal := BookingSerializer.mkData (Some 10) (Some 3) (Some 739261%Z)
                 (Some 739261%Z) (Some price) None in
  let before := BookingSerializer.mkData (Some 10) (Some 3) (Some 739261%Z)
                  (Some 739255%Z) (Some price) None in
  let stored := Booking.mk 11 10 3 (Some 739261%Z) (Some 739261%Z) price
                           "pending" in
  let rewritten := Booking.mk 11 10 3 (Some 739261%Z) (Some 739255%Z) price
                              "pending" in
  let w1 := snd (BookingSerializer.save None equal w) in
  let w2 := snd (BookingSerializer.save (Some stored) before w1) in
  (fst (BookingSerializer.save None equal w) = Ok (inr stored) /\
   bookings (db w1) = [stored]) /\
  (fst (BookingSerializer.save (Some stored) before w1) = Ok (inr rewritten) /\
   bookings (db w2) = [rewritten]) /\
  (fst (BookingManager.create house mike (Some 739261%Z) (Some 739255%Z) price
          "confirmed" w)
   = Ok (Booking.mk 11 10 3 (Some 739261%Z) (Some 739255%Z) price "confirmed")) /\
  raises_validation_error (Booking.clean stored) /\
  raises_validation_error (Booking.clean rewritten) /\
  raises_validation_error (BookingSerializer.validate_booking None (today w) equal) /\
  raises_validation_error
    (BookingSerializer.validate_booking (Some stored) (today w1) before) /\
  BookingSerializer.method "validate" = None /\
  BookingSerializer.field_hooks = [].
Proof.
  cbv zeta.
  split; [split; vm_compute; reflexivity |].
  split; [split; vm_compute; reflexivity |].
  split; [vm_compute; reflexivity |].
  split; [eapply raises_validation_error_intro; reflexivity |].
  split; [eapply raises_validation_error_intro; reflexivity |].
  split; [eapply raises_validation_error_intro; reflexivity |].
  split; [eapply raises_validation_error_intro; reflexivity |].
  split; reflexivity.
Qed.

(** C2, as stated, fails on the code.  A create through the booking
    serializer with a [start_date] ten days before today stores the
    booking: the date is not compared with the clock.  The method that
    makes the comparison, [validate_booking], refuses this request when
    it is called with no instance, but the serializer does not call it:
    it is named neither [validate] nor after a field. *)
Theorem new_booking_in_the_past_is_stored :
  let john := User.mk 1 "john_host" "" "" "" false "" in
  let mike := User.mk 3 "mike_guest" "" "" "" false "" in
  let house := Listing.mk 10 1 "Cozy Beach House" "A house by the sea."
                          "Malibu, California" (Decimal.mk 25000 (-2)) in
  (* today is day 739000; the stay is from day 738990 to day 738995 *)
  let w := mkWorld (mkStore [john; mike] [house] [] [] 4) (fun n => n) 0 11 []
                   739000%Z in
  let past := BookingSerializer.mkData (Some 10) (Some 3) (Some 738990%Z)
                (Some 738995%Z) (Some (Decimal.mk 125000 (-2))) (Some "confirmed") in
  let stored := Booking.mk 11 10 3 (Some 738990%Z) (Some 738995%Z)
                           (Decimal.mk 125000 (-2)) "confirmed" in
  fst (BookingSerializer.save None past w) = Ok (inr stored) /\
  bookings (db (snd (BookingSerializer.save None past w))) = [stored] /\
  BookingSerializer.validate_booking None (today w) past
  = Raise (SerializerValidationError "Start date cannot be in the past.") /\
  BookingSerializer.validate None (today w) past = Ok past.
Proof.
  cbv zeta. split; [vm_compute; reflexivity |].
  split; [vm_compute; reflexivity |].
  split; reflexivity.
Qed.

(** C10. [Booking.clean] raises a validation error exactly when both
    dates are set and [end_date <= start_date]; when either date is
    [None] it returns without error. *)
Theorem booking_clean_raises_exactly_when :
  forall b : Booking.t,
    ((exists x, Booking.clean b = Raise x) <->
     (exists s e, Booking.start_date b = Some s /\ Booking.end_date b = Some e
                  /\ (e <= s)%Z)) /\
    (forall x, Booking.clean b = Raise x -> is_validation_error x = true) /\
    (Booking.start_date b = None \/ Booking.end_date b = None ->
     Booking.clean b = Ok tt).
Proof.
  intros b. unfold Booking.clean.
  destruct (Booking.end_date b) as [e |], (Booking.start_date b) as [s |].
  - destruct (Z.leb_spec e s) as [Hle | Hlt]; split; [| split | | split].
    + split; [intros _; exists s, e; auto | intros _; eexists; reflexivity].
    + intros x Hx. inversion Hx. reflexivity.
    + intros [H | H]; discriminate.
    + split; [intros [x Hx]; discriminate |].
      intros (s' & e' & Hs & He & Hle). inversion Hs. inversion He. lia.
    + intros x Hx. discriminate.
    + intros [H | H]; discriminate.
  - split; [| split].
    + split; [intros [x Hx]; discriminate |].
      intros (s' & e' & Hs & _). discriminate.
    + intros x Hx. discriminate.
    + reflexivity.
  - split; [| split].
    + split; [intros [x Hx]; discriminate |].
      intros (s' & e' & _ & He & _). discriminate.
    + intros x Hx. discriminate.
    + reflexivity.
  - split; [| split].
    + split; [intros [x Hx]; discriminate |].
      intros (s' & e' & Hs & _). discriminate.
    + intros x Hx. discriminate.
    + reflexivity.
Qed.

Lemma booking_clean_raises_exactly_when_witness :
  Booking.clean (Booking.mk 0 0 0 None (Some 739261%Z)
                            (Decimal.mk 25000 (-2)) "pending") = Ok tt.
Proof.
  apply booking_clean_raises_exactly_when. left. reflexivity.
Defined.

(* ================================================================== *)
(** * Properties: cascade on delete *)
(* ================================================================== *)

Lemma mem_nat_true_iff (x : nat) (l : list nat) : mem_nat x l = true <-> In x l.
Proof.
  unfold mem_nat. rewrite existsb_exists. split.
  - intros (y & Hy & Heq). apply Nat.eqb_eq in Heq. subst. exact Hy.
  - intros H. exists x. split; [exact H | apply Nat.eqb_refl].
Qed.

Lemma mem_nat_gone (pk x : nat) (ls : list Listing.t) :
  In pk (map Listing.property_id ls) ->
  mem_nat x (map Listing.property_id
               (filter (fun l => Nat.eqb (Listing.property_id l) pk) ls))
  = Nat.eqb x pk.
Proof.
  intros Hin.
  destruct (Nat.eqb_spec x pk) as [-> | Hne].
  - apply mem_nat_true_iff. apply in_map_iff in Hin. destruct Hin as (l & Hl & Hl').
    apply in_map_iff. exists l. split; [exact Hl |].
    apply filter_In. split; [exact Hl' | rewrite Hl; apply Nat.eqb_refl].
  - destruct (mem_nat x _) eqn:E; [| reflexivity].
    apply mem_nat_true_iff in E. apply in_map_iff in E.
    destruct E as (l & Hl & Hl'). apply filter_In in Hl'.
    destruct Hl' as [_ Heq]. apply Nat.eqb_eq in Heq. congruence.
Qed.

(** C5. Deleting a stored listing deletes every booking and every review
    whose property is that listing (none is left), the bookings and
    reviews of the other listings stay as they were, in their order, and
    so do the other listings and the users. *)
Theorem listing_delete_cascades :
  forall (pk : uuid) (w : World),
    In pk (map Listing.property_id (listings (db w))) ->
    let r := ListingManager.delete pk w in
    let s := db w in
    let s' := db (snd r) in
    fst r = Ok tt /\
    ~ In pk (map Listing.property_id (listings s')) /\
    Forall (fun b => Booking.property b <> pk) (bookings s') /\
    Forall (fun x => Review.property x <> pk) (reviews s') /\
    bookings s' = filter (fun b => negb (Nat.eqb (Booking.property b) pk)) (bookings s) /\
    reviews s' = filter (fun x => negb (Nat.eqb (Review.property x) pk)) (reviews s) /\
    (forall b, In b (bookings s) -> Booking.property b <> pk -> In b (bookings s')) /\
    (forall x, In x (reviews s) -> Review.property x <> pk -> In x (reviews s')) /\
    listings s' = filter (fun l => negb (Nat.eqb (Listing.property_id l) pk)) (listings s) /\
    users s' = users s.
Proof.
  intros pk w Hin r s s'.
  assert (Hb : bookings s' =
               filter (fun b => negb (Nat.eqb (Booking.property b) pk)) (bookings s)).
  { subst r s s'. cbn. apply filter_ext. intros b.
    rewrite (mem_nat_gone pk _ _ Hin). reflexivity. }
  assert (Hr : reviews s' =
               filter (fun x => negb (Nat.eqb (Review.property x) pk)) (reviews s)).
  { subst r s s'. cbn. apply filter_ext. intros x.
    rewrite (mem_nat_gone pk _ _ Hin). reflexivity. }
  assert (Hl : listings s' =
               filter (fun l => negb (Nat.eqb (Listing.property_id l) pk)) (listings s))
    by reflexivity.
  split; [reflexivity |].
  split.
  { rewrite Hl. intros H. apply in_map_iff in H. destruct H as (l & Heq & H).
    apply filter_In in H. destruct H as [_ H]. rewrite Heq, Nat.eqb_refl in H.
    discriminate. }
  split.
  { rewrite Hb. apply Forall_forall. intros b H. apply filter_In in H.
    destruct H as [_ H]. intros Heq. rewrite Heq, Nat.eqb_refl in H. discriminate. }
  split.
  { rewrite Hr. apply Forall_forall. intros x H. apply filter_In in H.
    destruct H as [_ H]. intros Heq. rewrite Heq, Nat.eqb_refl in H. discriminate. }
  split; [exact Hb |]. split; [exact Hr |].
  split.
  { intros b Hb1 Hb2. rewrite Hb. apply filter_In. split; [exact Hb1 |].
    apply Nat.eqb_neq in Hb2. rewrite Hb2. reflexivity. }
  split.
  { intros x Hx1 Hx2. rewrite Hr. apply filter_In. split; [exact Hx1 |].
    apply Nat.eqb_neq in Hx2. rewrite Hx2. reflexivity. }
  split; [exact Hl | reflexivity].
Qed.

Lemma listing_delete_cascades_witness :
  let l1 := Listing.mk 1 1 "a" "" "x" (Decimal.mk 25000 (-2)) in
  let l2 := Listing.mk 2 1 "b" "" "y" (Decimal.mk 18000 (-2)) in
  let b1 := Booking.mk 3 1 7 (Some 739000%Z) (Some 739002%Z) (Decimal.mk 50000 (-2)) "pending" in
  let b2 := Booking.mk 4 2 7 (Some 739000%Z) (Some 739002%Z) (Decimal.mk 36000 (-2)) "pending" in
  let r1 := Review.mk 5 1 7 4%Z "fine" in
  let r2 := Review.mk 6 2 7 5%Z "good" in
  let w := mkWorld (mkStore [] [l1; l2] [b1; b2] [r1; r2] 8) (fun n => n) 0 7 [] 739000%Z in
  bookings (db (snd (ListingManager.delete 1 w))) = [b2] /\
  reviews (db (snd (ListingManager.delete 1 w))) = [r2].
Proof.
  intros l1 l2 b1 b2 r1 r2 w.
  destruct (listing_delete_cascades 1 w) as (_ & _ & _ & _ & Hb & Hr & _).
  - cbn. left. reflexivity.
  - split; [rewrite Hb | rewrite Hr]; reflexivity.
Defined.

(* ================================================================== *)
(** * Properties: the invariants of the stored rows *)
(* ================================================================== *)

Section Preservation.

Variable I : World -> Prop.

Lemma preserves_ret {A} (a : A) : preserves I (ret a).
Proof. intros w H. exact H. Qed.

Lemma preserves_raise {A} (e : Exception) : preserves I (@raise A e).
Proof. intros w H. exact H. Qed.

Lemma preserves_lift {A} (r : result A) : preserves I (lift r).
Proof. intros w H. exact H. Qed.

Lemma preserves_bind {A B} (m : M A) (k : A -> M B) :
  preserves I m -> (forall a, preserves I (k a)) -> preserves I (bind m k).
Proof.
  intros Hm Hk w H. unfold bind. specialize (Hm w H).
  destruct (m w) as [[a | e] w1]; cbn in *.
  - apply Hk. exact Hm.
  - exact Hm.
Qed.

Lemma preserves_forM {A B} (xs : list A) (body : A -> M B) :
  (forall x, In x xs -> preserves I (body x)) -> preserves I (forM xs body).
Proof.
  induction xs as [| x xs IH]; intros Hbody; cbn [forM].
  - apply preserves_ret.
  - apply preserves_bind.
    + apply Hbody. left. reflexivity.
    + intros y. apply preserves_bind.
      * apply IH. intros x' Hx'. apply Hbody. right. exact Hx'.
      * intros ys. apply preserves_ret.
Qed.

(** What does not write the database keeps any property of it. *)
Hypothesis I_db : forall w w', db w' = db w -> I w -> I w'.

Lemma preserves_db_fixed {A} (m : M A) :
  (forall w, db (snd (m w)) = db w) -> preserves I m.
Proof. intros Hm w H. apply (I_db w); [apply Hm | exact H]. Qed.

Lemma preserves_write line : preserves I (write line).
Proof. apply preserves_db_fixed. reflexivity. Qed.

Lemma preserves_uuid4 : preserves I uuid4.
Proof. apply preserves_db_fixed. reflexivity. Qed.

Lemma preserves_now_date : preserves I now_date.
Proof. apply preserves_db_fixed. reflexivity. Qed.

Lemma preserves_draw : preserves I random.draw.
Proof. apply preserves_db_fixed. reflexivity. Qed.

Lemma preserves_randint a b : preserves I (random.randint a b).
Proof.
  unfold random.randint. destruct (b <? a)%Z.
  - apply preserves_raise.
  - apply preserves_bind; [apply preserves_draw | intros r; apply preserves_ret].
Qed.

Lemma preserves_choice {A} (xs : list A) : preserves I (random.choice xs).
Proof.
  unfold random.choice. destruct xs as [| x xs].
  - apply preserves_raise.
  - apply preserves_bind; [apply preserves_draw |].
    intros r. destruct (nth_error _ _); [apply preserves_ret | apply preserves_raise].
Qed.

Lemma preserves_sample_loop {A} (k : nat) :
  forall pool : list A, preserves I (random.sample_loop k pool).
Proof.
  induction k as [| k IH]; intros pool; cbn [random.sample_loop].
  - apply preserves_ret.
  - apply preserves_bind; [apply preserves_draw |].
    intros r. destruct (nth_error _ _); [| apply preserves_raise].
    apply preserves_bind; [apply IH | intros xs; apply preserves_ret].
Qed.

Lemma preserves_sample {A} (pop : list A) (k : nat) :
  preserves I (random.sample pop k).
Proof.
  unfold random.sample. destruct (_ <? _)%nat.
  - apply preserves_raise.
  - apply preserves_sample_loop.
Qed.

End Preservation.

Lemma store_invariant_db (w w' : World) :
  db w' = db w -> store_invariant w -> store_invariant w'.
Proof. unfold store_invariant. intros ->. auto. Qed.

Lemma NoDup_keys_filter {A B} (key : A -> B) (keep : A -> bool) (rows : list A) :
  NoDup (map key rows) -> NoDup (map key (filter keep rows)).
Proof.
  induction rows as [| row rows IH]; cbn; intros Hkeys; [constructor |].
  apply NoDup_cons_iff in Hkeys. destruct Hkeys as [Hfresh Hkeys].
  destruct (keep row); cbn; [| exact (IH Hkeys)].
  apply NoDup_cons; [| exact (IH Hkeys)].
  intros Hin. apply Hfresh. apply in_map_iff in Hin.
  destruct Hin as (other & Hsame & Hin). apply filter_In in Hin.
  apply in_map_iff. exists other. tauto.
Qed.

Lemma Forall_filter {A} (P : A -> Prop) (p : A -> bool) (l : list A) :
  Forall P l -> Forall P (filter p l).
Proof.
  intros H. apply Forall_forall. intros x Hx. apply filter_In in Hx.
  rewrite Forall_forall in H. apply H. tauto.
Qed.

Lemma store_invariant_tables (w : World) (s : Store) :
  (Forall price_positive (listings (db w)) -> Forall price_positive (listings s)) ->
  (NoDup (map Review.unique_key (reviews (db w))) ->
   NoDup (map Review.unique_key (reviews s))) ->
  store_invariant w -> store_invariant (set_db w s).
Proof. intros Hl Hr [H1 H2]. split; cbn; [apply Hl, H1 | apply Hr, H2]. Qed.

Lemma preserves_get_or_create name d :
  preserves store_invariant (UserManager.get_or_create name d).
Proof.
  intros w H. unfold UserManager.get_or_create.
  destruct (filter _ _) as [| u [| u' us]]; cbn; exact H.
Qed.

Lemma preserves_user_save u : preserves store_invariant (UserManager.save u).
Proof.
  intros w H. unfold UserManager.save.
  destruct (mem_nat _ _); cbn; apply store_invariant_tables; auto.
Qed.

Lemma preserves_user_delete sel :
  preserves store_invariant (UserManager.delete_where sel).
Proof.
  intros w H. unfold UserManager.delete_where. cbn.
  apply store_invariant_tables; cbn; auto using Forall_filter, NoDup_keys_filter.
Qed.

Lemma preserves_listing_delete_where sel :
  preserves store_invariant (ListingManager.delete_where sel).
Proof.
  intros w H. unfold ListingManager.delete_where. cbn.
  apply store_invariant_tables; cbn; auto using Forall_filter, NoDup_keys_filter.
Qed.

Lemma preserves_listing_create h f :
  (0 < Decimal.toQ (ListingManager.f_price_per_night f))%Q ->
  preserves store_invariant (ListingManager.create h f).
Proof.
  intros Hpos w H. unfold ListingManager.create, bind, uuid4. cbn.
  apply store_invariant_tables; cbn; auto.
  intros Hall. apply Forall_app. split; [exact Hall |].
  constructor; [exact Hpos | constructor].
Qed.

Lemma preserves_booking_create l g s e total st :
  preserves store_invariant (BookingManager.create l g s e total st).
Proof.
  intros w H. unfold BookingManager.create.
  destruct s, e; exact H.
Qed.

Lemma preserves_booking_all_delete :
  preserves store_invariant BookingManager.all_delete.
Proof. intros w H. cbn. apply store_invariant_tables; auto. Qed.

Lemma preserves_review_all_delete :
  preserves store_invariant ReviewManager.all_delete.
Proof.
  intros w H. cbn. apply store_invariant_tables; cbn; auto. intros _. constructor.
Qed.

Lemma key_eqb_eq (a b : uuid * nat) : ReviewManager.key_eqb a b = true <-> a = b.
Proof.
  destruct a as [a1 a2], b as [b1 b2]. unfold ReviewManager.key_eqb. cbn.
  rewrite andb_true_iff, !Nat.eqb_eq. split.
  - intros [-> ->]. reflexivity.
  - intros H. inversion H. auto.
Qed.

Lemma existsb_key_false (k : uuid * nat) (rs : list Review.t) :
  existsb (fun r' => ReviewManager.key_eqb (Review.unique_key r') k) rs = false <->
  ~ In k (map Review.unique_key rs).
Proof.
  split.
  - intros H Hin. apply in_map_iff in Hin. destruct Hin as (r & Hr & Hin).
    assert (E : existsb (fun r' => ReviewManager.key_eqb (Review.unique_key r') k) rs = true).
    { apply existsb_exists. exists r. split; [exact Hin | apply key_eqb_eq; exact Hr]. }
    congruence.
  - intros H. destruct (existsb _ rs) eqn:E; [| reflexivity].
    exfalso. apply H. apply existsb_exists in E. destruct E as (r & Hin & Hk).
    apply key_eqb_eq in Hk. apply in_map_iff. exists r. auto.
Qed.

Lemma NoDup_map_snoc {A B} (f : A -> B) (l : list A) (x : A) :
  NoDup (map f l) -> ~ In (f x) (map f l) -> NoDup (map f (l ++ [x])).
Proof.
  intros Hnd Hnotin. rewrite map_app. cbn.
  apply NoDup_app; [exact Hnd | constructor; [intros [] | constructor] |].
  intros y Hy [<- | []]. exact (Hnotin Hy).
Qed.

Lemma preserves_review_create l g rating c :
  preserves store_invariant (ReviewManager.create l g rating c).
Proof.
  intros w H. unfold ReviewManager.create, bind, uuid4. cbn.
  destruct (existsb _ _) eqn:E; cbn.
  - destruct H as [H1 H2]. split; assumption.
  - apply existsb_key_false in E. destruct H as [H1 H2].
    split; cbn; [exact H1 |]. apply NoDup_map_snoc; assumption.
Qed.

Ltac preserve_step :=
  first
    [ apply preserves_ret
    | apply preserves_raise
    | apply preserves_lift
    | apply (preserves_write _ store_invariant_db)
    | apply (preserves_uuid4 _ store_invariant_db)
    | apply (preserves_now_date _ store_invariant_db)
    | apply (preserves_randint _ store_invariant_db)
    | apply (preserves_choice _ store_invariant_db)
    | apply (preserves_sample _ store_invariant_db)
    | apply preserves_get_or_create
    | apply preserves_user_save
    | apply preserves_user_delete
    | apply preserves_listing_delete_where
    | apply preserves_booking_create
    | apply preserves_booking_all_delete
    | apply preserves_review_all_delete
    | apply preserves_review_create
    | apply preserves_bind
    | apply preserves_forM ].

Ltac preserve := repeat (intros; preserve_step).

Lemma toQ_nonpositive_iff (d : Decimal.t) :
  (Decimal.toQ d <= 0)%Q <-> (Decimal.coef d <= 0)%Z.
Proof.
  unfold Decimal.toQ. destruct (Z.leb_spec 0 (Decimal.exp d)) as [He | He].
  - change 0%Q with (inject_Z 0). rewrite <- Zle_Qle.
    assert (Hp : (0 < 10 ^ Decimal.exp d)%Z) by (apply Z.pow_pos_nonneg; lia).
    split; intros H; nia.
  - unfold Qle. cbn [Qnum Qden]. lia.
Qed.

Lemma quantize_coef_nonpositive (p : Z) (v : Decimal.t) :
  (Decimal.coef v <= 0)%Z -> (Decimal.coef (DecimalField.quantize p v) <= 0)%Z.
Proof.
  intros Hc. unfold DecimalField.quantize.
  destruct (Z.leb_spec (- p - Decimal.exp v) 0) as [Hk | Hk]; cbn [Decimal.coef].
  - assert (Hp : (0 <= 10 ^ (- (- p - Decimal.exp v)))%Z) by (apply Z.pow_nonneg; lia).
    nia.
  - set (n := Z.abs (Decimal.coef v)).
    set (q := (n / 10 ^ (- p - Decimal.exp v))%Z).
    assert (Hq : (0 <= q)%Z).
    { apply Z.div_pos; [apply Z.abs_nonneg | apply Z.pow_pos_nonneg; lia]. }
    assert (Hs : (Z.sgn (Decimal.coef v) <= 0)%Z) by lia.
    destruct (_ || _); nia.
Qed.

Lemma quantize_nonpositive (p : Z) (v : Decimal.t) :
  (Decimal.toQ v <= 0)%Q -> (Decimal.toQ (DecimalField.quantize p v) <= 0)%Q.
Proof.
  rewrite !toQ_nonpositive_iff. apply quantize_coef_nonpositive.
Qed.

Lemma validate_precision_inv (m p : Z) (v v' : Decimal.t) :
  DecimalField.validate_precision m p v = Ok v' ->
  v' = v /\ (DecimalField.total_digits v <= m)%Z /\
  (DecimalField.places v <= p)%Z /\ (DecimalField.whole_digits v <= m - p)%Z.
Proof.
  unfold DecimalField.validate_precision.
  destruct (Z.ltb_spec m (DecimalField.total_digits v)) as [| H1]; [discriminate |].
  destruct (Z.ltb_spec p (DecimalField.places v)) as [| H2]; [discriminate |].
  destruct (Z.ltb_spec (m - p) (DecimalField.whole_digits v)) as [| H3];
    [discriminate |].
  intros E. inversion E. subst v'.
  split; [reflexivity | split; [| split]]; assumption.
Qed.

Lemma validate_precision_raises (m p : Z) (v : Decimal.t) (e : Exception) :
  DecimalField.validate_precision m p v = Raise e -> is_validation_error e = true.
Proof.
  unfold DecimalField.validate_precision.
  repeat (destruct (_ <? _)%Z;
          [let H := fresh in intros H; inversion H; reflexivity |]).
  discriminate.
Qed.

Lemma min_validator_raises (limit value : Q) (e : Exception) :
  run_validators [MinValueValidator limit] value = Raise e ->
  is_validation_error e = true.
Proof.
  cbn [run_validators]. unfold MinValueValidator.
  destruct (Qltb value limit); [| discriminate].
  intros H. inversion H. reflexivity.
Qed.

Lemma decimal_field_inv (m p : Z) (vs : list (Q -> result unit)) (v v' : Decimal.t) :
  DecimalField.run_validation m p vs v = Ok v' ->
  DecimalField.validate_precision m p v = Ok v /\
  v' = DecimalField.quantize p v /\
  run_validators vs (Decimal.toQ v') = Ok tt.
Proof.
  unfold DecimalField.run_validation.
  destruct (DecimalField.validate_precision m p v) as [v0 |] eqn:E; [| discriminate].
  destruct (validate_precision_inv _ _ _ _ E) as [-> _].
  destruct (run_validators _ _) as [[] |] eqn:E'; [| discriminate].
  intros H. inversion H. subst v'. auto.
Qed.

Lemma price_accepted_positive (v v' : Decimal.t) :
  ListingSerializer.run_price_per_night v = Ok v' ->
  v' = DecimalField.quantize Listing.price_per_night_decimal_places v /\
  (0 < Decimal.toQ v')%Q.
Proof.
  unfold ListingSerializer.run_price_per_night.
  destruct (DecimalField.run_validation _ _ _ v) as [v0 |] eqn:E; [| discriminate].
  apply decimal_field_inv in E. destruct E as (_ & -> & _).
  unfold ListingSerializer.validate_price_per_night.
  destruct (Qle_bool _ 0) eqn:E; [discriminate |].
  intros H. inversion H. subst v'. split; [reflexivity |].
  apply Qnot_le_lt. intros Hle.
  apply Qle_bool_iff in Hle. congruence.
Qed.

Lemma validate_price_rejects (v : Decimal.t) :
  (Decimal.toQ v <= 0)%Q ->
  raises_validation_error (ListingSerializer.validate_price_per_night v).
Proof.
  intros Hle. unfold ListingSerializer.validate_price_per_night.
  apply Qle_bool_iff in Hle. rewrite Hle.
  eapply raises_validation_error_intro; reflexivity.
Qed.

Lemma price_rejected (v : Decimal.t) :
  (Decimal.toQ v <= 0)%Q ->
  raises_validation_error (ListingSerializer.run_price_per_night v).
Proof.
  intros Hle.
  unfold ListingSerializer.run_price_per_night, DecimalField.run_validation.
  destruct (DecimalField.validate_precision _ _ v) as [v0 | e] eqn:E.
  - destruct (validate_precision_inv _ _ _ _ E) as [-> _].
    cbv zeta.
    destruct (run_validators _ _) as [[] | e] eqn:E'.
    + apply validate_price_rejects. apply quantize_nonpositive. exact Hle.
    + exists e. split; [reflexivity |]. exact (min_validator_raises _ _ _ E').
  - exists e. split; [reflexivity |]. exact (validate_precision_raises _ _ _ _ E).
Qed.

Lemma run_validation_price (s : Store) (d : ListingSerializer.data) :
  ListingSerializer.run_validation s d = [] ->
  (0 < Decimal.toQ (ListingManager.f_price_per_night
                      (ListingSerializer.validated_data d)))%Q.
Proof.
  unfold ListingSerializer.run_validation. intros H.
  apply app_eq_nil in H. destruct H as [_ H].
  apply app_eq_nil in H. destruct H as [_ H].
  apply app_eq_nil in H. destruct H as [_ H].
  apply app_eq_nil in H. destruct H as [_ H].
  destruct (ListingSerializer.run_price_per_night _) as [v' | e] eqn:E.
  - apply price_accepted_positive in E. destruct E as [-> Hpos]. exact Hpos.
  - discriminate.
Qed.

Lemma Forall_map_replace {A} (P : A -> Prop) (p : A -> bool) (y : A) (l : list A) :
  P y -> Forall P l -> Forall P (map (fun x => if p x then y else x) l).
Proof.
  intros Hy H. apply Forall_forall. intros x Hx. apply in_map_iff in Hx.
  destruct Hx as (x0 & <- & Hx0). destruct (p x0); [exact Hy |].
  rewrite Forall_forall in H. auto.
Qed.

Lemma preserves_listing_save instance d :
  preserves store_invariant (ListingSerializer.save instance d).
Proof.
  intros w H. unfold ListingSerializer.save.
  destruct (ListingSerializer.run_validation (db w) d) eqn:E; [| exact H].
  apply run_validation_price in E.
  destruct instance as [old |].
  - destruct (mem_nat _ _); cbn; apply store_invariant_tables; cbn; auto.
    + intros Hall. apply Forall_map_replace; [exact E | exact Hall].
    + intros Hall. apply Forall_app. split; [exact Hall |].
      constructor; [exact E | constructor].
  - destruct (ListingSerializer.resolve_host _ _) as [h | e]; [| exact H].
    apply preserves_bind; [| intros; apply preserves_ret | exact H].
    apply preserves_listing_create. exact E.
Qed.

Lemma listings_data_positive :
  Forall (fun f => (0 < Decimal.toQ (ListingManager.f_price_per_night f))%Q)
         Command.listings_data.
Proof. repeat constructor. Qed.

Lemma preserves_create_users : preserves store_invariant Command.create_users.
Proof.
  unfold Command.create_users, Command.create_user. preserve.
  all: intros [u c]; destruct c; preserve.
Qed.

Lemma preserves_create_listings users :
  preserves store_invariant (Command.create_listings users).
Proof.
  unfold Command.create_listings. apply preserves_forM. intros il Hin.
  apply preserves_bind.
  - unfold Command.index_mod. destruct (List.length _); [preserve |].
    destruct (nth_error _ _); preserve.
  - intros h. apply preserves_listing_create.
    pose proof listings_data_positive as Hpos. rewrite Forall_forall in Hpos.
    apply Hpos. destruct il as [i f]. apply in_combine_r in Hin. exact Hin.
Qed.

Lemma preserves_create_bookings ls us :
  preserves store_invariant (Command.create_bookings ls us).
Proof. unfold Command.create_bookings, Command.create_booking. preserve. Qed.

Lemma preserves_create_reviews ls us :
  preserves store_invariant (Command.create_reviews ls us).
Proof.
  unfold Command.create_reviews, Command.review_listing, Command.create_review.
  preserve.
Qed.

Lemma preserves_handle clear : preserves store_invariant (Command.handle clear).
Proof.
  unfold Command.handle. apply preserves_bind.
  - destruct clear; [| apply preserves_ret].
    unfold Command.clear_data, ListingManager.all_delete. preserve.
  - intros _. apply preserves_bind; [preserve |]. intros _.
    apply preserves_bind; [apply preserves_create_users |]. intros users.
    apply preserves_bind; [preserve |]. intros _.
    apply preserves_bind; [apply preserves_create_listings |]. intros ls.
    apply preserves_bind; [preserve |]. intros _.
    apply preserves_bind; [apply preserves_create_bookings |]. intros bs.
    apply preserves_bind; [preserve |]. intros _.
    apply preserves_bind; [apply preserves_create_reviews |]. intros rs.
    preserve.
Qed.

Lemma step_invariant (w w' : World) :
  step w w' -> store_invariant w -> store_invariant w'.
Proof.
  intros Hstep H. destruct Hstep.
  - apply preserves_listing_save; exact H.
  - apply preserves_listing_delete_where; exact H.
  - apply preserves_booking_create; exact H.
  - apply preserves_review_create; exact H.
  - apply preserves_get_or_create; exact H.
  - apply preserves_user_delete; exact H.
  - apply preserves_handle; exact H.
  - exact H.
Qed.

Lemma reachable_invariant (w : World) : reachable w -> store_invariant w.
Proof.
  induction 1 as [w (_ & Hl & _ & Hr) | w w' _ IH Hstep].
  - split; red; [rewrite Hl | rewrite Hr]; constructor.
  - eapply step_invariant; eassumption.
Qed.

(** C3. For a listing that is created (no instance) or updated (an
    instance) through the serializer, a submitted [price_per_night] less
    than or equal to zero is rejected: the hook raises a validation
    error, the write reports an error on the field [price_per_night] and
    leaves the world, so the store, as it was; and every listing of a
    reachable store has [price_per_night > 0]. *)
Theorem listing_price_must_be_positive :
  (forall v : Decimal.t,
     (Decimal.toQ v <= 0)%Q ->
     raises_validation_error (ListingSerializer.validate_price_per_night v)) /\
  (forall (instance : option Listing.t) (d : ListingSerializer.data) (w : World),
     (Decimal.toQ (ListingSerializer.price_per_night d) <= 0)%Q ->
     exists errs,
       ListingSerializer.save instance d w = (Ok (inl errs), w) /\
       (exists e, In ("price_per_night", e) errs /\ is_validation_error e = true)) /\
  (forall w : World,
     reachable w ->
     Forall (fun l => (0 < Decimal.toQ (Listing.price_per_night l))%Q)
            (listings (db w))).
Proof.
  split; [exact validate_price_rejects |]. split.
  - intros instance d w Hle.
    destruct (price_rejected _ Hle) as (e & He & Hv).
    unfold ListingSerializer.save.
    assert (Hin : In ("price_per_night", e) (ListingSerializer.run_validation (db w) d)).
    { unfold ListingSerializer.run_validation. rewrite He.
      apply in_or_app. right. apply in_or_app. right. apply in_or_app. right.
      apply in_or_app. right. left. reflexivity. }
    destruct (ListingSerializer.run_validation (db w) d) as [| x errs] eqn:E.
    + destruct Hin.
    + exists (x :: errs). split; [reflexivity |]. exists e. split; assumption.
  - intros w Hw. apply reachable_invariant in Hw. exact (proj1 Hw).
Qed.

Lemma listing_price_must_be_positive_witness :
  let d := ListingSerializer.mkData 1 "Cozy Beach House" "" "Malibu, California"
                                    (Decimal.mk 0 (-2)) in
  let w := mkWorld (mkStore [User.mk 1 "john_host" "" "" "" false ""] [] [] [] 2)
                   (fun n => n) 0 0 [] 739000%Z in
  exists errs,
    ListingSerializer.save None d w = (Ok (inl errs), w) /\
    (exists e, In ("price_per_night", e) errs /\ is_validation_error e = true).
Proof.
  intros d w.
  apply (proj1 (proj2 listing_price_must_be_positive) None d w).
  vm_compute. discriminate.
Defined.

(** C4. In a reachable store at most one review exists for every
    (listing, user) pair; inserting a review whose property and user are
    those of a stored review is rejected with an integrity error, and
    the store is unchanged by the failed insert. *)
Theorem review_unique_per_listing_and_user :
  forall w : World,
    reachable w ->
    NoDup (map Review.unique_key (reviews (db w))) /\
    (forall (l : Listing.t) (g : User.t) (rating : Z) (c : string) (r0 : Review.t),
       In r0 (reviews (db w)) ->
       Review.property r0 = Listing.property_id l ->
       Review.user r0 = User.id g ->
       (exists msg, fst (ReviewManager.create l g rating c w) = Raise (IntegrityError msg)) /\
       db (snd (ReviewManager.create l g rating c w)) = db w).
Proof.
  intros w Hw. split.
  - apply reachable_invariant in Hw. exact (proj2 Hw).
  - intros l g rating c r0 Hin Hp Hu.
    assert (E : existsb
                  (fun r' => ReviewManager.key_eqb (Review.unique_key r')
                               (Review.unique_key
                                  (Review.mk (next_uuid w) (Listing.property_id l)
                                             (User.id g) rating c)))
                  (reviews (db w)) = true).
    { apply existsb_exists. exists r0. split; [exact Hin |].
      apply key_eqb_eq. unfold Review.unique_key. cbn. rewrite Hp, Hu. reflexivity. }
    unfold ReviewManager.create, bind, uuid4. cbn. rewrite E. cbn.
    split; [eexists; reflexivity | reflexivity].
Qed.

Lemma review_unique_per_listing_and_user_witness :
  let l := Listing.mk 10 1 "Cozy Beach House" "" "Malibu, California"
                      (Decimal.mk 25000 (-2)) in
  let g := User.mk 3 "mike_guest" "" "" "" false "" in
  let w0 := mkWorld (empty_store 1) (fun n => n) 0 0 [] 739000%Z in
  let w1 := snd (ReviewManager.create l g 4%Z "Exactly as described." w0) in
  List.length (reviews (db w1)) = 1 /\
  db (snd (ReviewManager.create l g 5%Z "Wonderful stay!" w1)) = db w1.
Proof.
  intros l g w0 w1. split; [reflexivity |].
  assert (Hw1 : reachable w1).
  { apply (reachable_step w0).
    - apply reachable_init. repeat split.
    - apply step_review_create. }
  destruct (review_unique_per_listing_and_user w1 Hw1) as [_ H].
  apply (H l g 5%Z "Wonderful stay!" (Review.mk 0 10 3 4%Z "Exactly as described.")).
  - left. reflexivity.
  - reflexivity.
  - reflexivity.
Defined.

(* ================================================================== *)
(** * Properties: the seed command *)
(* ================================================================== *)

Lemma bind_ok {A B} (m : M A) (k : A -> M B) (w w' : World) (a : A) :
  m w = (Ok a, w') -> bind m k w = k a w'.
Proof. intros H. unfold bind. rewrite H. reflexivity. Qed.

Lemma forM_cons_ok {A B} (body : A -> M B) (x : A) (xs : list A)
    (w w1 w2 : World) (y : B) (ys : list B) :
  body x w = (Ok y, w1) -> forM xs body w1 = (Ok ys, w2) ->
  forM (x :: xs) body w = (Ok (y :: ys), w2).
Proof.
  intros E1 E2. cbn [forM].
  rewrite (bind_ok _ _ _ _ _ E1), (bind_ok _ _ _ _ _ E2). reflexivity.
Qed.

(** ** Users *)

Lemma filter_username_absent (l : list User.t) (name : string) :
  ~ In name (map User.username l) ->
  filter (fun u => String.eqb (User.username u) name) l = [].
Proof.
  induction l as [| v l IH]; cbn; intros H; [reflexivity |].
  destruct (String.eqb_spec (User.username v) name) as [E | E].
  - exfalso. apply H. left. exact E.
  - apply IH. intros Hin. apply H. right. exact Hin.
Qed.

Lemma filter_username_unique (l : list User.t) (u : User.t) :
  NoDup (map User.username l) -> In u l ->
  filter (fun v => String.eqb (User.username v) (User.username u)) l = [u].
Proof.
  induction l as [| v l IH]; cbn; intros Hnd Hin; [destruct Hin |].
  inversion Hnd as [| ? ? Hnotin Hnd']; subst.
  destruct Hin as [-> | Hin].
  - rewrite String.eqb_refl. f_equal. apply filter_username_absent. exact Hnotin.
  - destruct (String.eqb_spec (User.username v) (User.username u)) as [E | E].
    + exfalso. apply Hnotin. rewrite E. apply in_map. exact Hin.
    + apply IH; assumption.
Qed.

Lemma map_replace_fresh (l : list User.t) (n : nat) (u' : User.t) :
  Forall (fun u => User.id u < n) l ->
  map (fun v => if Nat.eqb (User.id v) n then u' else v) l = l.
Proof.
  induction 1 as [| v l Hv _ IH]; cbn; [reflexivity |].
  rewrite IH. destruct (Nat.eqb_spec (User.id v) n); [lia | reflexivity].
Qed.

Lemma create_user_present (ud : Command.user_data) (w : World) (u : User.t) :
  NoDup (map User.username (users (db w))) ->
  In u (users (db w)) -> User.username u = Command.ud_username ud ->
  Command.create_user ud w = (Ok u, w).
Proof.
  intros Hnd Hin Hname. unfold Command.create_user, bind, UserManager.get_or_create.
  rewrite <- Hname, (filter_username_unique _ u Hnd Hin). reflexivity.
Qed.

Lemma create_user_absent (ud : Command.user_data) (w : World) :
  Forall (fun u => User.id u < next_user_id (db w)) (users (db w)) ->
  ~ In (Command.ud_username ud) (map User.username (users (db w))) ->
  let u := User.mk (next_user_id (db w)) (Command.ud_username ud)
                   (Command.ud_email ud) (Command.ud_first_name ud)
                   (Command.ud_last_name ud) false "password123" in
  Command.create_user ud w =
  (Ok u, set_db w (set_users (db w) (users (db w) ++ [u]) (S (next_user_id (db w))))).
Proof.
  intros Hfresh Habsent u.
  unfold Command.create_user, bind, UserManager.get_or_create.
  rewrite (filter_username_absent _ _ Habsent).
  unfold UserManager.save, ret. cbn.
  assert (Hmem : mem_nat (next_user_id (db w))
                   (map User.id (users (db w) ++
                      [User.mk (next_user_id (db w)) (Command.ud_username ud)
                         (Command.ud_email ud) (Command.ud_first_name ud)
                         (Command.ud_last_name ud) false ""])) = true).
  { apply mem_nat_true_iff. rewrite map_app. apply in_or_app. right. left. reflexivity. }
  unfold mem_nat in Hmem. rewrite Hmem. cbn.
  rewrite map_app, (map_replace_fresh _ _ _ Hfresh). cbn.
  rewrite Nat.eqb_refl. reflexivity.
Qed.

Lemma users_wf_snoc (s : Store) (u : User.t) :
  users_wf s -> User.id u = next_user_id s ->
  ~ In (User.username u) (map User.username (users s)) ->
  users_wf (set_users s (users s ++ [u]) (S (next_user_id s))).
Proof.
  intros (Hn & Hi & Hf) Hid Habsent. repeat split; cbn.
  - apply NoDup_map_snoc; assumption.
  - apply NoDup_map_snoc; [assumption |]. intros Hin. apply in_map_iff in Hin.
    destruct Hin as (v & Hv & Hin). rewrite Forall_forall in Hf.
    specialize (Hf v Hin). lia.
  - apply Forall_app. split.
    + eapply Forall_impl; [| exact Hf]. cbn. intros v Hv. lia.
    + constructor; [lia | constructor].
Qed.

(** One turn of the loop of [create_users] succeeds in a well-formed
    store: the user of that name is returned and stored, and at most
    one row is added. *)
Lemma create_user_spec (ud : Command.user_data) (w : World) :
  users_wf (db w) ->
  exists u w',
    Command.create_user ud w = (Ok u, w') /\
    User.username u = Command.ud_username ud /\
    In u (users (db w')) /\
    users_wf (db w') /\
    (exists new, users (db w') = users (db w) ++ new /\ List.length new <= 1 /\
                 (In (Command.ud_username ud) (map User.username (users (db w))) ->
                  w' = w)) /\
    listings (db w') = listings (db w) /\
    bookings (db w') = bookings (db w) /\
    reviews (db w') = reviews (db w) /\
    next_uuid w' = next_uuid w /\ today w' = today w.
Proof.
  intros Hwf. pose proof Hwf as (Hn & Hi & Hf).
  destruct (in_dec string_dec (Command.ud_username ud)
                   (map User.username (users (db w)))) as [Hin | Hout].
  - apply in_map_iff in Hin. destruct Hin as (u & Hname & Hin).
    exists u, w. split; [apply create_user_present; assumption |].
    split; [exact Hname |]. split; [exact Hin |]. split; [exact Hwf |].
    split; [| repeat split].
    exists []. rewrite app_nil_r. repeat split; cbn; auto.
  - eexists. eexists. split; [apply create_user_absent; assumption |].
    split; [reflexivity |]. split; [cbn; apply in_or_app; right; left; reflexivity |].
    split; [apply users_wf_snoc; [exact Hwf | reflexivity | exact Hout] |].
    split; [| repeat split].
    eexists. split; [reflexivity |]. split; [cbn; lia |]. intros Hin. contradiction.
Qed.

Lemma create_users_loop_spec (data : list Command.user_data) :
  forall w : World,
    users_wf (db w) ->
    exists us w',
      forM data Command.create_user w = (Ok us, w') /\
      map User.username us = map Command.ud_username data /\
      incl us (users (db w')) /\
      users_wf (db w') /\
      (exists new, users (db w') = users (db w) ++ new /\
                   List.length new <= List.length data) /\
      (incl (map Command.ud_username data) (map User.username (users (db w))) ->
       w' = w) /\
      listings (db w') = listings (db w) /\
      bookings (db w') = bookings (db w) /\
      reviews (db w') = reviews (db w) /\
      next_uuid w' = next_uuid w /\ today w' = today w.
Proof.
  induction data as [| ud data IH]; intros w Hwf.
  - exists [], w. cbn. repeat split; auto.
    + intros x [].
    + destruct Hwf; tauto.
    + destruct Hwf; tauto.
    + destruct Hwf; tauto.
    + exists []. rewrite app_nil_r. auto.
  - destruct (create_user_spec ud w Hwf)
      as (u & w1 & E1 & Hname & Hin & Hwf1 & (new1 & Hnew1 & Hlen1 & Hsame1) & Hl1 & Hb1 & Hr1 & Hu1 & Ht1).
    destruct (IH w1 Hwf1)
      as (us & w2 & E2 & Hnames & Hincl & Hwf2 & (new2 & Hnew2 & Hlen2) & Hsame2 & Hl2 & Hb2 & Hr2 & Hu2 & Ht2).
    exists (u :: us), w2. cbn [forM].
    rewrite (bind_ok _ _ _ _ _ E1), (bind_ok _ _ _ _ _ E2).
    split; [reflexivity |].
    split; [cbn; rewrite Hname, Hnames; reflexivity |].
    split.
    { intros x [<- | Hx]; [| auto]. rewrite Hnew2. apply in_or_app. left. exact Hin. }
    split; [exact Hwf2 |].
    split.
    { exists (new1 ++ new2). rewrite Hnew2, Hnew1, app_assoc. split; [reflexivity |].
      rewrite length_app. cbn. lia. }
    split.
    { intros Hall.
      assert (Hw1 : w1 = w) by (apply Hsame1, Hall; left; reflexivity).
      rewrite Hw1 in Hsame2. apply Hsame2. intros x Hx. apply Hall. right. exact Hx. }
    repeat split; congruence.
Qed.

(** A second run of the loop finds every user and writes nothing. *)
Lemma create_users_loop_again (data : list Command.user_data) :
  forall (us : list User.t) (w : World),
    NoDup (map User.username (users (db w))) ->
    map User.username us = map Command.ud_username data ->
    incl us (users (db w)) ->
    forM data Command.create_user w = (Ok us, w).
Proof.
  induction data as [| ud data IH]; intros us w Hnd Hnames Hincl.
  - destruct us; [reflexivity | discriminate].
  - destruct us as [| u us]; [discriminate |]. cbn in Hnames.
    inversion Hnames as [[Hname Hrest]]. cbn [forM].
    rewrite (bind_ok _ _ _ _ _ (create_user_present ud w u Hnd (Hincl u (or_introl eq_refl)) Hname)).
    rewrite (bind_ok _ _ _ _ _ (IH us w Hnd Hrest (fun x Hx => Hincl x (or_intror Hx)))).
    reflexivity.
Qed.

(** ** The random source *)

Lemma unchanged_refl (w : World) : unchanged w w.
Proof. repeat split. Qed.

Lemma unchanged_trans (w1 w2 w3 : World) :
  unchanged w1 w2 -> unchanged w2 w3 -> unchanged w1 w3.
Proof. intros (A1 & A2 & A3) (B1 & B2 & B3). repeat split; congruence. Qed.

Lemma randint_spec (a b : Z) (w : World) :
  (a <= b)%Z ->
  exists z w', random.randint a b w = (Ok z, w') /\ (a <= z <= b)%Z /\ unchanged w w'.
Proof.
  intros Hab. unfold random.randint.
  destruct (Z.ltb_spec b a) as [H | _]; [lia |].
  eexists. eexists. split; [reflexivity |]. split; [| repeat split].
  pose proof (Z.mod_pos_bound (Z.of_nat (draws w (drawn w))) (b - a + 1)) as Hm.
  lia.
Qed.

Lemma nth_error_mod {A} (xs : list A) (r : nat) :
  xs <> [] -> exists x, nth_error xs (r mod List.length xs) = Some x /\ In x xs.
Proof.
  intros Hne. destruct (nth_error xs (r mod List.length xs)) as [x |] eqn:E.
  - exists x. split; [reflexivity |]. eapply nth_error_In. exact E.
  - apply nth_error_None in E.
    assert (List.length xs <> 0) by (destruct xs; [congruence | discriminate]).
    pose proof (Nat.mod_upper_bound r (List.length xs)). lia.
Qed.

Lemma choice_spec {A} (xs : list A) (w : World) :
  xs <> [] ->
  exists x w', random.choice xs w = (Ok x, w') /\ In x xs /\ unchanged w w'.
Proof.
  intros Hne. destruct (nth_error_mod xs (draws w (drawn w)) Hne) as (x & E & Hin).
  unfold random.choice. destruct xs as [| y ys]; [congruence |].
  unfold bind, random.draw. rewrite E.
  eexists. eexists. split; [reflexivity |]. split; [exact Hin | repeat split].
Qed.

Lemma remove_nth_split {A} (l1 l2 : list A) (x : A) :
  random.remove_nth (List.length l1) (l1 ++ x :: l2) = l1 ++ l2.
Proof.
  unfold random.remove_nth. induction l1 as [| y l1 IH]; cbn.
  - reflexivity.
  - f_equal. exact IH.
Qed.

Lemma sample_loop_spec {A} (k : nat) :
  forall (pool : list A) (w : World),
    k <= List.length pool ->
    exists xs w',
      random.sample_loop k pool w = (Ok xs, w') /\
      List.length xs = k /\ incl xs pool /\
      (forall (B : Type) (f : A -> B), NoDup (map f pool) -> NoDup (map f xs)) /\
      unchanged w w'.
Proof.
  induction k as [| k IH]; intros pool w Hk.
  - exists [], w. cbn. repeat split; [intros x [] | intros; constructor].
  - assert (Hne : pool <> []) by (destruct pool; [cbn in Hk; lia | discriminate]).
    destruct (nth_error_mod pool (draws w (drawn w)) Hne) as (x & E & Hin).
    destruct (nth_error_split _ _ E) as (l1 & l2 & Hpool & Hlen).
    cbn [random.sample_loop]. unfold bind at 1. unfold random.draw at 1.
    cbv beta iota.
    assert (Hrm : random.remove_nth (draws w (drawn w) mod List.length pool) pool
                  = l1 ++ l2).
    { rewrite <- Hlen. rewrite Hpool. apply remove_nth_split. }
    rewrite E, Hrm.
    destruct (IH (l1 ++ l2)
                 (mkWorld (db w) (draws w) (S (drawn w)) (next_uuid w) (stdout w)
                          (today w)))
      as (xs & w' & E' & Hxs & Hincl & Hnd & Hun).
    { rewrite Hpool in Hk. rewrite length_app in *. cbn in Hk. lia. }
    rewrite (bind_ok _ _ _ _ _ E').
    exists (x :: xs), w'. split; [reflexivity |].
    split; [cbn; lia |].
    split.
    { intros y [<- | Hy]; [exact Hin |]. rewrite Hpool.
      apply Hincl in Hy. apply in_app_or in Hy. apply in_or_app.
      destruct Hy; [left | right; right]; assumption. }
    split.
    { intros B f Hf. rewrite Hpool, map_app in Hf. cbn in Hf.
      pose proof (NoDup_remove_1 _ _ _ Hf) as H1.
      pose proof (NoDup_remove_2 _ _ _ Hf) as H2.
      rewrite <- map_app in H1, H2. cbn. constructor; [| apply Hnd; exact H1].
      intros Hy. apply H2. apply in_map_iff in Hy. destruct Hy as (y & Hfy & Hy).
      apply in_map_iff. exists y. split; [exact Hfy | apply Hincl; exact Hy]. }
    destruct Hun as (U1 & U2 & U3). repeat split; assumption.
Qed.

Lemma sample_spec {A} (pool : list A) (k : nat) (w : World) :
  k <= List.length pool ->
  exists xs w',
    random.sample pool k w = (Ok xs, w') /\
    List.length xs = k /\ incl xs pool /\
    (forall (B : Type) (f : A -> B), NoDup (map f pool) -> NoDup (map f xs)) /\
    unchanged w w'.
Proof.
  intros Hk. unfold random.sample.
  destruct (Nat.ltb_spec (List.length pool) k); [lia |].
  apply sample_loop_spec. exact Hk.
Qed.

(** ** Listings *)

Lemma set_listings_same (s : Store) : set_listings s (listings s) = s.
Proof. destruct s; reflexivity. Qed.

Lemma set_bookings_same (s : Store) : set_bookings s (bookings s) = s.
Proof. destruct s; reflexivity. Qed.

Lemma set_reviews_same (s : Store) : set_reviews s (reviews s) = s.
Proof. destruct s; reflexivity. Qed.

Lemma index_mod_spec {A} (xs : list A) (i : nat) (w : World) :
  xs <> [] -> exists x, Command.index_mod xs i w = (Ok x, w) /\ In x xs.
Proof.
  intros Hne. destruct (nth_error_mod xs i Hne) as (x & E & Hin).
  exists x. split; [| exact Hin]. unfold Command.index_mod.
  destruct xs as [| y ys]; [congruence |].
  cbn [List.length] in *. rewrite E. reflexivity.
Qed.

Lemma create_listings_loop_spec (hosts : list User.t) :
  hosts <> [] ->
  forall (ils : list (nat * ListingManager.fields)) (w : World),
    exists ls w',
      forM ils (fun il => h <- Command.index_mod hosts (fst il) ;;
                          ListingManager.create h (snd il)) w = (Ok ls, w') /\
      map listing_fields ls = map snd ils /\
      map Listing.property_id ls = seq (next_uuid w) (List.length ils) /\
      db w' = set_listings (db w) (listings (db w) ++ ls) /\
      next_uuid w' = next_uuid w + List.length ils /\
      today w' = today w.
Proof.
  intros Hne. induction ils as [| [i f] ils IH]; intros w.
  - exists [], w. cbn. rewrite app_nil_r, set_listings_same.
    repeat split. lia.
  - destruct (index_mod_spec hosts i w Hne) as (h & E1 & _).
    set (l := Listing.mk (next_uuid w) (User.id h) (ListingManager.f_name f)
                (ListingManager.f_description f) (ListingManager.f_location f)
                (ListingManager.f_price_per_night f)).
    set (w1 := mkWorld (set_listings (db w) (listings (db w) ++ [l])) (draws w)
                 (drawn w) (S (next_uuid w)) (stdout w) (today w)).
    destruct (IH w1) as (ls & w' & E2 & Hf & Hid & Hdb & Hu & Ht).
    exists (l :: ls), w'. split.
    { eapply forM_cons_ok; [| exact E2]. cbn [fst snd].
      rewrite (bind_ok _ _ _ _ _ E1). reflexivity. }
    split; [cbn; rewrite Hf; destruct f; reflexivity |].
    split; [cbn; rewrite Hid; reflexivity |].
    split; [rewrite Hdb; cbn; rewrite <- app_assoc; reflexivity |].
    split; [rewrite Hu; cbn; lia | rewrite Ht; reflexivity].
Qed.

(** ** Bookings *)

Lemma date_add_days_ok (t : date) (n : Z) :
  (date_min <= t + n <= date_max)%Z -> date_add_days t n = Ok (t + n)%Z.
Proof.
  intros [H1 H2]. unfold date_add_days. cbv zeta.
  destruct (Z.leb_spec date_min (t + n)); [| lia].
  destruct (Z.leb_spec (t + n) date_max); [reflexivity | lia].
Qed.

Lemma create_booking_spec (ls : list Listing.t) (guests : list User.t) (w : World) :
  ls <> [] -> guests <> [] -> clock_ok (today w) ->
  exists b w',
    Command.create_booking ls guests w = (Ok b, w') /\
    booking_seeded ls (today w) b /\
    db w' = set_bookings (db w) (bookings (db w) ++ [b]) /\
    next_uuid w' = S (next_uuid w) /\
    today w' = today w.
Proof.
  intros Hls Hgs Hclock. unfold Command.create_booking.
  destruct (choice_spec ls w Hls) as (l & w1 & E1 & Hl & (D1 & N1 & T1)).
  rewrite (bind_ok _ _ _ _ _ E1).
  destruct (choice_spec guests w1 Hgs) as (g & w2 & E2 & Hg & (D2 & N2 & T2)).
  rewrite (bind_ok _ _ _ _ _ E2).
  destruct (randint_spec (-30) 60 w2) as (k & w3 & E3 & Hk & (D3 & N3 & T3)); [lia |].
  rewrite (bind_ok _ _ _ _ _ E3).
  destruct (randint_spec 2 14 w3) as (d & w4 & E4 & Hd & (D4 & N4 & T4)); [lia |].
  rewrite (bind_ok _ _ _ _ _ E4).
  rewrite (bind_ok _ _ _ _ _ (eq_refl : now_date w4 = (Ok (today w4), w4))).
  assert (Ht : today w4 = today w) by congruence.
  assert (Hdb : db w4 = db w) by congruence.
  assert (Hn : next_uuid w4 = next_uuid w) by congruence.
  unfold clock_ok, date_min, date_max in Hclock.
  assert (Es : date_add_days (today w4) k = Ok (today w + k)%Z).
  { rewrite Ht. apply date_add_days_ok. unfold date_min, date_max. lia. }
  assert (Ee : date_add_days (today w + k)%Z d = Ok (today w + k + d)%Z).
  { apply date_add_days_ok. unfold date_min, date_max. lia. }
  unfold lift at 1. unfold bind at 1. rewrite Es.
  unfold lift at 1. unfold bind at 1. rewrite Ee.
  assert (Hst : Command.statuses <> []) by discriminate.
  destruct (choice_spec Command.statuses w4 Hst) as (st & w5 & E5 & _ & (D5 & N5 & T5)).
  rewrite (bind_ok _ _ _ _ _ E5).
  unfold BookingManager.create, bind, uuid4. cbv beta iota zeta.
  eexists. eexists. split; [reflexivity |].
  split.
  { exists l, k, d. repeat split; try assumption; lia. }
  cbn. rewrite D5, Hdb, N5, Hn, T5, Ht. repeat split.
Qed.

Lemma create_bookings_loop_spec (ls : list Listing.t) (guests : list User.t) :
  ls <> [] -> guests <> [] ->
  forall (xs : list nat) (w : World),
    clock_ok (today w) ->
    exists bs w',
      forM xs (fun _ => Command.create_booking ls guests) w = (Ok bs, w') /\
      List.length bs = List.length xs /\
      Forall (booking_seeded ls (today w)) bs /\
      db w' = set_bookings (db w) (bookings (db w) ++ bs) /\
      next_uuid w' = next_uuid w + List.length xs /\
      today w' = today w.
Proof.
  intros Hls Hgs. induction xs as [| x xs IH]; intros w Hclock.
  - exists [], w. cbn. rewrite app_nil_r, set_bookings_same.
    repeat split; [constructor | lia].
  - destruct (create_booking_spec ls guests w Hls Hgs Hclock)
      as (b & w1 & E1 & Hb & D1 & N1 & T1).
    cbn [forM]. rewrite (bind_ok _ _ _ _ _ E1).
    destruct (IH w1) as (bs & w2 & E2 & Hlen & Hall & D2 & N2 & T2);
      [rewrite T1; exact Hclock |].
    rewrite (bind_ok _ _ _ _ _ E2).
    exists (b :: bs), w2. split; [reflexivity |].
    split; [cbn; lia |].
    split; [constructor; [exact Hb | rewrite T1 in Hall; exact Hall] |].
    split; [rewrite D2, D1; cbn; rewrite <- app_assoc; reflexivity |].
    split; [rewrite N2, N1; cbn; lia | congruence].
Qed.

(** ** Reviews *)

Lemma create_review_spec (l : Listing.t) (g : User.t) (w : World) :
  ~ In (Listing.property_id l, User.id g) (map Review.unique_key (reviews (db w))) ->
  exists r w',
    Command.create_review l g w = (Ok r, w') /\
    Review.unique_key r = (Listing.property_id l, User.id g) /\
    (3 <= Review.rating r <= 5)%Z /\
    db w' = set_reviews (db w) (reviews (db w) ++ [r]) /\
    next_uuid w' = S (next_uuid w) /\
    today w' = today w.
Proof.
  intros Hfresh. unfold Command.create_review.
  destruct (randint_spec 3 5 w) as (z & w1 & E1 & Hz & (D1 & N1 & T1)); [lia |].
  rewrite (bind_ok _ _ _ _ _ E1).
  assert (Hc : Command.review_comments <> []) by discriminate.
  destruct (choice_spec Command.review_comments w1 Hc)
    as (c & w2 & E2 & _ & (D2 & N2 & T2)).
  rewrite (bind_ok _ _ _ _ _ E2).
  assert (E : existsb
                (fun r' => ReviewManager.key_eqb (Review.unique_key r')
                   (Review.unique_key
                      (Review.mk (next_uuid w2) (Listing.property_id l)
                                 (User.id g) z c)))
                (reviews (db w2)) = false).
  { apply existsb_key_false. rewrite D2, D1. exact Hfresh. }
  unfold ReviewManager.create, bind, uuid4. cbn. rewrite E.
  eexists. eexists. split; [reflexivity |].
  split; [reflexivity |]. split; [exact Hz |].
  cbn. rewrite D2, D1, N2, N1, T2, T1. repeat split.
Qed.

Lemma create_review_loop_spec (l : Listing.t) :
  forall (gs : list User.t) (w : World),
    NoDup (map User.id gs) ->
    (forall g, In g gs ->
       ~ In (Listing.property_id l, User.id g)
            (map Review.unique_key (reviews (db w)))) ->
    exists rs w',
      forM gs (Command.create_review l) w = (Ok rs, w') /\
      map Review.unique_key rs = map (fun g => (Listing.property_id l, User.id g)) gs /\
      Forall (fun r => (3 <= Review.rating r <= 5)%Z) rs /\
      db w' = set_reviews (db w) (reviews (db w) ++ rs) /\
      next_uuid w' = next_uuid w + List.length gs /\
      today w' = today w.
Proof.
  induction gs as [| g gs IH]; intros w Hnd Hfresh.
  - exists [], w. cbn. rewrite app_nil_r, set_reviews_same.
    repeat split; [constructor | lia].
  - inversion Hnd as [| ? ? Hg Hnd']; subst.
    destruct (create_review_spec l g w (Hfresh g (or_introl eq_refl)))
      as (r & w1 & E1 & Hkey & Hrating & D1 & N1 & T1).
    destruct (IH w1 Hnd') as (rs & w2 & E2 & Hkeys & Hratings & D2 & N2 & T2).
    { intros g' Hg' Hin. rewrite D1 in Hin. cbn in Hin.
      rewrite map_app in Hin. apply in_app_or in Hin. destruct Hin as [Hin | Hin].
      - exact (Hfresh g' (or_intror Hg') Hin).
      - cbn in Hin. destruct Hin as [Hin | []]. rewrite Hkey in Hin.
        inversion Hin as [Hid]. apply Hg. rewrite Hid. apply in_map. exact Hg'. }
    exists (r :: rs), w2. split; [exact (forM_cons_ok _ _ _ _ _ _ _ _ E1 E2) |].
    split; [cbn; rewrite Hkey, Hkeys; reflexivity |].
    split; [constructor; assumption |].
    split; [rewrite D2, D1; cbn; rewrite <- app_assoc; reflexivity |].
    split; [rewrite N2, N1; cbn; lia | congruence].
Qed.

Lemma NoDup_map_pair {A} (p : nat) (f : A -> nat) (l : list A) :
  NoDup (map f l) -> NoDup (map (fun x => (p, f x)) l).
Proof.
  induction l as [| x l IH]; cbn; intros H; [constructor |].
  inversion H as [| ? ? Hx Hnd]; subst. constructor; [| auto].
  intros Hin. apply Hx. apply in_map_iff in Hin. destruct Hin as (y & Hy & Hin).
  injection Hy as Hfy. rewrite <- Hfy. apply in_map. exact Hin.
Qed.

(** One listing receives between one and three reviews, of distinct
    guests. *)
Lemma review_listing_spec (guests : list User.t) (l : Listing.t) (w : World) :
  guests <> [] -> NoDup (map User.id guests) ->
  (forall r, In r (reviews (db w)) -> Review.property r <> Listing.property_id l) ->
  exists rs w',
    Command.review_listing guests l w = (Ok rs, w') /\
    Forall (fun r => Review.property r = Listing.property_id l /\
                     In (Review.user r) (map User.id guests) /\
                     (3 <= Review.rating r <= 5)%Z) rs /\
    NoDup (map Review.unique_key rs) /\
    1 <= List.length rs <= 3 /\
    db w' = set_reviews (db w) (reviews (db w) ++ rs) /\
    next_uuid w <= next_uuid w' /\
    today w' = today w.
Proof.
  intros Hne Hnd Hfresh. unfold Command.review_listing.
  destruct (randint_spec 1 3 w) as (z & w1 & E1 & Hz & (D1 & N1 & T1)); [lia |].
  rewrite (bind_ok _ _ _ _ _ E1).
  set (n := Nat.min (Z.to_nat z) (List.length guests)).
  assert (Hlen : List.length guests <> 0)
    by (destruct guests; [congruence | discriminate]).
  assert (Hn : 1 <= n <= 3) by (unfold n; lia).
  destruct (sample_spec guests n w1) as (gs & w2 & E2 & Hgs & Hincl & Hnd2 & (D2 & N2 & T2));
    [unfold n; lia |].
  rewrite (bind_ok _ _ _ _ _ E2).
  destruct (create_review_loop_spec l gs w2) as (rs & w3 & E3 & Hkeys & Hratings & D3 & N3 & T3).
  { apply Hnd2. exact Hnd. }
  { intros g Hg Hin. rewrite D2, D1 in Hin. apply in_map_iff in Hin.
    destruct Hin as (r & Hr & Hin). apply (Hfresh r Hin).
    inversion Hr. reflexivity. }
  exists rs, w3. split; [exact E3 |].
  assert (Hlenrs : List.length rs = List.length gs).
  { rewrite <- (length_map Review.unique_key rs), Hkeys. apply length_map. }
  split.
  { apply Forall_forall. intros r Hr.
    assert (Hk : In (Review.unique_key r)
                    (map (fun g => (Listing.property_id l, User.id g)) gs)).
    { rewrite <- Hkeys. apply in_map. exact Hr. }
    apply in_map_iff in Hk. destruct Hk as (g & Hg & Hin). inversion Hg as [[Hp Hu]].
    split; [reflexivity |]. split.
    - apply in_map. apply Hincl. exact Hin.
    - rewrite Forall_forall in Hratings. apply Hratings. exact Hr. }
  split; [rewrite Hkeys; apply NoDup_map_pair, Hnd2; exact Hnd |].
  split; [lia |].
  split; [rewrite D3, D2, D1; reflexivity |].
  split; [lia | congruence].
Qed.

Lemma review_listings_loop_spec (guests : list User.t) :
  guests <> [] -> NoDup (map User.id guests) ->
  forall (sampled : list Listing.t) (w : World),
    NoDup (map Listing.property_id sampled) ->
    (forall r l, In r (reviews (db w)) -> In l sampled ->
                 Review.property r <> Listing.property_id l) ->
    exists rss w',
      forM sampled (Command.review_listing guests) w = (Ok rss, w') /\
      Forall (fun r => In (Review.property r) (map Listing.property_id sampled) /\
                       In (Review.user r) (map User.id guests) /\
                       (3 <= Review.rating r <= 5)%Z) (List.concat rss) /\
      NoDup (map Review.unique_key (List.concat rss)) /\
      List.length sampled <= List.length (List.concat rss) <= 3 * List.length sampled /\
      db w' = set_reviews (db w) (reviews (db w) ++ List.concat rss) /\
      next_uuid w <= next_uuid w' /\
      today w' = today w.
Proof.
  intros Hne Hnd. induction sampled as [| l sampled IH]; intros w Hls Hfresh.
  - exists [], w. cbn. rewrite app_nil_r, set_reviews_same.
    repeat split; [constructor | constructor | lia | lia | lia].
  - inversion Hls as [| ? ? Hl Hls']; subst.
    destruct (review_listing_spec guests l w Hne Hnd)
      as (rs & w1 & E1 & Hall1 & Hnd1 & Hlen1 & D1 & N1 & T1).
    { intros r Hr. apply (Hfresh r l Hr). left. reflexivity. }
    rewrite Forall_forall in Hall1.
    destruct (IH w1 Hls') as (rss & w2 & E2 & Hall2 & Hnd2 & Hlen2 & D2 & N2 & T2).
    { intros r l' Hr Hl'. rewrite D1 in Hr. cbn in Hr. apply in_app_or in Hr.
      destruct Hr as [Hr | Hr].
      - apply (Hfresh r l' Hr). right. exact Hl'.
      - destruct (Hall1 r Hr) as (Hp & _). rewrite Hp. intros Heq.
        apply Hl. rewrite Heq. apply in_map. exact Hl'. }
    rewrite Forall_forall in Hall2.
    exists (rs :: rss), w2. split; [exact (forM_cons_ok _ _ _ _ _ _ _ _ E1 E2) |].
    cbn [List.concat].
    split.
    { apply Forall_forall. intros r Hr. apply in_app_or in Hr. destruct Hr as [Hr | Hr].
      - destruct (Hall1 r Hr) as (Hp & Hu & Hrt). split; [left; auto | auto].
      - destruct (Hall2 r Hr) as (Hp & Hu & Hrt). split; [right; auto | auto]. }
    split.
    { rewrite map_app. apply NoDup_app; [exact Hnd1 | exact Hnd2 |].
      intros key H1 H2. apply in_map_iff in H1, H2.
      destruct H1 as (r1 & K1 & R1). destruct H2 as (r2 & K2 & R2).
      destruct (Hall1 r1 R1) as (P1 & _). destruct (Hall2 r2 R2) as (P2 & _).
      apply Hl. assert (Heq : Review.property r1 = Review.property r2).
      { unfold Review.unique_key in K1, K2. rewrite <- K2 in K1.
        inversion K1. reflexivity. }
      rewrite <- P1, Heq. exact P2. }
    split; [rewrite length_app; cbn [List.length]; lia |].
    split; [rewrite D2, D1; cbn; rewrite <- app_assoc; reflexivity |].
    split; [lia | congruence].
Qed.

Lemma create_reviews_spec (ls : list Listing.t) (us : list User.t) (w : World) :
  let guests := filter (fun u => contains "guest" (User.username u)) us in
  guests <> [] -> NoDup (map User.id guests) ->
  6 <= List.length ls -> NoDup (map Listing.property_id ls) ->
  (forall r l, In r (reviews (db w)) -> In l ls ->
               Review.property r <> Listing.property_id l) ->
  exists rs w',
    Command.create_reviews ls us w = (Ok rs, w') /\
    Forall (fun r => In (Review.property r) (map Listing.property_id ls) /\
                     In (Review.user r) (map User.id guests) /\
                     (3 <= Review.rating r <= 5)%Z) rs /\
    NoDup (map Review.unique_key rs) /\
    6 <= List.length rs <= 18 /\
    db w' = set_reviews (db w) (reviews (db w) ++ rs) /\
    next_uuid w <= next_uuid w' /\
    today w' = today w.
Proof.
  intros guests Hne Hnd Hlen Hls Hfresh. unfold Command.create_reviews.
  fold guests.
  destruct (sample_spec ls (Nat.min 6 (List.length ls)) w)
    as (sampled & w1 & E1 & Hsl & Hincl & Hnd1 & (D1 & N1 & T1)); [lia |].
  rewrite (bind_ok _ _ _ _ _ E1).
  rewrite Nat.min_l in Hsl by exact Hlen.
  destruct (review_listings_loop_spec guests Hne Hnd sampled w1)
    as (rss & w2 & E2 & Hall & Hnd2 & Hlen2 & D2 & N2 & T2).
  { apply Hnd1. exact Hls. }
  { intros r l Hr Hl. rewrite D1 in Hr. apply (Hfresh r l Hr). apply Hincl. exact Hl. }
  rewrite (bind_ok _ _ _ _ _ E2).
  exists (List.concat rss), w2. split; [reflexivity |].
  split.
  { eapply Forall_impl; [| exact Hall]. cbn. intros r (Hp & Hu & Hr).
    split; [| auto]. apply in_map_iff in Hp. destruct Hp as (l & Hl & Hin).
    rewrite <- Hl. apply in_map. apply Hincl. exact Hin. }
  split; [exact Hnd2 |]. split; [lia |].
  split; [rewrite D2, D1; reflexivity |]. split; [lia | congruence].
Qed.

(** ** Decimal arithmetic *)

Lemma ndigits_aux_bound (fuel : nat) :
  forall (n : Z) (k : nat),
    (0 <= n < 10 ^ Z.of_nat (S k))%Z ->
    (Decimal.ndigits_aux fuel n <= Z.of_nat (S k))%Z.
Proof.
  induction fuel as [| fuel IH]; intros n k Hn; cbn [Decimal.ndigits_aux]; [lia |].
  destruct (Z.ltb_spec n 10) as [Hlt | Hge]; [lia |].
  destruct k as [| k].
  - change (10 ^ Z.of_nat 1)%Z with 10%Z in Hn. lia.
  - assert (Hq : (0 <= n / 10 < 10 ^ Z.of_nat (S k))%Z).
    { split; [apply Z.div_pos; lia |].
      apply Z.div_lt_upper_bound; [lia |].
      rewrite <- Z.pow_succ_r by lia. rewrite <- Nat2Z.inj_succ. lia. }
    specialize (IH (n / 10)%Z k Hq). lia.
Qed.

Lemma mul_int_exact (p : Decimal.t) (d : Z) :
  (Z.abs (Decimal.coef p * d) < 10 ^ 28)%Z ->
  Decimal.mul_int p d = Decimal.mk (Decimal.coef p * d) (Decimal.exp p).
Proof.
  intros Hb. unfold Decimal.mul_int, Decimal.mul, Decimal.of_int, Decimal.fix_.
  cbn [Decimal.coef Decimal.exp]. rewrite Z.add_0_r.
  pose proof (ndigits_aux_bound
                (S (Z.to_nat (Z.log2 (Z.abs (Decimal.coef p * d)))))
                (Z.abs (Decimal.coef p * d)) 27) as Hd.
  change (Z.of_nat 28) with 28%Z in Hd.
  specialize (Hd (conj (Z.abs_nonneg _) Hb)).
  unfold Decimal.ndigits, Decimal.prec.
  destruct (Z.leb_spec (Decimal.ndigits_aux
                          (S (Z.to_nat (Z.log2 (Z.abs (Decimal.coef p * d)))))
                          (Z.abs (Decimal.coef p * d)) - 28) 0);
    [reflexivity | lia].
Qed.

Lemma toQ_scale (c e d : Z) :
  (Decimal.toQ (Decimal.mk (c * d) e) == Decimal.toQ (Decimal.mk c e) * inject_Z d)%Q.
Proof.
  unfold Decimal.toQ. cbn [Decimal.coef Decimal.exp].
  destruct (0 <=? e)%Z.
  - unfold Qeq, inject_Z, Qmult. cbn. ring.
  - unfold Qeq, Qmult, inject_Z. cbn [Qnum Qden].
    rewrite Pos.mul_1_r. ring.
Qed.

Lemma toQ_positive (c e : Z) : (0 < c)%Z -> (0 < Decimal.toQ (Decimal.mk c e))%Q.
Proof.
  intros Hc. unfold Decimal.toQ. cbn [Decimal.coef Decimal.exp].
  destruct (Z.leb_spec 0 e).
  - unfold Qlt, inject_Z. cbn. assert (0 < 10 ^ e)%Z by (apply Z.pow_pos_nonneg; lia). nia.
  - unfold Qlt. cbn. lia.
Qed.

Lemma listings_data_prices :
  Forall (fun f => Decimal.exp (ListingManager.f_price_per_night f) = (-2)%Z /\
                   (12000 <= Decimal.coef (ListingManager.f_price_per_night f) <= 45000)%Z)
         Command.listings_data.
Proof. repeat constructor; cbn; lia. Qed.

Lemma min_value_0_01_accepts (c : Z) :
  (2 <= c)%Z ->
  run_validators [MinValueValidator float_0_01] (Decimal.toQ (Decimal.mk c (-2)))
  = Ok tt.
Proof.
  intros Hc. cbn [run_validators]. unfold MinValueValidator, Qltb.
  assert (H : Qle_bool float_0_01 (Decimal.toQ (Decimal.mk c (-2))) = true).
  { apply Qle_bool_iff. unfold Qle, float_0_01, Decimal.toQ. cbn. lia. }
  rewrite H. reflexivity.
Qed.

Lemma rating_validators_accept (z : Z) :
  (1 <= z <= 5)%Z -> run_validators Review.rating_validators (inject_Z z) = Ok tt.
Proof.
  intros Hz. unfold Review.rating_validators. cbn [run_validators].
  unfold MinValueValidator, MaxValueValidator, Qltb.
  assert (H1 : Qle_bool (inject_Z 1) (inject_Z z) = true).
  { apply Qle_bool_iff. rewrite <- Zle_Qle. lia. }
  assert (H2 : Qle_bool (inject_Z z) (inject_Z 5) = true).
  { apply Qle_bool_iff. rewrite <- Zle_Qle. lia. }
  rewrite H1, H2. reflexivity.
Qed.

(** ** The whole command *)

Lemma NoDup_map_inj_in {A B} (f : A -> B) (l : list A) (x y : A) :
  NoDup (map f l) -> In x l -> In y l -> f x = f y -> x = y.
Proof.
  induction l as [| z l IH]; cbn; intros Hnd Hx Hy Heq; [destruct Hx |].
  inversion Hnd as [| ? ? Hz Hnd']; subst.
  destruct Hx as [-> | Hx], Hy as [-> | Hy].
  - reflexivity.
  - exfalso. apply Hz. rewrite Heq. apply in_map. exact Hy.
  - exfalso. apply Hz. rewrite <- Heq. apply in_map. exact Hx.
  - apply IH; assumption.
Qed.

Lemma NoDup_map_incl {A B} (f : A -> B) (l l' : list A) :
  NoDup l -> incl l l' -> NoDup (map f l') -> NoDup (map f l).
Proof.
  induction l as [| x l IH]; cbn; intros Hnd Hincl Hf; [constructor |].
  inversion Hnd as [| ? ? Hx Hnd']; subst. constructor.
  - intros Hin. apply in_map_iff in Hin. destruct Hin as (y & Hy & Hin).
    apply Hx. rewrite (NoDup_map_inj_in f l' x y Hf); auto.
    + apply Hincl. left. reflexivity.
    + apply Hincl. right. exact Hin.
  - apply IH; [exact Hnd' | | exact Hf]. intros z Hz. apply Hincl. right. exact Hz.
Qed.

Lemma seeded_users_shape (us : list User.t) :
  map User.username us = map Command.ud_username Command.users_data ->
  exists u0 u1 u2 u3 u4 u5,
    us = [u0; u1; u2; u3; u4; u5] /\
    filter (fun u => contains "host" (User.username u)) us = [u0; u1; u4] /\
    filter (fun u => contains "guest" (User.username u)) us = [u2; u3; u5] /\
    NoDup us.
Proof.
  intros H.
  destruct us as [| u0 [| u1 [| u2 [| u3 [| u4 [| u5 [| u6 us]]]]]]]; try discriminate.
  cbn in H. injection H as H0 H1 H2 H3 H4 H5.
  exists u0, u1, u2, u3, u4, u5. split; [reflexivity |].
  cbn [filter]. rewrite H0, H1, H2, H3, H4, H5.
  split; [reflexivity |]. split; [reflexivity |].
  apply (NoDup_map_inv User.username). cbn [map].
  rewrite H0, H1, H2, H3, H4, H5.
  repeat constructor; cbn; intuition discriminate.
Qed.

Lemma filter_none {A} (l : list A) : filter (fun _ => false) l = [].
Proof. induction l; cbn; auto. Qed.

Lemma clear_data_spec (w : World) :
  exists wc,
    Command.clear_data w = (Ok tt, wc) /\
    db wc = cleared (db w) /\ next_uuid wc = next_uuid w /\ today wc = today w.
Proof.
  eexists. split; [reflexivity |]. cbn. split; [| split; reflexivity].
  unfold cleared. f_equal.
  - apply filter_ext. intros u. apply negb_involutive.
  - rewrite filter_none. reflexivity.
Qed.

Lemma users_wf_cleared (s : Store) : users_wf s -> users_wf (cleared s).
Proof.
  intros (H1 & H2 & H3). repeat split; cbn.
  - apply NoDup_keys_filter. exact H1.
  - apply NoDup_keys_filter. exact H2.
  - apply Forall_filter. exact H3.
Qed.

Lemma bind_write {B} (line : string) (k : unit -> M B) (w : World) :
  bind (write line) k w =
  k tt (mkWorld (db w) (draws w) (drawn w) (next_uuid w) (stdout w ++ [line]) (today w)).
Proof. reflexivity. Qed.

(** The seed command succeeds in every well-formed world, whatever the
    random source yields; [us], [ls], [bs], [rs] are the users it works
    with and the listings, bookings and reviews it inserts. *)
Lemma handle_spec (clear : bool) (w : World) :
  world_wf w ->
  let s0 := if clear then cleared (db w) else db w in
  exists w' us ls bs rs,
    Command.handle clear w = (Ok tt, w') /\
    map User.username us = map Command.ud_username Command.users_data /\
    incl us (users (db w')) /\
    (exists new, users (db w') = users s0 ++ new /\ List.length new <= 6) /\
    (incl (map Command.ud_username Command.users_data)
          (map User.username (users s0)) -> users (db w') = users s0) /\
    Command.create_users w' = (Ok us, w') /\
    listings (db w') = listings s0 ++ ls /\
    bookings (db w') = bookings s0 ++ bs /\
    reviews (db w') = reviews s0 ++ rs /\
    map listing_fields ls = Command.listings_data /\
    map Listing.property_id ls = seq (next_uuid w) 8 /\
    List.length bs = 15 /\
    Forall (booking_seeded ls (today w)) bs /\
    Forall (fun r => In (Review.property r) (map Listing.property_id ls) /\
                     In (Review.user r) (map User.id us) /\
                     (3 <= Review.rating r <= 5)%Z) rs /\
    NoDup (map Review.unique_key rs) /\
    6 <= List.length rs <= 18 /\
    world_wf w'.
Proof.
  intros (Hu & Hr & Hc) s0. unfold Command.handle.
  (* clearing *)
  assert (H0 : exists w0, (if clear then Command.clear_data else ret tt) w = (Ok tt, w0) /\
                          db w0 = s0 /\ next_uuid w0 = next_uuid w /\ today w0 = today w).
  { destruct clear; [apply clear_data_spec | exists w; repeat split]. }
  destruct H0 as (w0 & E0 & D0 & N0 & T0).
  rewrite (bind_ok _ _ _ _ _ E0), bind_write.
  assert (Hu0 : users_wf s0).
  { subst s0. destruct clear; [apply users_wf_cleared |]; exact Hu. }
  assert (Hr0 : Forall (fun r => Review.property r < next_uuid w) (reviews s0)).
  { subst s0. destruct clear; [constructor | exact Hr]. }
  (* users *)
  match goal with
  | |- context [bind Command.create_users _ ?x] =>
      destruct (create_users_loop_spec Command.users_data x)
        as (us & w1 & E1 & Hnames & Hincl & Hu1 & (new & Hnew & Hlen) & Hsame & L1 & B1 & R1 & N1 & T1)
  end.
  { cbn. rewrite D0. exact Hu0. }
  cbn [db next_uuid today] in *.
  unfold Command.create_users at 1. rewrite (bind_ok _ _ _ _ _ E1), bind_write.
  destruct (seeded_users_shape us Hnames) as (u0 & u1 & u2 & u3 & u4 & u5 & Hus & Hhosts & Hguests & Hndus).
  (* listings *)
  unfold Command.create_listings.
  match goal with
  | |- context [bind (forM (Command.enumerate Command.listings_data) ?body) _ ?x] =>
      destruct (create_listings_loop_spec
                  (filter (fun u => contains "host" (User.username u)) us)
                  ltac:(rewrite Hhosts; discriminate)
                  (Command.enumerate Command.listings_data) x)
        as (ls & w2 & E2 & Hfields & Hids & D2 & N2 & T2)
  end.
  cbn [db next_uuid today] in *.
  rewrite (bind_ok _ _ _ _ _ E2), bind_write.
  change (map snd (Command.enumerate Command.listings_data))
    with Command.listings_data in Hfields.
  change (List.length (Command.enumerate Command.listings_data)) with 8 in *.
  assert (Hlen8 : List.length ls = 8).
  { rewrite <- (length_map Listing.property_id), Hids. apply length_seq. }
  (* bookings *)
  unfold Command.create_bookings.
  match goal with
  | |- context [bind (forM (seq 0 15) _) _ ?x] =>
      destruct (create_bookings_loop_spec ls
                  (filter (fun u => contains "guest" (User.username u)) us)
                  ltac:(intros ->; discriminate)
                  ltac:(rewrite Hguests; discriminate)
                  (seq 0 15) x)
        as (bs & w3 & E3 & Hlenbs & Hbs & D3 & N3 & T3)
  end.
  { cbn. rewrite T2, T1, T0. exact Hc. }
  cbn [db next_uuid today] in *.
  rewrite (bind_ok _ _ _ _ _ E3), bind_write.
  (* reviews *)
  assert (Hndids : NoDup (map User.id us)).
  { apply (NoDup_map_incl User.id us (users (db w1))); [exact Hndus | exact Hincl |].
    apply Hu1. }
  match goal with
  | |- context [bind (Command.create_reviews ls us) _ ?x] =>
      destruct (create_reviews_spec ls us x)
        as (rs & w4 & E4 & Hrs & Hndrs & Hlenrs & D4 & N4 & T4)
  end.
  { rewrite Hguests. discriminate. }
  { apply NoDup_keys_filter. exact Hndids. }
  { lia. }
  { rewrite Hids. apply seq_NoDup. }
  { cbn [db]. rewrite D3, D2. cbn. rewrite R1, D0.
    intros r l Hin Hl. rewrite Forall_forall in Hr0. specialize (Hr0 r Hin).
    assert (Hp : In (Listing.property_id l) (map Listing.property_id ls))
      by (apply in_map; exact Hl).
    rewrite Hids in Hp. apply in_seq in Hp. lia. }
  cbn [db next_uuid today] in *.
  rewrite (bind_ok _ _ _ _ _ E4), !bind_write.
  eexists. exists us, ls, bs, rs. split; [reflexivity |].
  cbn [db next_uuid today].
  assert (Hdb4 : db w4 = mkStore (users (db w1)) (listings s0 ++ ls)
                                 (bookings s0 ++ bs) (reviews s0 ++ rs)
                                 (next_user_id (db w1))).
  { rewrite D4, D3, D2. cbn. rewrite L1, B1, R1, D0. reflexivity. }
  rewrite Hdb4. cbn [users listings bookings reviews next_user_id].
  split; [exact Hnames |]. split; [exact Hincl |].
  split; [exists new; rewrite Hnew, D0; split; [reflexivity | exact Hlen] |].
  split.
  { intros Hall. rewrite D0 in Hsame. rewrite (Hsame Hall). reflexivity. }
  split.
  { apply create_users_loop_again; cbn; [apply Hu1 | exact Hnames | exact Hincl]. }
  split; [reflexivity |]. split; [reflexivity |]. split; [reflexivity |].
  split; [exact Hfields |].
  split; [rewrite Hids, N1, N0; reflexivity |].
  split; [exact Hlenbs |].
  split; [rewrite T2, T1, T0 in Hbs; exact Hbs |].
  split.
  { eapply Forall_impl; [| exact Hrs]. cbn. intros r (Hp & Hg & Hrt).
    split; [exact Hp |]. split; [| exact Hrt].
    apply in_map_iff in Hg. destruct Hg as (g & Hg & Hin).
    apply filter_In in Hin. rewrite <- Hg. apply in_map. tauto. }
  split; [exact Hndrs |]. split; [exact Hlenrs |].
  (* the final world is well formed *)
  split; [exact Hu1 |]. split; cbn [db next_uuid today reviews].
  - apply Forall_app. split.
    + eapply Forall_impl; [| exact Hr0]. cbn. intros r Hlt. lia.
    + eapply Forall_impl; [| exact Hrs]. cbn. intros r (Hp & _).
      rewrite Hids in Hp. apply in_seq in Hp. lia.
  - rewrite T4, T3, T2, T1, T0. exact Hc.
Qed.

Lemma world_wf_empty (w : World) :
  tables_empty (db w) -> clock_ok (today w) -> world_wf w.
Proof.
  intros (Hu & _ & _ & Hr) Hc. repeat split; try exact Hc.
  - rewrite Hu. constructor.
  - rewrite Hu. constructor.
  - rewrite Hu. constructor.
  - rewrite Hr. constructor.
  - apply Hc.
  - apply Hc.
Qed.

(** C6. Running the seed command with the clear flag against a store
    whose tables are empty raises no error and ends, whatever the random
    source yields, with exactly 6 users, 8 listings and 15 bookings, and
    with at most 18 (and at least 6) reviews. *)
Theorem seed_clear_on_empty_store :
  forall w : World,
    tables_empty (db w) -> clock_ok (today w) ->
    exists w',
      Command.handle true w = (Ok tt, w') /\
      List.length (users (db w')) = 6 /\
      List.length (listings (db w')) = 8 /\
      List.length (bookings (db w')) = 15 /\
      6 <= List.length (reviews (db w')) <= 18.
Proof.
  intros w Hempty Hc. pose proof (world_wf_empty w Hempty Hc) as Hwf.
  destruct Hempty as (Hu & _).
  destruct (handle_spec true w Hwf)
    as (w' & us & ls & bs & rs & E & Hnames & Hincl & (new & Hnew & Hlen) & _ & _
        & L & B & R & Hf & _ & Hlb & _ & _ & _ & Hlr & _).
  cbn in Hnew, L, B, R. rewrite Hu in Hnew. cbn in Hnew.
  exists w'. split; [exact E |].
  split.
  { destruct (seeded_users_shape us Hnames) as (u0 & u1 & u2 & u3 & u4 & u5 & Hus & _ & _ & Hnd).
    pose proof (NoDup_incl_length Hnd Hincl) as Hge.
    rewrite Hus in Hge. cbn in Hge. rewrite Hnew in *. lia. }
  split.
  { rewrite L, <- (length_map listing_fields), Hf. reflexivity. }
  split; [rewrite B; exact Hlb | rewrite R; exact Hlr].
Qed.

Lemma seed_clear_on_empty_store_witness :
  let w := mkWorld (empty_store 1) (fun n => n * 7 + 3) 0 0 [] 739000%Z in
  exists w',
    Command.handle true w = (Ok tt, w') /\
    List.length (users (db w')) = 6 /\
    List.length (listings (db w')) = 8 /\
    List.length (bookings (db w')) = 15 /\
    6 <= List.length (reviews (db w')) <= 18.
Proof.
  intros w. apply (seed_clear_on_empty_store w).
  - repeat split.
  - unfold clock_ok, date_min, date_max. cbn. lia.
Defined.

Lemma seeded_price_exact (ls : list Listing.t) (l : Listing.t) (d : Z) :
  map listing_fields ls = Command.listings_data -> In l ls -> (2 <= d <= 14)%Z ->
  Decimal.mul_int (Listing.price_per_night l) d =
  Decimal.mk (Decimal.coef (Listing.price_per_night l) * d)
             (Decimal.exp (Listing.price_per_night l)) /\
  Decimal.exp (Listing.price_per_night l) = (-2)%Z /\
  (12000 <= Decimal.coef (Listing.price_per_night l) <= 45000)%Z.
Proof.
  intros Hf Hl Hd.
  assert (Hin : In (listing_fields l) Command.listings_data).
  { rewrite <- Hf. apply in_map. exact Hl. }
  pose proof listings_data_prices as Hp. rewrite Forall_forall in Hp.
  destruct (Hp _ Hin) as (Hexp & Hcoef). cbn in Hexp, Hcoef.
  split; [| split; [exact Hexp | exact Hcoef]]. apply mul_int_exact.
  assert (45000 * 14 < 10 ^ 28)%Z by reflexivity. nia.
Qed.

(** C7. Every booking that the seed command inserts has [start_date]
    equal to today plus an offset [k] of [-30..60], [end_date] equal to
    [start_date] plus a duration [d] of [2..14], and [total_price] equal
    to the [price_per_night] of its listing times [d]: the product is
    within the precision of the decimal context, so it is not rounded
    (coefficient times [d], same exponent; the same number as the exact
    product). *)
Theorem seeded_booking_dates_and_price :
  forall (clear : bool) (w : World),
    world_wf w ->
    exists w' bs,
      Command.handle clear w = (Ok tt, w') /\
      bookings (db w') = bookings (if clear then cleared (db w) else db w) ++ bs /\
      List.length bs = 15 /\
      Forall (fun b =>
                exists (l : Listing.t) (k d : Z),
                  In l (listings (db w')) /\
                  Booking.property b = Listing.property_id l /\
                  (-30 <= k <= 60)%Z /\ (2 <= d <= 14)%Z /\
                  Booking.start_date b = Some (today w + k)%Z /\
                  Booking.end_date b = Some (today w + k + d)%Z /\
                  Booking.total_price b =
                    Decimal.mul_int (Listing.price_per_night l) d /\
                  Booking.total_price b =
                    Decimal.mk (Decimal.coef (Listing.price_per_night l) * d)
                               (Decimal.exp (Listing.price_per_night l)) /\
                  (Decimal.toQ (Booking.total_price b) ==
                   Decimal.toQ (Listing.price_per_night l) * inject_Z d)%Q) bs.
Proof.
  intros clear w Hwf.
  destruct (handle_spec clear w Hwf)
    as (w' & us & ls & bs & rs & E & _ & _ & _ & _ & _ & L & B & _ & Hf & _ & Hlb & Hbs & _).
  exists w', bs. split; [exact E |]. split; [exact B |]. split; [exact Hlb |].
  eapply Forall_impl; [| exact Hbs]. cbn.
  intros b (l & k & d & Hl & Hp & Hk & Hd & Hs & He & Ht).
  destruct (seeded_price_exact ls l d Hf Hl Hd) as (Hexact & _ & _).
  exists l, k, d. split; [rewrite L; apply in_or_app; right; exact Hl |].
  repeat (split; [assumption |]).
  split; [congruence |].
  rewrite Ht, Hexact. destruct (Listing.price_per_night l) as [c e]. apply toQ_scale.
Qed.

Lemma seeded_booking_dates_and_price_witness :
  let w := mkWorld (empty_store 1) (fun n => n * 7 + 3) 0 0 [] 739000%Z in
  exists w' bs,
    Command.handle true w = (Ok tt, w') /\
    bookings (db w') = bs /\ List.length bs = 15.
Proof.
  intros w.
  destruct (seeded_booking_dates_and_price true w) as (w' & bs & E & B & Hl & _).
  - apply world_wf_empty; [repeat split |].
    unfold clock_ok, date_min, date_max. cbn. lia.
  - exists w', bs. split; [exact E |]. split; [exact B | exact Hl].
Defined.

(** C8, as stated, fails: the bookings of a seeding run may start before
    today.  With the draws [3, 10, 17, ...] and the clock at day 739000
    the first booking starts on day 738987. *)
Lemma seeded_booking_may_start_in_the_past :
  let w := mkWorld (empty_store 1) (fun n => n * 7 + 3) 0 0 [] 739000%Z in
  ~ (forall (b : Booking.t) (s : date),
       In b (bookings (db (snd (Command.handle true w)))) ->
       Booking.start_date b = Some s -> (today w <= s)%Z).
Proof.
  intros w H.
  destruct (bookings (db (snd (Command.handle true w)))) as [| b bs] eqn:E;
    vm_compute in E; [discriminate |].
  injection E as Eb _.
  specialize (H b 738987%Z (or_introl eq_refl)).
  rewrite <- Eb in H. specialize (H eq_refl). cbn in H. lia.
Qed.

(** C8, amended. Every row that a seeding run inserts satisfies the
    invariants of the data model: every seeded listing has
    [price_per_night > 0]; every seeded booking has [end_date] after
    [start_date] (so [clean] accepts it), [total_price > 0], and a
    [start_date] that is at most 30 days before today; every seeded
    review has a rating of [1..5] (which [validate_rating] accepts); and
    no two seeded reviews share a (listing, user) pair. *)
Theorem seeded_rows_satisfy_invariants :
  forall (clear : bool) (w : World),
    world_wf w ->
    let s0 := if clear then cleared (db w) else db w in
    exists w' ls bs rs,
      Command.handle clear w = (Ok tt, w') /\
      listings (db w') = listings s0 ++ ls /\
      bookings (db w') = bookings s0 ++ bs /\
      reviews (db w') = reviews s0 ++ rs /\
      Forall (fun l => (0 < Decimal.toQ (Listing.price_per_night l))%Q /\
                       run_validators Listing.price_per_night_validators
                         (Decimal.toQ (Listing.price_per_night l)) = Ok tt) ls /\
      Forall (fun b =>
                exists s e,
                  Booking.start_date b = Some s /\ Booking.end_date b = Some e /\
                  (s < e)%Z /\ (today w - 30 <= s)%Z /\
                  Booking.clean b = Ok tt /\
                  (0 < Decimal.toQ (Booking.total_price b))%Q /\
                  run_validators Booking.total_price_validators
                    (Decimal.toQ (Booking.total_price b)) = Ok tt) bs /\
      Forall (fun r => (1 <= Review.rating r <= 5)%Z /\
                       run_validators Review.rating_validators
                         (inject_Z (Review.rating r)) = Ok tt /\
                       ReviewSerializer.validate_rating (Review.rating r)
                       = Ok (Review.rating r)) rs /\
      NoDup (map Review.unique_key rs).
Proof.
  intros clear w Hwf s0.
  destruct (handle_spec clear w Hwf)
    as (w' & us & ls & bs & rs & E & _ & _ & _ & _ & _ & L & B & R & Hf & _ & _
        & Hbs & Hrs & Hnd & _).
  exists w', ls, bs, rs.
  split; [exact E |]. split; [exact L |]. split; [exact B |]. split; [exact R |].
  split.
  { apply Forall_forall. intros l Hl.
    destruct (seeded_price_exact ls l 2 Hf Hl ltac:(lia)) as (_ & He & Hc).
    destruct (Listing.price_per_night l) as [c e]. cbn in He, Hc. subst e.
    split; [apply toQ_positive; lia | apply min_value_0_01_accepts; lia]. }
  split.
  { eapply Forall_impl; [| exact Hbs]. cbn.
    intros b (l & k & d & Hl & _ & Hk & Hd & Hs & He & Ht).
    exists (today w + k)%Z, (today w + k + d)%Z.
    split; [exact Hs |]. split; [exact He |]. split; [lia |]. split; [lia |].
    split.
    - rewrite (clean_dates b _ _ Hs He).
      destruct (Z.leb_spec (today w + k + d) (today w + k)); [lia | reflexivity].
    - destruct (seeded_price_exact ls l d Hf Hl Hd) as (Hexact & Hexp & Hc).
      rewrite Ht, Hexact, Hexp.
      split; [apply toQ_positive; nia | apply min_value_0_01_accepts; nia]. }
  split; [| exact Hnd].
  eapply Forall_impl; [| exact Hrs]. cbn. intros r (_ & _ & Hrt).
  split; [lia |]. split; [apply rating_validators_accept; lia |].
  unfold ReviewSerializer.validate_rating.
  destruct (Z.ltb_spec (Review.rating r) 1); [lia |].
  destruct (Z.ltb_spec 5 (Review.rating r)); [lia | reflexivity].
Qed.

Lemma seeded_rows_satisfy_invariants_witness :
  let w := mkWorld (empty_store 1) (fun n => n * 7 + 3) 0 0 [] 739000%Z in
  exists w' rs,
    Command.handle true w = (Ok tt, w') /\
    reviews (db w') = rs /\ NoDup (map Review.unique_key rs).
Proof.
  intros w.
  destruct (seeded_rows_satisfy_invariants true w)
    as (w' & ls & bs & rs & E & _ & _ & R & _ & _ & _ & Hnd).
  - apply world_wf_empty; [repeat split |].
    unfold clock_ok, date_min, date_max. cbn. lia.
  - exists w', rs. split; [exact E |]. split; [exact R | exact Hnd].
Defined.

(** C9. User creation is idempotent on the user name: in a well-formed
    store [create_users] returns the users of the six names, a user name
    that is stored is reused without any write, and running it again
    returns the same users and writes nothing; a second run of the
    whole command leaves the users as they are, while each run inserts
    the eight listings (with the same field values) again, fifteen more
    bookings and at least six more reviews. *)
Theorem seeding_reuses_users_but_inserts_rows_again :
  forall w : World,
    world_wf w ->
    (exists us w1,
       Command.create_users w = (Ok us, w1) /\
       Command.create_users w1 = (Ok us, w1)) /\
    (forall ud u,
       In u (users (db w)) -> User.username u = Command.ud_username ud ->
       Command.create_user ud w = (Ok u, w)) /\
    (exists w1 w2 ls1 ls2,
       Command.handle false w = (Ok tt, w1) /\
       Command.handle false w1 = (Ok tt, w2) /\
       users (db w2) = users (db w1) /\
       listings (db w1) = listings (db w) ++ ls1 /\
       listings (db w2) = listings (db w1) ++ ls2 /\
       map listing_fields ls1 = Command.listings_data /\
       map listing_fields ls2 = Command.listings_data /\
       List.length (bookings (db w1)) = List.length (bookings (db w)) + 15 /\
       List.length (bookings (db w2)) = List.length (bookings (db w1)) + 15 /\
       List.length (reviews (db w)) + 6 <= List.length (reviews (db w1)) /\
       List.length (reviews (db w1)) + 6 <= List.length (reviews (db w2))).
Proof.
  intros w Hwf. split; [| split].
  - destruct Hwf as (Hu & _).
    destruct (create_users_loop_spec Command.users_data w Hu)
      as (us & w1 & E1 & Hnames & Hincl & Hu1 & _).
    exists us, w1. split; [exact E1 |].
    apply create_users_loop_again; [apply Hu1 | exact Hnames | exact Hincl].
  - intros ud u Hin Hname. apply create_user_present; [apply Hwf | exact Hin | exact Hname].
  - destruct (handle_spec false w Hwf)
      as (w1 & us1 & ls1 & bs1 & rs1 & E1 & Hnames1 & Hincl1 & _ & _ & _ & L1 & B1 & R1
          & F1 & _ & Hb1 & _ & _ & _ & Hr1 & Hwf1).
    destruct (handle_spec false w1 Hwf1)
      as (w2 & us2 & ls2 & bs2 & rs2 & E2 & _ & _ & _ & Hsame & _ & L2 & B2 & R2
          & F2 & _ & Hb2 & _ & _ & _ & Hr2 & _).
    cbn in L1, B1, R1, L2, B2, R2. cbv beta iota zeta in Hsame.
    exists w1, w2, ls1, ls2.
    split; [exact E1 |]. split; [exact E2 |].
    split.
    { apply Hsame. rewrite <- Hnames1. intros name Hname.
      apply in_map_iff in Hname. destruct Hname as (u & Hu & Hin).
      rewrite <- Hu. apply in_map. apply Hincl1. exact Hin. }
    split; [exact L1 |]. split; [exact L2 |]. split; [exact F1 |]. split; [exact F2 |].
    rewrite B2, B1, R2, R1, !length_app. lia.
Qed.

Lemma seeding_reuses_users_but_inserts_rows_again_witness :
  let w := mkWorld (empty_store 1) (fun n => n * 7 + 3) 0 0 [] 739000%Z in
  exists us w1,
    Command.create_users w = (Ok us, w1) /\
    Command.create_users w1 = (Ok us, w1).
Proof.
  intros w.
  apply (seeding_reuses_users_but_inserts_rows_again w).
  apply world_wf_empty; [repeat split |].
  unfold clock_ok, date_min, date_max. cbn. lia.
Defined.

(* ================================================================== *)
(** * Further properties: the validation hooks *)
(* ================================================================== *)

Lemma Qltb_false_iff (a b : Q) : Qltb a b = false <-> (b <= a)%Q.
Proof.
  unfold Qltb. rewrite negb_false_iff. apply Qle_bool_iff.
Qed.

Lemma Qltb_true_iff (a b : Q) : Qltb a b = true <-> (a < b)%Q.
Proof.
  unfold Qltb. rewrite negb_true_iff. split.
  - intros H. apply Qnot_le_lt. intros Hle. apply Qle_bool_iff in Hle. congruence.
  - intros H. destruct (Qle_bool b a) eqn:E; [| reflexivity].
    apply Qle_bool_iff in E. exfalso. exact (Qlt_not_le _ _ H E).
Qed.

Lemma min_validator_iff (limit value : Q) :
  run_validators [MinValueValidator limit] value = Ok tt <-> (limit <= value)%Q.
Proof.
  cbn [run_validators]. unfold MinValueValidator.
  destruct (Qltb value limit) eqn:E.
  - apply Qltb_true_iff in E. split; [discriminate |].
    intros H. exfalso. exact (Qlt_not_le _ _ E H).
  - apply Qltb_false_iff in E. split; [intros _; exact E | reflexivity].
Qed.

Lemma validate_rating_iff (z : Z) :
  ReviewSerializer.validate_rating z = Ok z <-> (1 <= z <= 5)%Z.
Proof.
  unfold ReviewSerializer.validate_rating.
  destruct (Z.ltb_spec z 1), (Z.ltb_spec 5 z); cbn; split;
    try discriminate; try lia; reflexivity.
Qed.

Lemma rating_validators_iff (z : Z) :
  run_validators Review.rating_validators (inject_Z z) = Ok tt <-> (1 <= z <= 5)%Z.
Proof.
  split; [| apply rating_validators_accept].
  unfold Review.rating_validators. cbn [run_validators].
  unfold MinValueValidator, MaxValueValidator.
  destruct (Qltb (inject_Z z) (inject_Z 1)) eqn:E1; [discriminate |].
  destruct (Qltb (inject_Z 5) (inject_Z z)) eqn:E2; [discriminate |].
  intros _. apply Qltb_false_iff in E1, E2. rewrite <- Zle_Qle in E1, E2. lia.
Qed.

(** X1. The hook [validate_rating] of the review serializer and the
    validators that the model declares for [rating] accept the same
    ratings, the integers of [1..5]; every other rating makes both of
    them raise a validation error. *)
Theorem rating_hook_agrees_with_model_validators :
  forall z : Z,
    (ReviewSerializer.validate_rating z = Ok z <-> (1 <= z <= 5)%Z) /\
    (run_validators Review.rating_validators (inject_Z z) = Ok tt <->
     (1 <= z <= 5)%Z) /\
    ((z < 1 \/ 5 < z)%Z ->
     raises_validation_error (ReviewSerializer.validate_rating z) /\
     raises_validation_error (run_validators Review.rating_validators (inject_Z z))).
Proof.
  intros z. split; [apply validate_rating_iff |].
  split; [apply rating_validators_iff |].
  intros Hout. split.
  - unfold ReviewSerializer.validate_rating.
    destruct (Z.ltb_spec z 1); cbn.
    + eapply raises_validation_error_intro; reflexivity.
    + destruct (Z.ltb_spec 5 z); [| lia].
      eapply raises_validation_error_intro; reflexivity.
  - unfold Review.rating_validators. cbn [run_validators].
    unfold MinValueValidator, MaxValueValidator.
    destruct (Qltb (inject_Z z) (inject_Z 1)) eqn:E1.
    + eapply raises_validation_error_intro; reflexivity.
    + destruct (Qltb (inject_Z 5) (inject_Z z)) eqn:E2.
      * eapply raises_validation_error_intro; reflexivity.
      * apply Qltb_false_iff in E1, E2. rewrite <- Zle_Qle in E1, E2. lia.
Qed.

Lemma rating_hook_agrees_with_model_validators_witness :
  raises_validation_error (ReviewSerializer.validate_rating 0) /\
  raises_validation_error (run_validators Review.rating_validators (inject_Z 0)).
Proof.
  apply (rating_hook_agrees_with_model_validators 0). left. lia.
Defined.

Lemma validate_price_iff (v : Decimal.t) :
  ListingSerializer.validate_price_per_night v = Ok v <-> (0 < Decimal.toQ v)%Q.
Proof.
  unfold ListingSerializer.validate_price_per_night.
  destruct (Qle_bool (Decimal.toQ v) 0) eqn:E.
  - apply Qle_bool_iff in E. split; [discriminate |].
    intros H. exfalso. exact (Qlt_not_le _ _ H E).
  - split; [| reflexivity]. intros _. apply Qnot_le_lt. intros Hle.
    apply Qle_bool_iff in Hle. congruence.
Qed.

Lemma float_0_01_positive : (0 < float_0_01)%Q.
Proof. reflexivity. Qed.

Lemma quantize_value (v : Decimal.t) :
  (DecimalField.places v <= 2)%Z ->
  (Decimal.toQ (DecimalField.quantize 2 v) == Decimal.toQ v)%Q.
Proof.
  destruct v as [c e]. unfold DecimalField.places, DecimalField.quantize.
  cbn [Decimal.exp Decimal.coef]. change (- (2))%Z with (-2)%Z. intros Hp.
  destruct (Z.leb_spec 0 e) as [He | He].
  - destruct (Z.leb_spec (-2 - e) 0) as [_ | Hk]; [| lia].
    unfold Decimal.toQ. cbn [Decimal.exp Decimal.coef].
    destruct (Z.leb_spec 0 e) as [_ | Hn]; [| lia].
    replace (- (-2 - e))%Z with (e + 2)%Z by lia.
    rewrite Z.pow_add_r by lia.
    change (0 <=? -2)%Z with false. cbv iota.
    unfold Qeq. cbn [Qnum Qden inject_Z]. change (10 ^ 2)%Z with 100%Z.
    change (Z.pos (Z.to_pos (10 ^ (- -2)))) with 100%Z. lia.
  - assert (Hcases : e = (-1)%Z \/ e = (-2)%Z) by lia.
    destruct Hcases as [-> | ->]; unfold Decimal.toQ, Qeq; cbn; lia.
Qed.

Lemma two_places_fit (v : Decimal.t) :
  Decimal.exp v = (-2)%Z -> (Z.abs (Decimal.coef v) < 10 ^ 10)%Z ->
  DecimalField.validate_precision 10 2 v = Ok v.
Proof.
  intros He Hc.
  assert (Hd : (DecimalField.digits v <= 10)%Z).
  { unfold DecimalField.digits, Decimal.ndigits.
    apply (ndigits_aux_bound _ _ 9). split; [apply Z.abs_nonneg | exact Hc]. }
  unfold DecimalField.validate_precision, DecimalField.total_digits,
    DecimalField.places, DecimalField.whole_digits.
  rewrite He. cbn [Z.leb Z.compare Z.abs].
  change (0 <=? -2)%Z with false. cbv iota.
  destruct (Z.ltb_spec 2 (DecimalField.digits v)).
  - destruct (Z.ltb_spec 10 (DecimalField.digits v)); [lia |].
    destruct (Z.ltb_spec (10 - 2) (DecimalField.digits v - 2)); [lia |].
    reflexivity.
  - reflexivity.
Qed.

(** X2. [validate_price_per_night] accepts exactly the prices above
    zero, the validator that the model declares for the price accepts
    exactly the prices that are not below the double [0.01] (the same
    holds for the validator of [total_price]); so every price that the
    model validator accepts passes the hook.  The field as a whole
    accepts exactly the prices that fit the column (at most ten digits,
    two of them decimal places) and are not below the double [0.01], and
    returns them at two decimal places; a price of two decimal places
    and fewer than eleven digits fits. *)
Theorem price_hook_is_weaker_than_model_validator :
  forall v : Decimal.t,
    (ListingSerializer.validate_price_per_night v = Ok v <->
     (0 < Decimal.toQ v)%Q) /\
    (run_validators Listing.price_per_night_validators (Decimal.toQ v) = Ok tt <->
     (float_0_01 <= Decimal.toQ v)%Q) /\
    (run_validators Booking.total_price_validators (Decimal.toQ v) = Ok tt <->
     (float_0_01 <= Decimal.toQ v)%Q) /\
    (run_validators Listing.price_per_night_validators (Decimal.toQ v) = Ok tt ->
     ListingSerializer.validate_price_per_night v = Ok v) /\
    (forall v',
       ListingSerializer.run_price_per_night v = Ok v' <->
       DecimalField.validate_precision 10 2 v = Ok v /\
       (float_0_01 <= Decimal.toQ v)%Q /\
       v' = DecimalField.quantize 2 v) /\
    (Decimal.exp v = (-2)%Z -> (Z.abs (Decimal.coef v) < 10 ^ 10)%Z ->
     DecimalField.validate_precision 10 2 v = Ok v).
Proof.
  intros v.
  assert (Hhook : forall x, (float_0_01 <= Decimal.toQ x)%Q ->
                            ListingSerializer.validate_price_per_night x = Ok x).
  { intros x H. apply validate_price_iff.
    exact (Qlt_le_trans _ _ _ float_0_01_positive H). }
  split; [apply validate_price_iff |].
  split; [apply min_validator_iff |].
  split; [apply min_validator_iff |].
  split; [intros H; apply Hhook, min_validator_iff, H |].
  split; [| apply two_places_fit].
  intros v'. unfold ListingSerializer.run_price_per_night.
  change Listing.price_per_night_max_digits with 10%Z.
  change Listing.price_per_night_decimal_places with 2%Z.
  split.
  - destruct (DecimalField.run_validation 10 2 _ v) as [v0 |] eqn:E; [| discriminate].
    apply decimal_field_inv in E. destruct E as (Hfit & -> & Hmin).
    apply min_validator_iff in Hmin.
    rewrite (Hhook _ Hmin). intros H. inversion H. subst v'.
    split; [exact Hfit |]. split; [| reflexivity].
    destruct (validate_precision_inv _ _ _ _ Hfit) as (_ & _ & Hp & _).
    rewrite <- (quantize_value v Hp). exact Hmin.
  - intros (Hfit & Hmin & ->).
    destruct (validate_precision_inv _ _ _ _ Hfit) as (_ & _ & Hp & _).
    rewrite <- (quantize_value v Hp) in Hmin.
    unfold DecimalField.run_validation, Listing.price_per_night_validators.
    rewrite Hfit. cbv zeta.
    rewrite (proj2 (min_validator_iff _ _) Hmin).
    apply Hhook. exact Hmin.
Qed.

Lemma price_hook_is_weaker_than_model_validator_witness :
  ListingSerializer.validate_price_per_night (Decimal.mk 25000 (-2))
  = Ok (Decimal.mk 25000 (-2)) /\
  DecimalField.validate_precision 10 2 (Decimal.mk 25000 (-2))
  = Ok (Decimal.mk 25000 (-2)).
Proof.
  destruct (price_hook_is_weaker_than_model_validator (Decimal.mk 25000 (-2)))
    as (_ & _ & _ & H & _ & Hfit).
  split; [apply H; reflexivity | apply Hfit; [reflexivity | cbn; lia]].
Defined.

(** X3. [validate_booking] raises exactly when both dates are present in
    the data and either [end_date <= start_date] or, for a new booking,
    [start_date] is before today; what it raises is a validation error;
    when a date is absent it accepts the data whatever the other date
    is; and what it returns is the data it was given. *)
Theorem validate_booking_raises_exactly_when :
  forall (instance : option Booking.t) (today : date) (d : BookingSerializer.data),
    ((exists x, BookingSerializer.validate_booking instance today d = Raise x) <->
     (exists s e,
        BookingSerializer.start_date d = Some s /\
        BookingSerializer.end_date d = Some e /\
        ((e <= s)%Z \/ (instance = None /\ (s < today)%Z)))) /\
    (forall x, BookingSerializer.validate_booking instance today d = Raise x ->
               is_validation_error x = true) /\
    (forall d', BookingSerializer.validate_booking instance today d = Ok d' ->
                d' = d) /\
    (BookingSerializer.start_date d = None \/ BookingSerializer.end_date d = None ->
     BookingSerializer.validate_booking instance today d = Ok d).
Proof.
  intros instance today d. unfold BookingSerializer.validate_booking.
  destruct (BookingSerializer.start_date d) as [s |] eqn:Hs;
    destruct (BookingSerializer.end_date d) as [e |] eqn:He.
  - destruct (Z.leb_spec e s) as [Hle | Hgt].
    + split; [| split; [| split]].
      * split; [intros _; exists s, e; auto | intros _; eexists; reflexivity].
      * intros x Hx. injection Hx as <-. reflexivity.
      * intros d'. discriminate.
      * intros [H | H]; discriminate.
    + destruct instance as [old |].
      * split; [| split; [| split]].
        -- split; [intros [x Hx]; discriminate |].
           intros (s' & e' & Es & Ee & [H | [H _]]); [| discriminate].
           injection Es as <-. injection Ee as <-. lia.
        -- intros x. discriminate.
        -- intros d' H. injection H as <-. reflexivity.
        -- intros [H | H]; discriminate.
      * destruct (Z.ltb_spec s today) as [Hpast | Hfut].
        -- split; [| split; [| split]].
           ++ split; [intros _; exists s, e; auto | intros _; eexists; reflexivity].
           ++ intros x Hx. injection Hx as <-. reflexivity.
           ++ intros d'. discriminate.
           ++ intros [H | H]; discriminate.
        -- split; [| split; [| split]].
           ++ split; [intros [x Hx]; discriminate |].
              intros (s' & e' & Es & Ee & [H | [_ H]]);
                injection Es as <-; injection Ee as <-; lia.
           ++ intros x. discriminate.
           ++ intros d' H. injection H as <-. reflexivity.
           ++ intros [H | H]; discriminate.
  - split; [| split; [| split]].
    + split; [intros [x Hx]; discriminate |].
      intros (s' & e' & _ & Ee & _). discriminate.
    + intros x. discriminate.
    + intros d' H. injection H as <-. reflexivity.
    + reflexivity.
  - split; [| split; [| split]].
    + split; [intros [x Hx]; discriminate |].
      intros (s' & e' & Es & _). discriminate.
    + intros x. discriminate.
    + intros d' H. injection H as <-. reflexivity.
    + reflexivity.
  - split; [| split; [| split]].
    + split; [intros [x Hx]; discriminate |].
      intros (s' & e' & Es & _). discriminate.
    + intros x. discriminate.
    + intros d' H. injection H as <-. reflexivity.
    + reflexivity.
Qed.

Lemma validate_booking_raises_exactly_when_witness :
  let d := BookingSerializer.mkData (Some 0) (Some 0) (Some 738990%Z) None None None in
  BookingSerializer.validate_booking None 739000%Z d = Ok d.
Proof.
  intros d. apply (validate_booking_raises_exactly_when None 739000%Z d).
  right. reflexivity.
Defined.

(** X4. The serializer hook is never more permissive than the model:
    for the same pair of dates, whatever [validate_booking] accepts
    passes [Booking.clean], and on an update the two accept exactly the
    same pairs. *)
Theorem serializer_dates_pass_model_clean :
  forall (b : Booking.t) (d : BookingSerializer.data)
         (instance : option Booking.t) (today : date),
    Booking.start_date b = BookingSerializer.start_date d ->
    Booking.end_date b = BookingSerializer.end_date d ->
    (BookingSerializer.validate_booking instance today d = Ok d ->
     Booking.clean b = Ok tt) /\
    (forall old,
       BookingSerializer.validate_booking (Some old) today d = Ok d <->
       Booking.clean b = Ok tt).
Proof.
  intros b d instance today Hs He.
  unfold BookingSerializer.validate_booking, Booking.clean. rewrite Hs, He.
  destruct (BookingSerializer.start_date d) as [s |],
           (BookingSerializer.end_date d) as [e |];
    try (split; [reflexivity | intros old; split; reflexivity]).
  destruct (Z.leb_spec e s).
  - split; [discriminate | intros old; split; discriminate].
  - split; [reflexivity | intros old; split; reflexivity].
Qed.

Lemma serializer_dates_pass_model_clean_witness :
  let b := Booking.mk 0 0 0 (Some 739001%Z) (Some 739004%Z)
                      (Decimal.mk 75000 (-2)) "pending" in
  let d := BookingSerializer.mkData (Some 0) (Some 0) (Some 739001%Z)
                                    (Some 739004%Z) None None in
  Booking.clean b = Ok tt.
Proof.
  intros b d.
  apply (proj1 (serializer_dates_pass_model_clean b d None 739000%Z eq_refl eq_refl)).
  reflexivity.
Defined.

(* ================================================================== *)
(** * Further properties: deletion *)
(* ================================================================== *)

Lemma mem_ids_selected {A} (key : A -> nat) (sel : A -> bool) (rows : list A) (x : nat) :
  mem_nat x (map key (filter sel rows)) = true <->
  exists row, In row rows /\ sel row = true /\ key row = x.
Proof.
  rewrite mem_nat_true_iff, in_map_iff. split.
  - intros (row & Hkey & Hin). apply filter_In in Hin. exists row. tauto.
  - intros (row & Hin & Hsel & Hkey). exists row. split; [exact Hkey |].
    apply filter_In. tauto.
Qed.

Lemma mem_ids_not_selected {A} (key : A -> nat) (sel : A -> bool) (rows : list A) (x : nat) :
  mem_nat x (map key (filter sel rows)) = false <->
  forall row, In row rows -> sel row = true -> key row <> x.
Proof.
  split.
  - intros H row Hin Hsel Hkey.
    assert (E : mem_nat x (map key (filter sel rows)) = true).
    { apply mem_ids_selected. exists row. tauto. }
    congruence.
  - intros H. destruct (mem_nat x _) eqn:E; [| reflexivity].
    apply mem_ids_selected in E. destruct E as (row & Hin & Hsel & Hkey).
    exfalso. exact (H row Hin Hsel Hkey).
Qed.

Lemma filter_after_filter {A} (first next : A -> bool) (rows : list A) :
  filter next (filter first rows) = filter (fun row => first row && next row) rows.
Proof.
  induction rows as [| row rows IH]; [reflexivity |].
  cbn [filter]. destruct (first row) eqn:E1; cbn [filter andb].
  - destruct (next row); rewrite IH; reflexivity.
  - exact IH.
Qed.

Lemma filter_nothing {A} (keep : A -> bool) (rows : list A) :
  (forall row, In row rows -> keep row = false) -> filter keep rows = [].
Proof.
  induction rows as [| row rows IH]; intros H; [reflexivity |].
  cbn [filter]. rewrite (H row) by (left; reflexivity).
  apply IH. intros r Hr. apply H. right. exact Hr.
Qed.

Lemma mem_ids_two_rounds {A} (key : A -> nat) (a b : A -> bool) (rows : list A)
    (x : nat) :
  mem_nat x (map key (filter (fun row => a row || b row) rows))
  = mem_nat x (map key (filter a rows))
    || mem_nat x (map key (filter b (filter (fun row => negb (a row)) rows))).
Proof.
  apply eq_true_iff_eq. rewrite orb_true_iff, !mem_ids_selected. split.
  - intros (row & Hin & Hsel & Hkey). destruct (a row) eqn:Ea.
    + left. exists row. auto.
    + right. exists row. split; [| auto].
      apply filter_In. rewrite Ea. auto.
  - intros [(row & Hin & Hsel & Hkey) | (row & Hin & Hsel & Hkey)].
    + exists row. rewrite Hsel. auto.
    + apply filter_In in Hin. destruct Hin as [Hin _].
      exists row. rewrite Hsel, orb_true_r. auto.
Qed.

Lemma delete_users_in_two_rounds (sel1 sel2 : User.t -> bool) (w : World) :
  db (snd ((UserManager.delete_where sel1 ;;; UserManager.delete_where sel2) w))
  = db (snd (UserManager.delete_where (fun u => sel1 u || sel2 u) w)).
Proof.
  unfold bind, UserManager.delete_where.
  cbn [snd db set_db users listings bookings reviews next_user_id].
  set (U := users (db w)). set (L := listings (db w)).
  set (gone1 := map User.id (filter sel1 U)).
  set (gone2 := map User.id (filter sel2 (filter (fun u => negb (sel1 u)) U))).
  set (gone := map User.id (filter (fun u => sel1 u || sel2 u) U)).
  assert (Hgone : forall x, mem_nat x gone = mem_nat x gone1 || mem_nat x gone2).
  { intros x. apply mem_ids_two_rounds. }
  set (hosted1 := map Listing.property_id
                      (filter (fun l => mem_nat (Listing.host l) gone1) L)).
  set (hosted2 := map Listing.property_id
                      (filter (fun l => mem_nat (Listing.host l) gone2)
                              (filter (fun l => negb (mem_nat (Listing.host l) gone1)) L))).
  set (hosted := map Listing.property_id
                     (filter (fun l => mem_nat (Listing.host l) gone) L)).
  assert (Hhosted : forall x, mem_nat x hosted = mem_nat x hosted1 || mem_nat x hosted2).
  { intros x. subst hosted hosted1 hosted2.
    rewrite <- mem_ids_two_rounds. f_equal. f_equal.
    apply filter_ext. intros l. apply Hgone. }
  f_equal.
  - rewrite filter_after_filter. apply filter_ext. intros u.
    symmetry. apply negb_orb.
  - rewrite filter_after_filter. apply filter_ext. intros l.
    rewrite Hgone. symmetry. apply negb_orb.
  - rewrite filter_after_filter. apply filter_ext. intros b.
    rewrite Hgone, Hhosted.
    destruct (mem_nat (Booking.user b) gone1), (mem_nat (Booking.user b) gone2),
      (mem_nat (Booking.property b) hosted1), (mem_nat (Booking.property b) hosted2);
      reflexivity.
  - rewrite filter_after_filter. apply filter_ext. intros r.
    rewrite Hgone, Hhosted.
    destruct (mem_nat (Review.user r) gone1), (mem_nat (Review.user r) gone2),
      (mem_nat (Review.property r) hosted1), (mem_nat (Review.property r) hosted2);
      reflexivity.
Qed.

Lemma delete_all_hosts (sel : User.t -> bool) (w : World) :
  fk_integrity (db w) ->
  (forall l u, In l (listings (db w)) -> In u (users (db w)) ->
               User.id u = Listing.host l -> sel u = true) ->
  let s' := db (snd (UserManager.delete_where sel w)) in
  listings s' = [] /\ bookings s' = [] /\ reviews s' = [].
Proof.
  intros (Fl & Fb & Fr) Hsel.
  unfold UserManager.delete_where.
  cbn [snd db set_db users listings bookings reviews].
  set (gone := map User.id (filter sel (users (db w)))).
  rewrite Forall_forall in Fl, Fb, Fr.
  assert (Hhost : forall l, In l (listings (db w)) ->
                            mem_nat (Listing.host l) gone = true).
  { intros l Hl. apply mem_ids_selected. specialize (Fl l Hl).
    apply in_map_iff in Fl. destruct Fl as (u & Hid & Hu).
    exists u. split; [exact Hu |]. split; [| exact Hid].
    exact (Hsel l u Hl Hu Hid). }
  assert (Hprop : forall x, In x (map Listing.property_id (listings (db w))) ->
            mem_nat x (map Listing.property_id
                         (filter (fun l => mem_nat (Listing.host l) gone)
                                 (listings (db w)))) = true).
  { intros x Hx. apply in_map_iff in Hx. destruct Hx as (l & Hid & Hl).
    apply mem_ids_selected. exists l. split; [exact Hl |].
    split; [apply Hhost; exact Hl | exact Hid]. }
  split; [| split]; apply filter_nothing.
  - intros l Hl. rewrite (Hhost l Hl). reflexivity.
  - intros b Hb. rewrite (Hprop _ (proj1 (Fb b Hb))). apply andb_false_r.
  - intros r Hr. rewrite (Hprop _ (proj1 (Fr r Hr))). apply andb_false_r.
Qed.

(** X5. The cascade of a deletion of users composes: deleting the users
    of one filter and then those of another leaves the database that
    deleting the users of either filter at once leaves.  In a store with
    referential integrity, deleting users that include the host of
    every listing empties the listings, the bookings and the reviews,
    also those made by users that stay; so when no listing is hosted by
    a superuser, deleting the users that are not superusers leaves what
    the clearing part of the seed command leaves, its three other
    deletions changing nothing. *)
Theorem user_deletes_compose_and_clear :
  forall (sel1 sel2 : User.t -> bool) (w : World),
    db (snd ((UserManager.delete_where sel1 ;;; UserManager.delete_where sel2) w))
    = db (snd (UserManager.delete_where (fun u => sel1 u || sel2 u) w)) /\
    (fk_integrity (db w) ->
     (forall l u, In l (listings (db w)) -> In u (users (db w)) ->
                  User.id u = Listing.host l -> sel1 u = true) ->
     let s' := db (snd (UserManager.delete_where sel1 w)) in
     listings s' = [] /\ bookings s' = [] /\ reviews s' = []) /\
    (fk_integrity (db w) ->
     (forall l u, In l (listings (db w)) -> In u (users (db w)) ->
                  User.id u = Listing.host l -> User.is_superuser u = false) ->
     db (snd (UserManager.delete_where (fun u => negb (User.is_superuser u)) w))
     = db (snd (Command.clear_data w))).
Proof.
  intros sel1 sel2 w.
  split; [apply delete_users_in_two_rounds |].
  split; [apply delete_all_hosts |].
  intros Hfk Hhosts.
  destruct (clear_data_spec w) as (wc & E & D & _).
  rewrite E. cbn [snd]. rewrite D. clear E D wc.
  destruct (delete_all_hosts (fun u => negb (User.is_superuser u)) w Hfk)
    as (Hl & Hb & Hr).
  { intros l u Hl Hu Hid. rewrite (Hhosts l u Hl Hu Hid). reflexivity. }
  revert Hl Hb Hr. unfold UserManager.delete_where, cleared.
  cbn [snd db set_db users listings bookings reviews].
  intros -> -> ->. f_equal.
  apply filter_ext. intros u. apply negb_involutive.
Qed.

Lemma user_deletes_compose_and_clear_witness :
  let host := User.mk 1 "john_host" "" "" "" false "" in
  let guest := User.mk 2 "mike_guest" "" "" "" false "" in
  let admin := User.mk 3 "admin" "" "" "" true "" in
  let l := Listing.mk 10 1 "Cozy Beach House" "A house by the sea."
                      "Malibu, California" (Decimal.mk 25000 (-2)) in
  let b := Booking.mk 11 10 3 (Some 739000%Z) (Some 739002%Z)
                      (Decimal.mk 50000 (-2)) "pending" in
  let w := mkWorld (mkStore [host; guest; admin] [l] [b] [] 4) (fun n => n) 0 12 []
                   739000%Z in
  db (snd (UserManager.delete_where (fun u => negb (User.is_superuser u)) w))
  = mkStore [admin] [] [] [] 4 /\
  db (snd (Command.clear_data w)) = mkStore [admin] [] [] [] 4.
Proof.
  intros host guest admin l b w.
  destruct (user_deletes_compose_and_clear (fun _ => false) (fun _ => false) w)
    as (_ & _ & H).
  rewrite <- H.
  - split; reflexivity.
  - split; [| split]; repeat (apply Forall_cons || apply Forall_nil); cbn; auto.
  - intros l' u [<- | []] [<- | [<- | [<- | []]]]; cbn; intros Hid;
      solve [reflexivity | discriminate].
Defined.

Lemma in_ids_kept {A} (key : A -> nat) (sel : A -> bool) (rows : list A) (x : nat) :
  In x (map key rows) ->
  mem_nat x (map key (filter sel rows)) = false ->
  In x (map key (filter (fun row => negb (sel row)) rows)).
Proof.
  intros Hin Hmem. apply in_map_iff in Hin. destruct Hin as (row & Hkey & Hin).
  apply in_map_iff. exists row. split; [exact Hkey |]. apply filter_In.
  split; [exact Hin |]. apply negb_true_iff.
  destruct (sel row) eqn:E; [| reflexivity].
  rewrite mem_ids_not_selected in Hmem. exfalso. exact (Hmem row Hin E Hkey).
Qed.

(** X6. Deletion keeps referential integrity: when every foreign key of
    the store names a stored row, it still does after the users, or the
    listings, selected by any filter are deleted with their cascade. *)
Theorem cascades_keep_referential_integrity :
  forall w : World,
    fk_integrity (db w) ->
    (forall sel, fk_integrity (db (snd (UserManager.delete_where sel w)))) /\
    (forall sel, fk_integrity (db (snd (ListingManager.delete_where sel w)))).
Proof.
  intros w (Hl & Hb & Hr). rewrite Forall_forall in Hl, Hb, Hr. split; intros sel.
  - unfold fk_integrity. cbn -[mem_nat]. split; [| split]; apply Forall_forall.
    + intros l Hin. apply filter_In in Hin. destruct Hin as [Hin Hkeep].
      apply negb_true_iff in Hkeep. apply in_ids_kept; [apply Hl; exact Hin | exact Hkeep].
    + intros b Hin. apply filter_In in Hin. destruct Hin as [Hin Hkeep].
      apply andb_true_iff in Hkeep. destruct Hkeep as [Hu Hp].
      apply negb_true_iff in Hu, Hp. destruct (Hb b Hin) as [Hbp Hbu]. split.
      * apply (in_ids_kept Listing.property_id
                 (fun l => mem_nat (Listing.host l) (map User.id (filter sel (users (db w))))));
          assumption.
      * apply in_ids_kept; assumption.
    + intros x Hin. apply filter_In in Hin. destruct Hin as [Hin Hkeep].
      apply andb_true_iff in Hkeep. destruct Hkeep as [Hu Hp].
      apply negb_true_iff in Hu, Hp. destruct (Hr x Hin) as [Hxp Hxu]. split.
      * apply (in_ids_kept Listing.property_id
                 (fun l => mem_nat (Listing.host l) (map User.id (filter sel (users (db w))))));
          assumption.
      * apply in_ids_kept; assumption.
  - unfold fk_integrity. cbn -[mem_nat]. split; [| split]; apply Forall_forall.
    + intros l Hin. apply filter_In in Hin. apply Hl. tauto.
    + intros b Hin. apply filter_In in Hin. destruct Hin as [Hin Hkeep].
      apply negb_true_iff in Hkeep. destruct (Hb b Hin) as [Hbp Hbu].
      split; [apply in_ids_kept; assumption | exact Hbu].
    + intros x Hin. apply filter_In in Hin. destruct Hin as [Hin Hkeep].
      apply negb_true_iff in Hkeep. destruct (Hr x Hin) as [Hxp Hxu].
      split; [apply in_ids_kept; assumption | exact Hxu].
Qed.

Lemma cascades_keep_referential_integrity_witness :
  let host := User.mk 1 "john_host" "" "" "" false "" in
  let admin := User.mk 3 "admin" "" "" "" true "" in
  let l := Listing.mk 10 1 "Cozy Beach House" "" "Malibu, California"
                      (Decimal.mk 25000 (-2)) in
  let b := Booking.mk 11 10 3 (Some 739000%Z) (Some 739002%Z)
                      (Decimal.mk 50000 (-2)) "pending" in
  let w := mkWorld (mkStore [host; admin] [l] [b] [] 4) (fun n => n) 0 12 [] 739000%Z in
  fk_integrity (db (snd (UserManager.delete_where
                           (fun u => negb (User.is_superuser u)) w))).
Proof.
  intros host admin l b w.
  apply (cascades_keep_referential_integrity w).
  unfold fk_integrity. cbn.
  split; [| split]; repeat (apply Forall_cons || apply Forall_nil); cbn; auto.
Defined.

Lemma filter_twice {A} (keep : A -> bool) (rows : list A) :
  filter keep (filter keep rows) = filter keep rows.
Proof.
  induction rows as [| row rows IH]; cbn; [reflexivity |].
  destruct (keep row) eqn:E; cbn; [rewrite E, IH; reflexivity | exact IH].
Qed.

(** X7. The clearing part of the seed command never raises; it leaves
    the superusers, untouched and in their order, and no other row: no
    other user, no listing, no booking, no review; it reports its two
    lines; and clearing a cleared store changes nothing. *)
Theorem clear_data_keeps_only_superusers :
  forall w : World,
    let r := Command.clear_data w in
    let s' := db (snd r) in
    fst r = Ok tt /\
    users s' = filter User.is_superuser (users (db w)) /\
    listings s' = [] /\ bookings s' = [] /\ reviews s' = [] /\
    next_user_id s' = next_user_id (db w) /\
    stdout (snd r) = stdout w ++ ["Clearing existing data..."; "✓ Data cleared"] /\
    db (snd (Command.clear_data (snd r))) = s'.
Proof.
  intros w r s'.
  destruct (clear_data_spec w) as (wc & E & D & _).
  assert (Hs' : s' = cleared (db w)).
  { subst s' r. rewrite E. exact D. }
  split; [subst r; rewrite E; reflexivity |].
  rewrite Hs'. cbn [cleared users listings bookings reviews next_user_id].
  split; [reflexivity |]. split; [reflexivity |]. split; [reflexivity |].
  split; [reflexivity |]. split; [reflexivity |].
  split.
  { subst r. cbn. rewrite <- app_assoc. reflexivity. }
  destruct (clear_data_spec (snd r)) as (wc2 & E2 & D2 & _).
  rewrite E2. cbn [snd]. rewrite D2. fold s'. rewrite Hs'.
  unfold cleared. cbn. rewrite filter_twice. reflexivity.
Qed.

(* ================================================================== *)
(** * Further properties: the seed command on its edges *)
(* ================================================================== *)

(** X8. When no user of the list it is given has ["host"] in the user
    name, [create_listings] raises [ZeroDivisionError] at the first
    listing and leaves the world as it was: no listing is written. *)
Theorem create_listings_without_hosts :
  forall (us : list User.t) (w : World),
    filter (fun u => contains "host" (User.username u)) us = [] ->
    Command.create_listings us w = (Raise ZeroDivisionError, w).
Proof.
  intros us w Hnone. unfold Command.create_listings. rewrite Hnone. reflexivity.
Qed.

Lemma create_listings_without_hosts_witness :
  let guest := User.mk 2 "mike_guest" "" "" "" false "" in
  let w := mkWorld (mkStore [guest] [] [] [] 3) (fun n => n) 0 0 [] 739000%Z in
  Command.create_listings [guest] w = (Raise ZeroDivisionError, w).
Proof.
  intros guest w. apply (create_listings_without_hosts [guest] w). reflexivity.
Defined.

(** X9. When it is given no listing, or no user with ["guest"] in the
    user name, [create_bookings] raises [IndexError] at the first
    booking; the database is as it was, no booking is written. *)
Theorem create_bookings_without_listings_or_guests :
  forall (ls : list Listing.t) (us : list User.t) (w : World),
    ls = [] \/ filter (fun u => contains "guest" (User.username u)) us = [] ->
    exists w',
      Command.create_bookings ls us w = (Raise IndexError, w') /\
      db w' = db w /\ next_uuid w' = next_uuid w.
Proof.
  intros ls us w Hnone. unfold Command.create_bookings.
  change (seq 0 15) with (0 :: seq 1 14). cbn [forM].
  unfold Command.create_booking.
  destruct ls as [| l ls].
  - exists w. repeat split.
  - destruct Hnone as [Hnone | Hnone]; [discriminate |]. rewrite Hnone.
    destruct (choice_spec (l :: ls) w) as (x & w1 & E1 & _ & (D1 & N1 & _));
      [discriminate |].
    exists w1. unfold bind at 1. unfold bind at 1. rewrite E1.
    split; [reflexivity | split; assumption].
Qed.

Lemma create_bookings_without_listings_or_guests_witness :
  let host := User.mk 1 "john_host" "" "" "" false "" in
  let w := mkWorld (mkStore [host] [] [] [] 2) (fun n => n) 0 0 [] 739000%Z in
  exists w',
    Command.create_bookings [] [host] w = (Raise IndexError, w') /\
    db w' = db w /\ next_uuid w' = next_uuid w.
Proof.
  intros host w. apply (create_bookings_without_listings_or_guests [] [host] w).
  left. reflexivity.
Defined.

Lemma review_listing_without_guests (l : Listing.t) (w : World) :
  exists w', Command.review_listing [] l w = (Ok [], w') /\ unchanged w w'.
Proof.
  unfold Command.review_listing.
  destruct (randint_spec 1 3 w) as (z & w1 & E1 & _ & U1); [lia |].
  rewrite (bind_ok _ _ _ _ _ E1). cbn [List.length]. rewrite Nat.min_0_r.
  exists w1. split; [reflexivity | exact U1].
Qed.

Lemma review_listings_without_guests (sampled : list Listing.t) :
  forall w : World,
    exists rss w',
      forM sampled (Command.review_listing []) w = (Ok rss, w') /\
      List.concat rss = [] /\ unchanged w w'.
Proof.
  induction sampled as [| l sampled IH]; intros w.
  - exists [], w. split; [reflexivity |]. split; [reflexivity | apply unchanged_refl].
  - destruct (review_listing_without_guests l w) as (w1 & E1 & U1).
    destruct (IH w1) as (rss & w2 & E2 & Hnil & U2).
    exists ([] :: rss), w2. split; [exact (forM_cons_ok _ _ _ _ _ _ _ _ E1 E2) |].
    split; [exact Hnil | exact (unchanged_trans _ _ _ U1 U2)].
Qed.

(** X10. When it is given no listing, or no user with ["guest"] in the
    user name, [create_reviews] raises nothing: it returns the empty
    list and the database is as it was. *)
Theorem create_reviews_without_listings_or_guests :
  forall (ls : list Listing.t) (us : list User.t) (w : World),
    ls = [] \/ filter (fun u => contains "guest" (User.username u)) us = [] ->
    exists w',
      Command.create_reviews ls us w = (Ok [], w') /\
      db w' = db w /\ next_uuid w' = next_uuid w.
Proof.
  intros ls us w Hnone. unfold Command.create_reviews.
  destruct (sample_spec ls (Nat.min 6 (List.length ls)) w)
    as (sampled & w1 & E1 & Hlen & _ & _ & U1); [lia |].
  rewrite (bind_ok _ _ _ _ _ E1).
  destruct Hnone as [Hnone | Hnone].
  - subst ls. cbn in Hlen. destruct sampled; [| discriminate].
    exists w1. split; [reflexivity |]. destruct U1 as (D & N & _). split; assumption.
  - rewrite Hnone.
    destruct (review_listings_without_guests sampled w1) as (rss & w2 & E2 & Hnil & U2).
    rewrite (bind_ok _ _ _ _ _ E2). unfold ret. rewrite Hnil.
    exists w2. split; [reflexivity |].
    destruct (unchanged_trans _ _ _ U1 U2) as (D & N & _). split; assumption.
Qed.

Lemma create_reviews_without_listings_or_guests_witness :
  let host := User.mk 1 "john_host" "" "" "" false "" in
  let l := Listing.mk 10 1 "Cozy Beach House" "" "Malibu, California"
                      (Decimal.mk 25000 (-2)) in
  let w := mkWorld (mkStore [host] [l] [] [] 2) (fun n => n) 0 11 [] 739000%Z in
  exists w',
    Command.create_reviews [l] [host] w = (Ok [], w') /\
    db w' = db w /\ next_uuid w' = next_uuid w.
Proof.
  intros host l w. apply (create_reviews_without_listings_or_guests [l] [host] w).
  right. reflexivity.
Defined.

(* ================================================================== *)
(** * Further properties: what the seed command inserts *)
(* ================================================================== *)

Lemma bind_inv {A B} (m : M A) (k : A -> M B) (w w' : World) (b : B) :
  bind m k w = (Ok b, w') ->
  exists a w1, m w = (Ok a, w1) /\ k a w1 = (Ok b, w').
Proof.
  unfold bind. destruct (m w) as [[a | e] w1]; [| discriminate].
  intros H. exists a, w1. split; [reflexivity | exact H].
Qed.

Lemma ret_inv {A} (a b : A) (w w' : World) : ret a w = (Ok b, w') -> b = a /\ w' = w.
Proof. unfold ret. intros H. injection H as <- <-. split; reflexivity. Qed.

Lemma forM_inv {A B} (body : A -> M B) (xs : list A) :
  forall (w w' : World) (ys : list B),
    forM xs body w = (Ok ys, w') ->
    Forall2 (fun x y => exists w1 w2, body x w1 = (Ok y, w2)) xs ys.
Proof.
  induction xs as [| x xs IH]; intros w w' ys H; cbn [forM] in H.
  - apply ret_inv in H. destruct H as [-> _]. constructor.
  - apply bind_inv in H. destruct H as (y & w1 & E1 & H).
    apply bind_inv in H. destruct H as (ys' & w2 & E2 & H).
    apply ret_inv in H. destruct H as [-> _].
    constructor; [exists w, w1; exact E1 | exact (IH _ _ _ E2)].
Qed.

Lemma Forall2_weaken {A B} (R R' : A -> B -> Prop) (xs : list A) (ys : list B) :
  (forall x y, In x xs -> R x y -> R' x y) -> Forall2 R xs ys -> Forall2 R' xs ys.
Proof.
  intros Himp H. induction H as [| x y xs ys Hxy _ IH]; constructor.
  - apply Himp; [left; reflexivity | exact Hxy].
  - apply IH. intros x' y' Hin. apply Himp. right. exact Hin.
Qed.

Lemma Forall2_right {A B} (R : A -> B -> Prop) (P : B -> Prop) (xs : list A) (ys : list B) :
  (forall x y, In x xs -> R x y -> P y) -> Forall2 R xs ys -> Forall P ys.
Proof.
  intros Himp H. induction H as [| x y xs ys Hxy _ IH]; constructor.
  - apply (Himp x); [left; reflexivity | exact Hxy].
  - apply IH. intros x' y' Hin. apply Himp. right. exact Hin.
Qed.

Lemma choice_inv {A} (xs : list A) (w w' : World) (x : A) :
  random.choice xs w = (Ok x, w') -> In x xs.
Proof.
  intros H. destruct xs as [| y ys]; [discriminate |].
  destruct (choice_spec (y :: ys) w) as (x' & w1 & E & Hin & _); [discriminate |].
  rewrite E in H. injection H as <- _. exact Hin.
Qed.

Lemma randint_inv (a b : Z) (w w' : World) (z : Z) :
  random.randint a b w = (Ok z, w') -> (a <= z <= b)%Z.
Proof.
  intros H. destruct (Z.lt_ge_cases b a) as [Hlt | Hge].
  - unfold random.randint in H. apply Z.ltb_lt in Hlt. rewrite Hlt in H. discriminate.
  - destruct (randint_spec a b w) as (z' & w1 & E & Hz & _); [lia |].
    rewrite E in H. injection H as <- _. exact Hz.
Qed.

Lemma sample_inv {A} (pool : list A) (k : nat) (w w' : World) (xs : list A) :
  random.sample pool k w = (Ok xs, w') ->
  List.length xs = k /\ incl xs pool /\
  (forall (B : Type) (f : A -> B), NoDup (map f pool) -> NoDup (map f xs)).
Proof.
  intros H. destruct (Nat.lt_ge_cases (List.length pool) k) as [Hlt | Hge].
  - unfold random.sample in H. apply Nat.ltb_lt in Hlt. rewrite Hlt in H. discriminate.
  - destruct (sample_spec pool k w Hge) as (xs' & w1 & E & Hlen & Hincl & Hnd & _).
    rewrite E in H. injection H as <- _. auto.
Qed.

Lemma index_mod_inv {A} (xs : list A) (i : nat) (w w' : World) (x : A) :
  Command.index_mod xs i w = (Ok x, w') ->
  nth_error xs (i mod List.length xs) = Some x.
Proof.
  unfold Command.index_mod. destruct (List.length xs) eqn:E; [discriminate |].
  destruct (nth_error xs (i mod S n)) as [y |]; [| discriminate].
  intros H. injection H as <- _. reflexivity.
Qed.

(** ** Listings and their hosts *)

Lemma create_listings_hosts (us : list User.t) (w w' : World) (ls : list Listing.t) :
  Command.create_listings us w = (Ok ls, w') ->
  let hosts := filter (fun u => contains "host" (User.username u)) us in
  Forall2 (fun il l =>
             exists h, nth_error hosts (fst il mod List.length hosts) = Some h /\
                       Listing.host l = User.id h /\ listing_fields l = snd il)
          (Command.enumerate Command.listings_data) ls.
Proof.
  intros H hosts. unfold Command.create_listings in H. fold hosts in H.
  apply forM_inv in H. eapply Forall2_weaken; [| exact H]. cbv beta.
  intros il l _ (w1 & w2 & E).
  apply bind_inv in E. destruct E as (h & w3 & E1 & E2).
  apply index_mod_inv in E1. exists h. split; [exact E1 |].
  unfold ListingManager.create, bind, uuid4 in E2. cbn in E2.
  injection E2 as <- _. split; [reflexivity |]. destruct (snd il); reflexivity.
Qed.

Lemma Forall2_nth_error_left {A B} (R : A -> B -> Prop) (xs : list A) (ys : list B) :
  Forall2 R xs ys ->
  forall i y, nth_error ys i = Some y -> exists x, nth_error xs i = Some x /\ R x y.
Proof.
  induction 1 as [| x y xs ys Hxy _ IH]; intros i y0 Hi.
  - destruct i; discriminate.
  - destruct i as [| i]; cbn in *.
    + injection Hi as <-. exists x. split; [reflexivity | exact Hxy].
    + apply IH. exact Hi.
Qed.

Lemma nth_error_enumerate {A} (xs : list A) (i : nat) (p : nat * A) :
  nth_error (Command.enumerate xs) i = Some p ->
  fst p = i /\ nth_error xs i = Some (snd p).
Proof.
  unfold Command.enumerate.
  assert (G : forall (start : nat) (l : list A) (j : nat),
             nth_error (combine (seq start (List.length l)) l) j = Some p ->
             fst p = start + j /\ nth_error l j = Some (snd p)).
  { intros start l. revert start. induction l as [| a l IH]; intros start j Hj.
    - destruct j; discriminate.
    - destruct j as [| j]; cbn in Hj.
      + injection Hj as <-. cbn. split; [lia | reflexivity].
      + apply IH in Hj. cbn. split; [lia | tauto]. }
  intros H. apply (G 0 xs i) in H. cbn in H. exact H.
Qed.

(** X11. [create_listings] gives the listings to the host users in
    rotation: when at least one user has ["host"] in the user name, it
    returns eight listings, all of them stored, and the listing at
    position [i] has the fields of the entry [i] of the list of sample
    listings and, as its host, the host user at position [i] modulo the
    number of host users. *)
Theorem create_listings_rotates_hosts :
  forall (us : list User.t) (w : World),
    let hosts := filter (fun u => contains "host" (User.username u)) us in
    hosts <> [] ->
    exists ls w',
      Command.create_listings us w = (Ok ls, w') /\
      List.length ls = 8 /\
      listings (db w') = listings (db w) ++ ls /\
      (forall i l,
         nth_error ls i = Some l ->
         exists h f,
           nth_error hosts (i mod List.length hosts) = Some h /\
           nth_error Command.listings_data i = Some f /\
           Listing.host l = User.id h /\ listing_fields l = f).
Proof.
  intros us w hosts Hne.
  destruct (create_listings_loop_spec hosts Hne
              (Command.enumerate Command.listings_data) w)
    as (ls & w' & E & Hf & _ & D & _).
  exists ls, w'. split; [exact E |].
  split.
  { rewrite <- (length_map listing_fields), Hf. reflexivity. }
  split; [rewrite D; reflexivity |].
  intros i l Hi.
  pose proof (create_listings_hosts us w w' ls E) as H2. cbv zeta in H2.
  destruct (Forall2_nth_error_left _ _ _ H2 i l Hi) as (il & Hil & h & Hh & Hhost & Hfields).
  apply nth_error_enumerate in Hil. destruct Hil as [Hfst Hsnd].
  exists h, (snd il). rewrite Hfst in Hh. auto.
Qed.

Lemma create_listings_rotates_hosts_witness :
  let john := User.mk 1 "john_host" "" "" "" false "" in
  let mike := User.mk 2 "mike_guest" "" "" "" false "" in
  let jane := User.mk 3 "jane_host" "" "" "" false "" in
  let w := mkWorld (mkStore [john; mike; jane] [] [] [] 4) (fun n => n) 0 0 []
                   739000%Z in
  exists ls w',
    Command.create_listings [john; mike; jane] w = (Ok ls, w') /\
    List.length ls = 8.
Proof.
  intros john mike jane w.
  destruct (create_listings_rotates_hosts [john; mike; jane] w)
    as (ls & w' & E & Hlen & _).
  - discriminate.
  - exists ls, w'. split; [exact E | exact Hlen].
Defined.

(** ** Bookings and reviews, row by row *)

Lemma lift_inv {A} (r : result A) (w w' : World) (a : A) :
  lift r w = (Ok a, w') -> r = Ok a /\ w' = w.
Proof. unfold lift. intros H. injection H as -> <-. split; reflexivity. Qed.

Lemma create_booking_inv (ls : list Listing.t) (guests : list User.t)
    (w w' : World) (b : Booking.t) :
  Command.create_booking ls guests w = (Ok b, w') ->
  exists l g,
    In l ls /\ In g guests /\
    Booking.property b = Listing.property_id l /\
    Booking.user b = User.id g /\
    In (Booking.status b) Command.statuses.
Proof.
  unfold Command.create_booking. intros H.
  apply bind_inv in H. destruct H as (l & w1 & E1 & H).
  apply bind_inv in H. destruct H as (g & w2 & E2 & H).
  apply bind_inv in H. destruct H as (k & w3 & _ & H).
  apply bind_inv in H. destruct H as (d & w4 & _ & H).
  apply bind_inv in H. destruct H as (now & w5 & _ & H).
  apply bind_inv in H. destruct H as (sd & w6 & _ & H).
  apply bind_inv in H. destruct H as (ed & w7 & _ & H).
  apply bind_inv in H. destruct H as (st & w8 & E8 & H).
  apply choice_inv in E1, E2, E8.
  unfold BookingManager.create, bind, uuid4 in H. cbn in H. injection H as <- _.
  exists l, g. cbn. auto.
Qed.

Lemma create_review_inv (l : Listing.t) (g : User.t) (w w' : World) (r : Review.t) :
  Command.create_review l g w = (Ok r, w') ->
  Review.property r = Listing.property_id l /\
  Review.user r = User.id g /\
  (3 <= Review.rating r <= 5)%Z /\
  In (Review.comment r) Command.review_comments.
Proof.
  unfold Command.create_review. intros H.
  apply bind_inv in H. destruct H as (z & w1 & E1 & H).
  apply bind_inv in H. destruct H as (c & w2 & E2 & H).
  apply randint_inv in E1. apply choice_inv in E2.
  unfold ReviewManager.create, bind, uuid4 in H. cbn in H.
  destruct (existsb _ _) in H; [discriminate |].
  injection H as <- _. cbn. auto.
Qed.

Lemma Forall2_map_eq {A B C} (f : A -> C) (g : B -> C) (xs : list A) (ys : list B) :
  Forall2 (fun x y => g y = f x) xs ys -> map g ys = map f xs.
Proof.
  induction 1 as [| x y xs ys Hxy _ IH]; cbn; [reflexivity |].
  rewrite Hxy, IH. reflexivity.
Qed.

(** What [create_reviews] writes for one of the listings it has drawn. *)
Lemma review_listing_inv (guests : list User.t) (l : Listing.t)
    (w w' : World) (rs : list Review.t) :
  Command.review_listing guests l w = (Ok rs, w') ->
  List.length rs <= 3 /\
  (guests <> [] -> 1 <= List.length rs) /\
  (NoDup (map User.id guests) -> NoDup (map Review.user rs)) /\
  Forall (fun r => Review.property r = Listing.property_id l /\
                   (exists g, In g guests /\ Review.user r = User.id g) /\
                   (3 <= Review.rating r <= 5)%Z /\
                   In (Review.comment r) Command.review_comments) rs.
Proof.
  unfold Command.review_listing. intros H.
  apply bind_inv in H. destruct H as (z & w1 & E1 & H).
  apply bind_inv in H. destruct H as (gs & w2 & E2 & H).
  apply randint_inv in E1. apply sample_inv in E2.
  destruct E2 as (Hlen & Hincl & Hnd).
  apply forM_inv in H.
  assert (H2 : Forall2 (fun g r => Review.user r = User.id g /\
                                   Review.property r = Listing.property_id l /\
                                   (3 <= Review.rating r <= 5)%Z /\
                                   In (Review.comment r) Command.review_comments /\
                                   In g guests) gs rs).
  { eapply Forall2_weaken; [| exact H]. cbv beta.
    intros g r Hg (wa & wb & E). apply create_review_inv in E.
    split; [tauto |]. split; [tauto |]. split; [tauto |]. split; [tauto |].
    apply Hincl. exact Hg. }
  assert (Hlenrs : List.length rs = List.length gs).
  { symmetry. eapply Forall2_length. exact H2. }
  split; [lia |].
  split.
  { intros Hne.
    assert (List.length guests <> 0) by (destruct guests; [congruence | discriminate]).
    lia. }
  split.
  { intros Hnd0.
    assert (Hmap : map Review.user rs = map User.id gs).
    { apply Forall2_map_eq. eapply Forall2_weaken; [| exact H2]. cbv beta. tauto. }
    rewrite Hmap. apply Hnd. exact Hnd0. }
  eapply Forall2_right; [| exact H2]. cbv beta.
  intros g r _ (Hu & Hp & Hr & Hc & Hg).
  split; [exact Hp |]. split; [exists g; tauto | tauto].
Qed.

Lemma create_reviews_inv (ls : list Listing.t) (us : list User.t)
    (w w' : World) (rs : list Review.t) :
  Command.create_reviews ls us w = (Ok rs, w') ->
  let guests := filter (fun u => contains "guest" (User.username u)) us in
  exists (sampled : list Listing.t) (rss : list (list Review.t)),
    rs = List.concat rss /\
    List.length sampled = Nat.min 6 (List.length ls) /\
    incl sampled ls /\
    (NoDup (map Listing.property_id ls) -> NoDup (map Listing.property_id sampled)) /\
    Forall2 (fun l rs_l =>
               List.length rs_l <= 3 /\
               (guests <> [] -> 1 <= List.length rs_l) /\
               (NoDup (map User.id guests) -> NoDup (map Review.user rs_l)) /\
               Forall (fun r => Review.property r = Listing.property_id l /\
                                (exists g, In g guests /\ Review.user r = User.id g) /\
                                (3 <= Review.rating r <= 5)%Z /\
                                In (Review.comment r) Command.review_comments) rs_l)
            sampled rss.
Proof.
  intros H guests. unfold Command.create_reviews in H. fold guests in H.
  apply bind_inv in H. destruct H as (sampled & w1 & E1 & H).
  apply bind_inv in H. destruct H as (rss & w2 & E2 & H).
  apply ret_inv in H. destruct H as [-> _].
  apply sample_inv in E1. destruct E1 as (Hlen & Hincl & Hnd).
  exists sampled, rss. split; [reflexivity |]. split; [exact Hlen |].
  split; [exact Hincl |]. split; [apply Hnd |].
  apply forM_inv in E2. eapply Forall2_weaken; [| exact E2]. cbv beta.
  intros l rs_l _ (wa & wb & E). exact (review_listing_inv guests l wa wb rs_l E).
Qed.

(** ** What is written to the output *)

Section Quiet.

Variable out : list string.

Let quiet (w : World) : Prop := stdout w = out.

Lemma quiet_randint a b : preserves quiet (random.randint a b).
Proof.
  unfold random.randint. destruct (b <? a)%Z; intros w H; exact H.
Qed.

Lemma quiet_choice {A} (xs : list A) : preserves quiet (random.choice xs).
Proof.
  intros w H. unfold random.choice. destruct xs as [| x xs]; [exact H |].
  unfold bind, random.draw. destruct (nth_error _ _); exact H.
Qed.

Lemma quiet_sample_loop {A} (k : nat) :
  forall pool : list A, preserves quiet (random.sample_loop k pool).
Proof.
  induction k as [| k IH]; intros pool; cbn [random.sample_loop].
  - apply preserves_ret.
  - apply preserves_bind; [intros w H; exact H |].
    intros r. destruct (nth_error _ _); [| apply preserves_raise].
    apply preserves_bind; [apply IH | intros xs; apply preserves_ret].
Qed.

Lemma quiet_sample {A} (pool : list A) (k : nat) : preserves quiet (random.sample pool k).
Proof.
  unfold random.sample. destruct (_ <? _)%nat;
    [apply preserves_raise | apply quiet_sample_loop].
Qed.

Lemma quiet_create_user ud : preserves quiet (Command.create_user ud).
Proof.
  intros w H. unfold Command.create_user, bind, UserManager.get_or_create.
  destruct (filter _ _) as [| u [| u' us]]; cbn; try exact H.
  unfold UserManager.save. destruct (mem_nat _ _); exact H.
Qed.

Lemma quiet_create_users : preserves quiet Command.create_users.
Proof.
  unfold Command.create_users. apply preserves_forM. intros ud _.
  apply quiet_create_user.
Qed.

Lemma quiet_create_listings us : preserves quiet (Command.create_listings us).
Proof.
  unfold Command.create_listings. apply preserves_forM. intros il _.
  apply preserves_bind.
  - unfold Command.index_mod. destruct (List.length _); [apply preserves_raise |].
    destruct (nth_error _ _); [apply preserves_ret | apply preserves_raise].
  - intros h w H. exact H.
Qed.

Lemma quiet_create_bookings ls us : preserves quiet (Command.create_bookings ls us).
Proof.
  unfold Command.create_bookings, Command.create_booking.
  apply preserves_forM. intros i _.
  apply preserves_bind; [apply quiet_choice | intros l].
  apply preserves_bind; [apply quiet_choice | intros g].
  apply preserves_bind; [apply quiet_randint | intros k].
  apply preserves_bind; [apply quiet_randint | intros d].
  apply preserves_bind; [intros w H; exact H | intros now].
  apply preserves_bind; [apply preserves_lift | intros sd].
  apply preserves_bind; [apply preserves_lift | intros ed].
  apply preserves_bind; [apply quiet_choice | intros st].
  intros w H. exact H.
Qed.

Lemma quiet_create_reviews ls us : preserves quiet (Command.create_reviews ls us).
Proof.
  unfold Command.create_reviews, Command.review_listing, Command.create_review.
  apply preserves_bind; [apply quiet_sample | intros sampled].
  apply preserves_bind; [| intros rss; apply preserves_ret].
  apply preserves_forM. intros l _.
  apply preserves_bind; [apply quiet_randint | intros z].
  apply preserves_bind; [apply quiet_sample | intros gs].
  apply preserves_forM. intros g _.
  apply preserves_bind; [apply quiet_randint | intros rating].
  apply preserves_bind; [apply quiet_choice | intros c].
  intros w H. unfold ReviewManager.create, bind, uuid4. cbn.
  destruct (existsb _ _); exact H.
Qed.

End Quiet.

Lemma stdout_kept {A} (m : M A) (w w' : World) (a : A) :
  (forall out, preserves (fun w0 => stdout w0 = out) m) ->
  m w = (Ok a, w') -> stdout w' = stdout w.
Proof.
  intros Hq E. specialize (Hq (stdout w) w eq_refl). rewrite E in Hq. exact Hq.
Qed.

(** ** The steps of a run *)

(** A run of the command in a well-formed world, step by step: the
    worlds between the steps and what each step returns. *)
Lemma handle_run (clear : bool) (w : World) :
  world_wf w ->
  let s0 := if clear then cleared (db w) else db w in
  exists w0 us w1 ls w2 bs w3 rs w4,
    let wA := snd (write "Starting database seeding..." w0) in
    let wB := snd (write (Command.created (List.length us) "users") w1) in
    let wC := snd (write (Command.created (List.length ls) "listings") w2) in
    let wD := snd (write (Command.created (List.length bs) "bookings") w3) in
    let wE := snd (write (Command.created (List.length rs) "reviews") w4) in
    (if clear then Command.clear_data else ret tt) w = (Ok tt, w0) /\
    Command.create_users wA = (Ok us, w1) /\
    Command.create_listings us wB = (Ok ls, w2) /\
    Command.create_bookings ls us wC = (Ok bs, w3) /\
    Command.create_reviews ls us wD = (Ok rs, w4) /\
    Command.handle clear w =
      (Ok tt, snd (write (String (ascii_of_nat 10)
                            "✨ Database seeding completed successfully!") wE)) /\
    db w0 = s0 /\ users_wf s0 /\
    map User.username us = map Command.ud_username Command.users_data /\
    incl us (users (db w1)) /\ users_wf (db w1) /\ NoDup (map User.id us) /\
    listings (db w1) = listings s0 /\ bookings (db w1) = bookings s0 /\
    reviews (db w1) = reviews s0 /\
    db w2 = set_listings (db w1) (listings (db w1) ++ ls) /\
    map Listing.property_id ls = seq (next_uuid w) 8 /\
    db w3 = set_bookings (db w2) (bookings (db w2) ++ bs) /\
    List.length bs = 15 /\
    db w4 = set_reviews (db w3) (reviews (db w3) ++ rs).
Proof.
  intros (Hu & Hr & Hc) s0. unfold Command.handle.
  assert (H0 : exists w0, (if clear then Command.clear_data else ret tt) w = (Ok tt, w0) /\
                          db w0 = s0 /\ next_uuid w0 = next_uuid w /\ today w0 = today w).
  { destruct clear; [apply clear_data_spec | exists w; repeat split]. }
  destruct H0 as (w0 & E0 & D0 & N0 & T0).
  rewrite (bind_ok _ _ _ _ _ E0), bind_write.
  assert (Hu0 : users_wf s0).
  { subst s0. destruct clear; [apply users_wf_cleared |]; exact Hu. }
  assert (Hr0 : Forall (fun r => Review.property r < next_uuid w) (reviews s0)).
  { subst s0. destruct clear; [constructor | exact Hr]. }
  match goal with
  | |- context [bind Command.create_users _ ?x] =>
      destruct (create_users_loop_spec Command.users_data x)
        as (us & w1 & E1 & Hnames & Hincl & Hu1 & _ & _ & L1 & B1 & R1 & N1 & T1)
  end.
  { cbn. rewrite D0. exact Hu0. }
  cbn [db next_uuid today] in *.
  unfold Command.create_users at 1. rewrite (bind_ok _ _ _ _ _ E1), bind_write.
  destruct (seeded_users_shape us Hnames)
    as (u0 & u1 & u2 & u3 & u4 & u5 & Hus & Hhosts & Hguests & Hndus).
  match goal with
  | |- context [bind (Command.create_listings us) _ ?x] =>
      destruct (create_listings_loop_spec
                  (filter (fun u => contains "host" (User.username u)) us)
                  ltac:(rewrite Hhosts; discriminate)
                  (Command.enumerate Command.listings_data) x)
        as (ls & w2 & E2 & _ & Hids & D2 & N2 & T2)
  end.
  cbn [db next_uuid today] in *.
  change (forM (Command.enumerate Command.listings_data)
            (fun il => h <- Command.index_mod
                              (filter (fun u => contains "host" (User.username u)) us)
                              (fst il) ;;
                       ListingManager.create h (snd il)))
    with (Command.create_listings us) in E2.
  rewrite (bind_ok _ _ _ _ _ E2), bind_write.
  change (List.length (Command.enumerate Command.listings_data)) with 8 in *.
  assert (Hlen8 : List.length ls = 8).
  { rewrite <- (length_map Listing.property_id), Hids. apply length_seq. }
  match goal with
  | |- context [bind (Command.create_bookings ls us) _ ?x] =>
      destruct (create_bookings_loop_spec ls
                  (filter (fun u => contains "guest" (User.username u)) us)
                  ltac:(intros ->; discriminate)
                  ltac:(rewrite Hguests; discriminate)
                  (seq 0 15) x)
        as (bs & w3 & E3 & Hlenbs & _ & D3 & N3 & T3)
  end.
  { cbn. rewrite T2, T1, T0. exact Hc. }
  cbn [db next_uuid today] in *.
  change (forM (seq 0 15)
            (fun _ => Command.create_booking ls
                        (filter (fun u => contains "guest" (User.username u)) us)))
    with (Command.create_bookings ls us) in E3.
  rewrite (bind_ok _ _ _ _ _ E3), bind_write.
  assert (Hndids : NoDup (map User.id us)).
  { apply (NoDup_map_incl User.id us (users (db w1))); [exact Hndus | exact Hincl |].
    apply Hu1. }
  match goal with
  | |- context [bind (Command.create_reviews ls us) _ ?x] =>
      destruct (create_reviews_spec ls us x)
        as (rs & w4 & E4 & _ & _ & _ & D4 & N4 & T4)
  end.
  { rewrite Hguests. discriminate. }
  { apply NoDup_keys_filter. exact Hndids. }
  { lia. }
  { rewrite Hids. apply seq_NoDup. }
  { cbn [db]. rewrite D3, D2. cbn. rewrite R1, D0.
    intros r l Hin Hl. rewrite Forall_forall in Hr0. specialize (Hr0 r Hin).
    assert (Hp : In (Listing.property_id l) (map Listing.property_id ls))
      by (apply in_map; exact Hl).
    rewrite Hids in Hp. apply in_seq in Hp. lia. }
  cbn [db next_uuid today] in *.
  rewrite (bind_ok _ _ _ _ _ E4), !bind_write.
  exists w0, us, w1, ls, w2, bs, w3, rs, w4. cbv zeta.
  split; [exact E0 |]. split; [exact E1 |]. split; [exact E2 |].
  split; [exact E3 |]. split; [exact E4 |]. split; [reflexivity |].
  split; [exact D0 |]. split; [exact Hu0 |]. split; [exact Hnames |].
  split; [exact Hincl |]. split; [exact Hu1 |]. split; [exact Hndids |].
  split; [rewrite L1, D0; reflexivity |]. split; [rewrite B1, D0; reflexivity |].
  split; [rewrite R1, D0; reflexivity |]. split; [exact D2 |].
  split; [rewrite Hids, N1, N0; reflexivity |]. split; [exact D3 |].
  split; [exact Hlenbs | exact D4].
Qed.

(** The users that the loop of [create_users] adds: one for every name
    of the data that is not stored, with the fields of the data, the
    sample password and no privilege; the users it returns are stored
    rows or added ones. *)
Lemma create_users_loop_new (data : list Command.user_data) :
  forall (w w' : World) (us : list User.t),
    users_wf (db w) ->
    forM data Command.create_user w = (Ok us, w') ->
    exists new,
      users (db w') = users (db w) ++ new /\
      Forall (fun u =>
                exists ud,
                  In ud data /\
                  ~ In (Command.ud_username ud) (map User.username (users (db w))) /\
                  u = User.mk (User.id u) (Command.ud_username ud)
                        (Command.ud_email ud) (Command.ud_first_name ud)
                        (Command.ud_last_name ud) false "password123") new /\
      Forall (fun u => In u (users (db w)) \/ In u new) us.
Proof.
  induction data as [| ud data IH]; intros w w' us Hwf H; cbn [forM] in H.
  - apply ret_inv in H. destruct H as [-> ->]. exists [].
    rewrite app_nil_r. repeat split; constructor.
  - apply bind_inv in H. destruct H as (u & w1 & E1 & H).
    apply bind_inv in H. destruct H as (us' & w2 & E2 & H).
    apply ret_inv in H. destruct H as [-> ->].
    pose proof Hwf as (Hn & Hi & Hf).
    destruct (in_dec string_dec (Command.ud_username ud)
                     (map User.username (users (db w)))) as [Hin | Hout].
    + apply in_map_iff in Hin. destruct Hin as (u0 & Hname & Hin).
      rewrite (create_user_present ud w u0 Hn Hin Hname) in E1.
      injection E1 as <- <-.
      destruct (IH w w2 us' Hwf E2) as (new & Hnew & Hfacts & Hus).
      exists new. split; [exact Hnew |]. split.
      * eapply Forall_impl; [| exact Hfacts]. cbv beta.
        intros x (ud' & Hud' & Hfresh & Hx). exists ud'. split; [right; exact Hud' | auto].
      * constructor; [left; exact Hin | exact Hus].
    + rewrite (create_user_absent ud w Hf Hout) in E1. injection E1 as <- <-.
      match type of E2 with
      | forM data _ ?x = _ => destruct (IH x w2 us') as (new & Hnew & Hfacts & Hus)
      end.
      { apply users_wf_snoc; [exact Hwf | reflexivity | exact Hout]. }
      { exact E2. }
      cbn [db set_db users set_users] in Hnew, Hfacts, Hus.
      eexists (_ :: new). split; [rewrite Hnew, <- app_assoc; reflexivity |]. split.
      * constructor.
        -- exists ud. split; [left; reflexivity |]. split; [exact Hout | reflexivity].
        -- eapply Forall_impl; [| exact Hfacts]. cbv beta.
           intros x (ud' & Hud' & Hfresh & Hx). exists ud'.
           split; [right; exact Hud' |]. split; [| exact Hx].
           intros Habs. apply Hfresh. rewrite map_app. apply in_or_app. left. exact Habs.
      * constructor; [right; left; reflexivity |].
        eapply Forall_impl; [| exact Hus]. cbv beta.
        intros x [Hx | Hx]; [| right; right; exact Hx].
        apply in_app_or in Hx. destruct Hx as [Hx | [<- | []]];
          [left; exact Hx | right; left; reflexivity].
Qed.

Lemma clear_part_stdout (clear : bool) (w w0 : World) :
  (if clear then Command.clear_data else ret tt) w = (Ok tt, w0) ->
  stdout w0 = stdout w ++
              (if clear then ["Clearing existing data..."; "✓ Data cleared"] else []).
Proof.
  destruct clear; intros H.
  - cbn in H. injection H as <-. cbn. rewrite <- app_assoc. reflexivity.
  - apply ret_inv in H. destruct H as [_ ->]. rewrite app_nil_r. reflexivity.
Qed.

Lemma statuses_are_choices (st : string) :
  In st Command.statuses -> In st (map fst Booking.STATUS_CHOICES).
Proof. cbn. intuition. Qed.

Lemma Forall_concat {A} (P : A -> Prop) (xss : list (list A)) :
  Forall (Forall P) xss -> Forall P (List.concat xss).
Proof.
  induction 1 as [| xs xss Hxs _ IH]; cbn; [constructor |].
  apply Forall_app. split; assumption.
Qed.

(** The rows of a run: who hosts the listings, who makes the bookings
    and the reviews, which listings are reviewed, and what is reported. *)
Lemma handle_rows (clear : bool) (w : World) :
  world_wf w ->
  let s0 := if clear then cleared (db w) else db w in
  exists w' us new ls bs rs sampled rss,
    let hosts := filter (fun u => contains "host" (User.username u)) us in
    let guests := filter (fun u => contains "guest" (User.username u)) us in
    Command.handle clear w = (Ok tt, w') /\
    users (db w') = users s0 ++ new /\
    listings (db w') = listings s0 ++ ls /\
    bookings (db w') = bookings s0 ++ bs /\
    reviews (db w') = reviews s0 ++ rs /\
    (* users *)
    users_wf s0 /\ users_wf (db w') /\
    map User.username us = map Command.ud_username Command.users_data /\
    incl us (users (db w')) /\
    Forall (fun u =>
              exists ud,
                In ud Command.users_data /\
                ~ In (Command.ud_username ud) (map User.username (users s0)) /\
                u = User.mk (User.id u) (Command.ud_username ud)
                      (Command.ud_email ud) (Command.ud_first_name ud)
                      (Command.ud_last_name ud) false "password123") new /\
    (* listings *)
    map Listing.property_id ls = seq (next_uuid w) 8 /\
    Forall2 (fun il l =>
               exists h, nth_error hosts (fst il mod List.length hosts) = Some h /\
                         Listing.host l = User.id h /\ listing_fields l = snd il)
            (Command.enumerate Command.listings_data) ls /\
    (* bookings *)
    List.length bs = 15 /\
    Forall (fun b => exists l g,
                In l ls /\ In g guests /\
                Booking.property b = Listing.property_id l /\
                Booking.user b = User.id g /\
                In (Booking.status b) Command.statuses) bs /\
    (* reviews *)
    rs = List.concat rss /\
    List.length sampled = 6 /\ incl sampled ls /\
    NoDup (map Listing.property_id sampled) /\
    Forall2 (fun l rs_l =>
               1 <= List.length rs_l <= 3 /\
               NoDup (map Review.user rs_l) /\
               Forall (fun r => Review.property r = Listing.property_id l /\
                                (exists g, In g guests /\ Review.user r = User.id g) /\
                                (3 <= Review.rating r <= 5)%Z /\
                                In (Review.comment r) Command.review_comments) rs_l)
            sampled rss /\
    (* output *)
    stdout w' =
    stdout w ++
    (if clear then ["Clearing existing data..."; "✓ Data cleared"] else []) ++
    [ "Starting database seeding...";
      Command.created (List.length us) "users";
      Command.created (List.length ls) "listings";
      Command.created (List.length bs) "bookings";
      Command.created (List.length rs) "reviews";
      String (ascii_of_nat 10) "✨ Database seeding completed successfully!" ].
Proof.
  intros Hwf s0.
  destruct (handle_run clear w Hwf)
    as (w0 & us & w1 & ls & w2 & bs & w3 & rs & w4 & H).
  cbv zeta in H.
  destruct H as (E0 & E1 & E2 & E3 & E4 & E & D0 & Hu0 & Hnames & Hincl & Hu1 & Hndids
                 & L1 & B1 & R1 & D2 & Hids & D3 & Hlenbs & D4).
  fold s0 in D0, Hu0, L1, B1, R1.
  (* the users that were added *)
  destruct (create_users_loop_new Command.users_data
              (snd (write "Starting database seeding..." w0)) w1 us)
    as (new & Hnew & Hfacts & _).
  { cbn. rewrite D0. exact Hu0. }
  { exact E1. }
  cbn [db snd write] in Hnew, Hfacts. rewrite D0 in Hnew, Hfacts.
  (* the shape of the users *)
  destruct (seeded_users_shape us Hnames)
    as (u0 & u1 & u2 & u3 & u4 & u5 & Hus & Hhosts & Hguests & Hndus).
  assert (Hlen8 : List.length ls = 8).
  { rewrite <- (length_map Listing.property_id), Hids. apply length_seq. }
  (* the rows *)
  pose proof (create_listings_hosts us _ _ ls E2) as HL. cbv zeta in HL.
  assert (HB : Forall (fun b => exists l g,
                  In l ls /\
                  In g (filter (fun u => contains "guest" (User.username u)) us) /\
                  Booking.property b = Listing.property_id l /\
                  Booking.user b = User.id g /\
                  In (Booking.status b) Command.statuses) bs).
  { unfold Command.create_bookings in E3. apply forM_inv in E3.
    eapply Forall2_right; [| exact E3]. cbv beta.
    intros i b _ (wa & wb & Eb). exact (create_booking_inv _ _ _ _ _ Eb). }
  destruct (create_reviews_inv ls us _ _ rs E4)
    as (sampled & rss & Hrs & Hlens & Hincls & Hnds & HR).
  (* the output *)
  pose proof (clear_part_stdout clear w w0 E0) as O0.
  pose proof (stdout_kept _ _ _ _ quiet_create_users E1) as O1.
  pose proof (stdout_kept _ _ _ _ (fun out => quiet_create_listings out us) E2) as O2.
  pose proof (stdout_kept _ _ _ _ (fun out => quiet_create_bookings out ls us) E3) as O3.
  pose proof (stdout_kept _ _ _ _ (fun out => quiet_create_reviews out ls us) E4) as O4.
  cbn [stdout snd write] in O1, O2, O3, O4.
  exists (snd (write (String (ascii_of_nat 10)
                        "✨ Database seeding completed successfully!")
                 (snd (write (Command.created (List.length rs) "reviews") w4)))),
    us, new, ls, bs, rs, sampled, rss.
  cbv zeta. split; [exact E |]. cbn [db snd write stdout].
  assert (Hdb4 : db w4 = mkStore (users (db w1)) (listings s0 ++ ls)
                                 (bookings s0 ++ bs) (reviews s0 ++ rs)
                                 (next_user_id (db w1))).
  { rewrite D4, D3, D2. cbn. rewrite L1, B1, R1. reflexivity. }
  rewrite Hdb4. cbn [users listings bookings reviews next_user_id].
  split; [exact Hnew |].
  split; [reflexivity |]. split; [reflexivity |]. split; [reflexivity |].
  split; [exact Hu0 |]. split; [exact Hu1 |].
  split; [exact Hnames |]. split; [exact Hincl |].
  split; [exact Hfacts |]. split; [exact Hids |]. split; [exact HL |].
  split; [exact Hlenbs |]. split; [exact HB |]. split; [exact Hrs |].
  split; [rewrite Hlens, Hlen8; reflexivity |]. split; [exact Hincls |].
  split; [apply Hnds; rewrite Hids; apply seq_NoDup |].
  split.
  { eapply Forall2_weaken; [| exact HR]. cbv beta.
    intros l rs_l _ (Hle & Hge & Hnd & Hall).
    split; [split; [apply Hge; rewrite Hguests; discriminate | exact Hle] |].
    split; [apply Hnd, NoDup_keys_filter, Hndids | exact Hall]. }
  rewrite O4, O3, O2, O1, O0. rewrite <- !app_assoc. reflexivity.
Qed.

Lemma world_wf_sample :
  world_wf (mkWorld (empty_store 1) (fun n => n * 7 + 3) 0 0 [] 739000%Z).
Proof.
  apply world_wf_empty; [repeat split |].
  unfold clock_ok, date_min, date_max. cbn. lia.
Qed.

(** X12. In a seeding run the roles are kept apart: every listing that
    is inserted is hosted by a stored user with ["host"] in the user
    name; every booking and every review that is inserted is made by a
    stored user with ["guest"] in the user name, on one of the listings
    inserted by this run; every booking has one of the statuses that the
    model declares, and every review one of the canned comments. *)
Theorem seeded_rows_keep_roles :
  forall (clear : bool) (w : World),
    world_wf w ->
    let s0 := if clear then cleared (db w) else db w in
    exists w' ls bs rs,
      Command.handle clear w = (Ok tt, w') /\
      listings (db w') = listings s0 ++ ls /\
      bookings (db w') = bookings s0 ++ bs /\
      reviews (db w') = reviews s0 ++ rs /\
      Forall (fun l =>
                exists u, In u (users (db w')) /\ Listing.host l = User.id u /\
                          contains "host" (User.username u) = true) ls /\
      Forall (fun b =>
                (exists u, In u (users (db w')) /\ Booking.user b = User.id u /\
                           contains "guest" (User.username u) = true) /\
                (exists l, In l ls /\ Booking.property b = Listing.property_id l) /\
                In (Booking.status b) (map fst Booking.STATUS_CHOICES)) bs /\
      Forall (fun r =>
                (exists u, In u (users (db w')) /\ Review.user r = User.id u /\
                           contains "guest" (User.username u) = true) /\
                (exists l, In l ls /\ Review.property r = Listing.property_id l) /\
                In (Review.comment r) Command.review_comments) rs.
Proof.
  intros clear w Hwf s0.
  destruct (handle_rows clear w Hwf)
    as (w' & us & new & ls & bs & rs & sampled & rss & H).
  cbv zeta in H.
  destruct H as (E & _ & L & B & R & _ & _ & _ & Hincl & _ & _ & HL & _ & HB & Hrs
                 & _ & Hincls & _ & HR & _).
  exists w', ls, bs, rs.
  split; [exact E |]. split; [exact L |]. split; [exact B |]. split; [exact R |].
  split.
  { eapply Forall2_right; [| exact HL]. cbv beta.
    intros il l _ (h & Hh & Hhost & _). apply nth_error_In in Hh.
    apply filter_In in Hh. destruct Hh as [Hin Hrole].
    exists h. split; [apply Hincl; exact Hin | split; assumption]. }
  split.
  { eapply Forall_impl; [| exact HB]. cbv beta.
    intros b (l & g & Hl & Hg & Hp & Hu & Hst).
    apply filter_In in Hg. destruct Hg as [Hin Hrole].
    split; [exists g; split; [apply Hincl; exact Hin | split; assumption] |].
    split; [exists l; split; assumption | apply statuses_are_choices; exact Hst]. }
  rewrite Hrs. apply Forall_concat.
  assert (Hrows : Forall2 (fun l rs_l =>
             Forall (fun r =>
               (exists u, In u (users (db w')) /\ Review.user r = User.id u /\
                          contains "guest" (User.username u) = true) /\
               (exists l0, In l0 ls /\ Review.property r = Listing.property_id l0) /\
               In (Review.comment r) Command.review_comments) rs_l) sampled rss).
  { eapply Forall2_weaken; [| exact HR]. cbv beta.
    intros l rs_l Hl (_ & _ & Hall). eapply Forall_impl; [| exact Hall]. cbv beta.
    intros r (Hp & (g & Hg & Hu) & _ & Hc).
    apply filter_In in Hg. destruct Hg as [Hin Hrole].
    split; [exists g; split; [apply Hincl; exact Hin | split; assumption] |].
    split; [exists l; split; [apply Hincls; exact Hl | exact Hp] | exact Hc]. }
  eapply Forall2_right; [| exact Hrows]. cbv beta. intros l rs_l _ Hall. exact Hall.
Qed.

Lemma seeded_rows_keep_roles_witness :
  let w := mkWorld (empty_store 1) (fun n => n * 7 + 3) 0 0 [] 739000%Z in
  exists w' ls,
    Command.handle true w = (Ok tt, w') /\
    listings (db w') = ls /\
    Forall (fun l =>
              exists u, In u (users (db w')) /\ Listing.host l = User.id u /\
                        contains "host" (User.username u) = true) ls.
Proof.
  intros w.
  destruct (seeded_rows_keep_roles true w world_wf_sample)
    as (w' & ls & bs & rs & E & L & _ & _ & Hl & _).
  exists w', ls. split; [exact E |]. split; [exact L | exact Hl].
Defined.

Lemma Forall2_In_right {A B} (R : A -> B -> Prop) (xs : list A) (ys : list B) (y : B) :
  Forall2 R xs ys -> In y ys -> exists x, In x xs /\ R x y.
Proof.
  induction 1 as [| x y0 xs ys Hxy _ IH]; intros Hin; [destruct Hin |].
  destruct Hin as [<- | Hin].
  - exists x. split; [left; reflexivity | exact Hxy].
  - destruct (IH Hin) as (x' & Hx' & Hr). exists x'. split; [right; exact Hx' | exact Hr].
Qed.

(** X13. A seeding run reviews six of its eight listings: the reviews
    it inserts come in six groups, one for each of six distinct
    listings of the run; a group holds one to three reviews, all of that
    listing and of pairwise distinct users; the two other listings of
    the run receive no review. *)
Theorem seeded_reviews_cover_six_listings :
  forall (clear : bool) (w : World),
    world_wf w ->
    let s0 := if clear then cleared (db w) else db w in
    exists w' ls rs sampled rss,
      Command.handle clear w = (Ok tt, w') /\
      listings (db w') = listings s0 ++ ls /\
      reviews (db w') = reviews s0 ++ rs /\
      List.length ls = 8 /\
      rs = List.concat rss /\
      List.length sampled = 6 /\ incl sampled ls /\
      NoDup (map Listing.property_id sampled) /\
      Forall2 (fun l rs_l =>
                 1 <= List.length rs_l <= 3 /\
                 NoDup (map Review.user rs_l) /\
                 Forall (fun r => Review.property r = Listing.property_id l) rs_l)
              sampled rss /\
      (forall l, In l ls -> ~ In l sampled ->
                 Forall (fun r => Review.property r <> Listing.property_id l) rs).
Proof.
  intros clear w Hwf s0.
  destruct (handle_rows clear w Hwf)
    as (w' & us & new & ls & bs & rs & sampled & rss & H).
  cbv zeta in H.
  destruct H as (E & _ & L & _ & R & _ & _ & _ & _ & _ & Hids & _ & _ & _ & Hrs
                 & Hlens & Hincls & Hnds & HR & _).
  exists w', ls, rs, sampled, rss.
  split; [exact E |]. split; [exact L |]. split; [exact R |].
  split.
  { rewrite <- (length_map Listing.property_id), Hids. apply length_seq. }
  split; [exact Hrs |]. split; [exact Hlens |]. split; [exact Hincls |].
  split; [exact Hnds |].
  split.
  { eapply Forall2_weaken; [| exact HR]. cbv beta.
    intros l rs_l _ (Hlen & Hnd & Hall). split; [exact Hlen |]. split; [exact Hnd |].
    eapply Forall_impl; [| exact Hall]. cbv beta. tauto. }
  intros l Hl Hnot. apply Forall_forall. intros r Hr Heq.
  rewrite Hrs in Hr. apply in_concat in Hr. destruct Hr as (rs_l & Hgroup & Hr).
  destruct (Forall2_In_right _ _ _ rs_l HR Hgroup) as (l' & Hl' & _ & _ & Hall).
  rewrite Forall_forall in Hall. destruct (Hall r Hr) as (Hp & _).
  apply Hnot.
  assert (Hsame : l' = l).
  { apply (NoDup_map_inj_in Listing.property_id ls).
    - rewrite Hids. apply seq_NoDup.
    - apply Hincls. exact Hl'.
    - exact Hl.
    - congruence. }
  rewrite <- Hsame. exact Hl'.
Qed.

Lemma seeded_reviews_cover_six_listings_witness :
  let w := mkWorld (empty_store 1) (fun n => n * 7 + 3) 0 0 [] 739000%Z in
  exists w' rss,
    Command.handle true w = (Ok tt, w') /\
    reviews (db w') = List.concat rss /\ List.length rss = 6.
Proof.
  intros w.
  destruct (seeded_reviews_cover_six_listings true w world_wf_sample)
    as (w' & ls & rs & sampled & rss & E & _ & R & _ & Hrs & Hlen & _ & _ & H2 & _).
  exists w', rss. split; [exact E |]. split; [rewrite R, Hrs; reflexivity |].
  rewrite <- (Forall2_length H2). exact Hlen.
Defined.

Lemma fk_integrity_cleared (s : Store) : fk_integrity (cleared s).
Proof. repeat split; constructor. Qed.

(** X14. The seed command keeps referential integrity: when every
    foreign key of a well-formed store names a stored row, the run
    succeeds and every foreign key of the resulting store, of the old
    rows and of the inserted ones, names a stored row. *)
Theorem seeding_keeps_referential_integrity :
  forall (clear : bool) (w : World),
    world_wf w -> fk_integrity (db w) ->
    exists w', Command.handle clear w = (Ok tt, w') /\ fk_integrity (db w').
Proof.
  intros clear w Hwf Hfk.
  destruct (handle_rows clear w Hwf)
    as (w' & us & new & ls & bs & rs & sampled & rss & H).
  cbv zeta in H.
  destruct H as (E & U & L & B & R & _ & _ & _ & Hincl & _ & _ & HL & _ & HB & Hrs
                 & _ & Hincls & _ & HR & _).
  exists w'. split; [exact E |].
  set (s0 := if clear then cleared (db w) else db w) in *.
  assert (Hfk0 : fk_integrity s0).
  { subst s0. destruct clear; [apply fk_integrity_cleared | exact Hfk]. }
  destruct Hfk0 as (Fl & Fb & Fr).
  assert (Husers : forall x, In x (map User.id (users s0)) ->
                             In x (map User.id (users (db w')))).
  { intros x Hx. rewrite U, map_app. apply in_or_app. left. exact Hx. }
  assert (Hlist : forall x, In x (map Listing.property_id (listings s0)) ->
                            In x (map Listing.property_id (listings (db w')))).
  { intros x Hx. rewrite L, map_app. apply in_or_app. left. exact Hx. }
  assert (Hnewl : forall l, In l ls ->
                            In (Listing.property_id l)
                               (map Listing.property_id (listings (db w')))).
  { intros l Hl. rewrite L, map_app. apply in_or_app. right. apply in_map. exact Hl. }
  assert (Hus : forall u, In u us -> In (User.id u) (map User.id (users (db w')))).
  { intros u Hu. apply in_map. apply Hincl. exact Hu. }
  split; [| split].
  - rewrite L. apply Forall_app. split.
    + eapply Forall_impl; [| exact Fl]. cbv beta. intros l Hl. apply Husers. exact Hl.
    + eapply Forall2_right; [| exact HL]. cbv beta.
      intros il l _ (h & Hh & Hhost & _). apply nth_error_In in Hh.
      apply filter_In in Hh. rewrite Hhost. apply Hus. tauto.
  - rewrite B. apply Forall_app. split.
    + eapply Forall_impl; [| exact Fb]. cbv beta. intros b [Hp Hu]. auto.
    + eapply Forall_impl; [| exact HB]. cbv beta.
      intros b (l & g & Hl & Hg & Hp & Hu & _). apply filter_In in Hg.
      rewrite Hp, Hu. split; [apply Hnewl; exact Hl | apply Hus; tauto].
  - rewrite R. apply Forall_app. split.
    + eapply Forall_impl; [| exact Fr]. cbv beta. intros r [Hp Hu]. auto.
    + rewrite Hrs. apply Forall_concat.
      assert (Hrows : Forall2 (fun l rs_l =>
                 Forall (fun r =>
                   In (Review.property r)
                      (map Listing.property_id (listings (db w'))) /\
                   In (Review.user r) (map User.id (users (db w')))) rs_l)
                 sampled rss).
      { eapply Forall2_weaken; [| exact HR]. cbv beta.
        intros l rs_l Hl (_ & _ & Hall). eapply Forall_impl; [| exact Hall]. cbv beta.
        intros r (Hp & (g & Hg & Hu) & _). apply filter_In in Hg.
        rewrite Hp, Hu. split; [apply Hnewl, Hincls; exact Hl | apply Hus; tauto]. }
      eapply Forall2_right; [| exact Hrows]. cbv beta. intros l rs_l _ Hall. exact Hall.
Qed.

Lemma seeding_keeps_referential_integrity_witness :
  let w := mkWorld (empty_store 1) (fun n => n * 7 + 3) 0 0 [] 739000%Z in
  exists w', Command.handle false w = (Ok tt, w') /\ fk_integrity (db w').
Proof.
  intros w. apply (seeding_keeps_referential_integrity false w world_wf_sample).
  repeat split; constructor.
Defined.

(** X15. The report of a run: [handle] writes, after the two lines of
    the clearing if it was asked for, the opening line, the four counts
    and the closing line, and nothing else.  The counts are 6 users, 8
    listings, 15 bookings and the number of reviews that were inserted;
    the 6 users are reported whether they were created or found, so
    with all six names stored the report is the same and no user is
    added. *)
Theorem handle_reports_its_counts :
  forall (clear : bool) (w : World),
    world_wf w ->
    let s0 := if clear then cleared (db w) else db w in
    exists w' n,
      Command.handle clear w = (Ok tt, w') /\
      stdout w' =
      stdout w ++
      (if clear then ["Clearing existing data..."; "✓ Data cleared"] else []) ++
      [ "Starting database seeding...";
        "✓ Created 6 users"; "✓ Created 8 listings"; "✓ Created 15 bookings";
        Command.created n "reviews";
        String (ascii_of_nat 10) "✨ Database seeding completed successfully!" ] /\
      List.length (listings (db w')) = List.length (listings s0) + 8 /\
      List.length (bookings (db w')) = List.length (bookings s0) + 15 /\
      List.length (reviews (db w')) = List.length (reviews s0) + n /\
      List.length (users (db w')) <= List.length (users s0) + 6 /\
      (incl (map Command.ud_username Command.users_data)
            (map User.username (users s0)) ->
       users (db w') = users s0).
Proof.
  intros clear w Hwf s0.
  destruct (handle_rows clear w Hwf)
    as (w' & us & new & ls & bs & rs & sampled & rss & H).
  cbv zeta in H.
  destruct H as (E & U & L & B & R & _ & (Hnd' & _) & Hnames & _ & Hfacts & Hids & _
                 & Hlenbs & _ & _ & _ & _ & _ & _ & Hout).
  fold s0 in U, L, B, R, Hfacts.
  assert (Hlenus : List.length us = 6).
  { rewrite <- (length_map User.username), Hnames. reflexivity. }
  assert (Hlenls : List.length ls = 8).
  { rewrite <- (length_map Listing.property_id), Hids. apply length_seq. }
  exists w', (List.length rs). split; [exact E |].
  split; [rewrite Hout, Hlenus, Hlenls, Hlenbs; reflexivity |].
  split; [rewrite L, length_app, Hlenls; reflexivity |].
  split; [rewrite B, length_app, Hlenbs; reflexivity |].
  split; [rewrite R, length_app; reflexivity |].
  split.
  { (* the added users have distinct names, all among the six *)
    rewrite U, length_app. apply Nat.add_le_mono_l.
    rewrite U, map_app in Hnd'. apply NoDup_app_remove_l in Hnd'.
    assert (Hsub : incl (map User.username new)
                        (map Command.ud_username Command.users_data)).
    { intros name Hname. apply in_map_iff in Hname. destruct Hname as (u & <- & Hu).
      rewrite Forall_forall in Hfacts. destruct (Hfacts u Hu) as (ud & Hud & _ & Hrow).
      rewrite Hrow. cbn [User.username]. apply in_map. exact Hud. }
    pose proof (NoDup_incl_length Hnd' Hsub) as Hle.
    rewrite !length_map in Hle. exact Hle. }
  intros Hall. rewrite U. destruct new as [| u new]; [apply app_nil_r |].
  exfalso. inversion Hfacts as [| ? ? (ud & Hud & Hfresh & _) _]; subst.
  apply Hfresh, Hall. apply in_map. exact Hud.
Qed.

Lemma handle_reports_its_counts_witness :
  let w := mkWorld (empty_store 1) (fun n => n * 7 + 3) 0 0 [] 739000%Z in
  exists w' n,
    Command.handle true w = (Ok tt, w') /\
    List.length (reviews (db w')) = n /\
    last (removelast (stdout w')) "" = Command.created n "reviews".
Proof.
  intros w.
  destruct (handle_reports_its_counts true w world_wf_sample)
    as (w' & n & E & Hout & _ & _ & Hr & _).
  exists w', n. split; [exact E |]. split; [exact Hr |].
  rewrite Hout. reflexivity.
Defined.

(** X16. The seed command adds the users that are missing and touches no
    other: the users table of the result is the table it started from
    (after the clearing, if asked for), row for row, followed by one new
    user for each of the six names that was not stored; a new user has
    the name, e-mail address and names of the sample data, the sample
    password and no superuser privilege; afterwards all six names are
    stored and the user names are still unique. *)
Theorem seeding_adds_only_missing_users :
  forall (clear : bool) (w : World),
    world_wf w ->
    let s0 := if clear then cleared (db w) else db w in
    exists w' new,
      Command.handle clear w = (Ok tt, w') /\
      users (db w') = users s0 ++ new /\
      Forall (fun u =>
                exists ud,
                  In ud Command.users_data /\
                  ~ In (Command.ud_username ud) (map User.username (users s0)) /\
                  User.username u = Command.ud_username ud /\
                  User.email u = Command.ud_email ud /\
                  User.first_name u = Command.ud_first_name ud /\
                  User.last_name u = Command.ud_last_name ud /\
                  User.is_superuser u = false /\
                  User.password u = "password123") new /\
      incl (map Command.ud_username Command.users_data)
           (map User.username (users (db w'))) /\
      NoDup (map User.username (users (db w'))).
Proof.
  intros clear w Hwf s0.
  destruct (handle_rows clear w Hwf)
    as (w' & us & new & ls & bs & rs & sampled & rss & H).
  cbv zeta in H.
  destruct H as (E & U & _ & _ & _ & _ & (Hnd' & _) & Hnames & Hincl & Hfacts & _).
  exists w', new. split; [exact E |]. split; [exact U |].
  split.
  { eapply Forall_impl; [| exact Hfacts]. cbv beta.
    intros u (ud & Hud & Hfresh & Hu). exists ud.
    split; [exact Hud |]. split; [exact Hfresh |].
    rewrite Hu. cbn. repeat split. }
  split; [| exact Hnd'].
  rewrite <- Hnames. intros name Hname. apply in_map_iff in Hname.
  destruct Hname as (u & <- & Hu). apply in_map. apply Hincl. exact Hu.
Qed.

Lemma seeding_adds_only_missing_users_witness :
  let w := mkWorld (empty_store 1) (fun n => n * 7 + 3) 0 0 [] 739000%Z in
  exists w', Command.handle false w = (Ok tt, w') /\
             NoDup (map User.username (users (db w'))).
Proof.
  intros w.
  destruct (seeding_adds_only_missing_users false w world_wf_sample)
    as (w' & new & E & _ & _ & _ & Hnd).
  exists w'. split; [exact E | exact Hnd].
Defined.

(** X17. With the clear flag the outcome of a run does not depend on the
    rows that were stored: from any well-formed store it ends with the
    eight listings, the fifteen bookings and the six to eighteen reviews
    of this run and nothing else in these tables, and with the
    superusers it found followed by the sample users it had to add. *)
Theorem seed_with_clear_replaces_rows :
  forall w : World,
    world_wf w ->
    exists w' new ls bs rs,
      Command.handle true w = (Ok tt, w') /\
      users (db w') = filter User.is_superuser (users (db w)) ++ new /\
      List.length new <= 6 /\
      listings (db w') = ls /\ map listing_fields ls = Command.listings_data /\
      bookings (db w') = bs /\ List.length bs = 15 /\
      reviews (db w') = rs /\ 6 <= List.length rs <= 18 /\
      Forall (fun b => exists l, In l ls /\ Booking.property b = Listing.property_id l) bs /\
      Forall (fun r => In (Review.property r) (map Listing.property_id ls)) rs.
Proof.
  intros w Hwf.
  destruct (handle_spec true w Hwf)
    as (w' & us & ls & bs & rs & E & _ & _ & (new & Hnew & Hlen) & _ & _ & L & B & R
        & Hf & _ & Hlb & Hbs & Hrs & _ & Hlr & _).
  cbn in Hnew, L, B, R.
  exists w', new, ls, bs, rs.
  split; [exact E |]. split; [exact Hnew |]. split; [exact Hlen |].
  split; [exact L |]. split; [exact Hf |]. split; [exact B |]. split; [exact Hlb |].
  split; [exact R |]. split; [exact Hlr |].
  split.
  - eapply Forall_impl; [| exact Hbs]. cbv beta.
    intros b (l & k & d & Hl & Hp & _). exists l. split; assumption.
  - eapply Forall_impl; [| exact Hrs]. cbv beta. tauto.
Qed.

Lemma seed_with_clear_replaces_rows_witness :
  let admin := User.mk 1 "admin" "" "" "" true "" in
  let old := User.mk 2 "old_guest" "" "" "" false "" in
  let l := Listing.mk 0 2 "Old" "" "Nowhere" (Decimal.mk 100 (-2)) in
  let w := mkWorld (mkStore [admin; old] [l] [] [] 3) (fun n => n * 5 + 1) 0 1 []
                   739000%Z in
  exists w' new,
    Command.handle true w = (Ok tt, w') /\
    users (db w') = admin :: new /\ List.length (listings (db w')) = 8.
Proof.
  intros admin old l w.
  destruct (seed_with_clear_replaces_rows w)
    as (w' & new & ls & bs & rs & E & U & _ & L & Hf & _).
  - split; [| split].
    + repeat split; cbn.
      * repeat constructor; cbn; intuition discriminate.
      * repeat constructor; cbn; intuition discriminate.
      * repeat constructor.
    + constructor.
    + unfold clock_ok, date_min, date_max. cbn. lia.
  - exists w', new. split; [exact E |]. split; [exact U |].
    rewrite L, <- (length_map listing_fields), Hf. reflexivity.
Defined.

(** X18. The total price of every booking that a run inserts fits the
    column that the model declares for it (ten digits, two of them
    decimal): it has exactly two decimal places and lies between 240.00
    and 6300.00. *)
Theorem seeded_total_price_fits_column :
  forall (clear : bool) (w : World),
    world_wf w ->
    exists w' bs,
      Command.handle clear w = (Ok tt, w') /\
      bookings (db w') = bookings (if clear then cleared (db w) else db w) ++ bs /\
      Forall (fun b =>
                Decimal.exp (Booking.total_price b) = (-2)%Z /\
                (24000 <= Decimal.coef (Booking.total_price b) <= 630000)%Z /\
                (Decimal.ndigits (Decimal.coef (Booking.total_price b)) <= 10)%Z) bs.
Proof.
  intros clear w Hwf.
  destruct (handle_spec clear w Hwf)
    as (w' & us & ls & bs & rs & E & _ & _ & _ & _ & _ & _ & B & _ & Hf & _ & _ & Hbs & _).
  exists w', bs. split; [exact E |]. split; [exact B |].
  eapply Forall_impl; [| exact Hbs]. cbv beta.
  intros b (l & k & d & Hl & _ & _ & Hd & _ & _ & Ht).
  destruct (seeded_price_exact ls l d Hf Hl Hd) as (Hexact & Hexp & Hcoef).
  rewrite Ht, Hexact. cbn [Decimal.exp Decimal.coef].
  split; [exact Hexp |].
  assert (Hrange : (24000 <= Decimal.coef (Listing.price_per_night l) * d <= 630000)%Z)
    by nia.
  split; [exact Hrange |].
  unfold Decimal.ndigits.
  apply (ndigits_aux_bound _ _ 9). change (10 ^ Z.of_nat 10)%Z with 10000000000%Z. lia.
Qed.

Lemma seeded_total_price_fits_column_witness :
  let w := mkWorld (empty_store 1) (fun n => n * 7 + 3) 0 0 [] 739000%Z in
  exists w' bs,
    Command.handle true w = (Ok tt, w') /\ bookings (db w') = bs /\
    Forall (fun b => Decimal.exp (Booking.total_price b) = (-2)%Z) bs.
Proof.
  intros w.
  destruct (seeded_total_price_fits_column true w world_wf_sample)
    as (w' & bs & E & B & H).
  exists w', bs. split; [exact E |]. split; [exact B |].
  eapply Forall_impl; [| exact H]. cbv beta. tauto.
Defined.

(* ================================================================== *)
(** * Further properties: writes through the listing serializer *)
(* ================================================================== *)

Lemma field_error_key {A} (fname : string) (r : result A) (e : Exception) :
  r = Raise e -> In fname (map fst (field_error fname r)).
Proof. intros ->. left. reflexivity. Qed.

Lemma resolve_host_fails (s : Store) (pk : nat) :
  (forall u, In u (users s) -> User.id u <> pk) ->
  exists e, ListingSerializer.resolve_host s pk = Raise e.
Proof.
  intros Hnone. unfold ListingSerializer.resolve_host.
  destruct (find _ (users s)) as [u |] eqn:E; [| eexists; reflexivity].
  apply find_some in E. destruct E as [Hin Heq]. apply Nat.eqb_eq in Heq.
  exfalso. exact (Hnone u Hin Heq).
Qed.

Lemma save_rejects (instance : option Listing.t) (d : ListingSerializer.data)
    (w : World) (key : string) :
  In key (map fst (ListingSerializer.run_validation (db w) d)) ->
  exists errs,
    ListingSerializer.save instance d w = (Ok (inl errs), w) /\
    In key (map fst errs).
Proof.
  intros Hin. unfold ListingSerializer.save.
  destruct (ListingSerializer.run_validation (db w) d) as [| x errs]; [destruct Hin |].
  exists (x :: errs). split; [reflexivity | exact Hin].
Qed.

Lemma char_field_rejects (max_length : option nat) (v : string) :
  Str.strip v = "" \/
  (exists n, max_length = Some n /\ n < Str.len (Str.strip v)) ->
  exists e, CharField.run_validation max_length v = Raise e.
Proof.
  unfold CharField.run_validation. cbv zeta. intros [Hblank | (n & -> & Hlong)].
  - rewrite Hblank. eexists. reflexivity.
  - destruct (String.eqb (Str.strip v) ""); [eexists; reflexivity |].
    unfold CharField.too_long. apply Nat.ltb_lt in Hlong. rewrite Hlong.
    eexists. reflexivity.
Qed.

(** X19. A write through the listing serializer, create or update, is
    refused and writes nothing when [host_id] is the key of no stored
    user, when [name] or [location], once trimmed, is blank or longer
    than the 100 characters that the model allows, and when
    [description], once trimmed, is blank; the error is reported under
    the name of the field.  Characters are counted as code points, after
    the trimming. *)
Theorem listing_write_checks_host_and_lengths :
  forall (instance : option Listing.t) (d : ListingSerializer.data) (w : World),
    ((forall u, In u (users (db w)) -> User.id u <> ListingSerializer.host_id d) ->
     exists errs, ListingSerializer.save instance d w = (Ok (inl errs), w) /\
                  In "host_id" (map fst errs)) /\
    (Str.strip (ListingSerializer.name d) = "" \/
     100 < Str.len (Str.strip (ListingSerializer.name d)) ->
     exists errs, ListingSerializer.save instance d w = (Ok (inl errs), w) /\
                  In "name" (map fst errs)) /\
    (Str.strip (ListingSerializer.description d) = "" ->
     exists errs, ListingSerializer.save instance d w = (Ok (inl errs), w) /\
                  In "description" (map fst errs)) /\
    (Str.strip (ListingSerializer.location d) = "" \/
     100 < Str.len (Str.strip (ListingSerializer.location d)) ->
     exists errs, ListingSerializer.save instance d w = (Ok (inl errs), w) /\
                  In "location" (map fst errs)).
Proof.
  intros instance d w. split; [| split; [| split]].
  - intros Hnone. apply save_rejects.
    destruct (resolve_host_fails (db w) _ Hnone) as (e & He).
    unfold ListingSerializer.run_validation. rewrite map_app.
    apply in_or_app. left. eapply field_error_key. exact He.
  - intros Hbad. apply save_rejects.
    destruct (char_field_rejects (Some Listing.name_max_length)
                (ListingSerializer.name d)) as (e & He).
    { destruct Hbad as [H | H]; [left; exact H | right].
      exists Listing.name_max_length. split; [reflexivity | exact H]. }
    unfold ListingSerializer.run_validation. rewrite !map_app.
    apply in_or_app. right. apply in_or_app. left.
    eapply field_error_key. exact He.
  - intros Hblank. apply save_rejects.
    destruct (char_field_rejects None (ListingSerializer.description d))
      as (e & He); [left; exact Hblank |].
    unfold ListingSerializer.run_validation. rewrite !map_app.
    apply in_or_app. right. apply in_or_app. right. apply in_or_app. left.
    eapply field_error_key. exact He.
  - intros Hbad. apply save_rejects.
    destruct (char_field_rejects (Some Listing.location_max_length)
                (ListingSerializer.location d)) as (e & He).
    { destruct Hbad as [H | H]; [left; exact H | right].
      exists Listing.location_max_length. split; [reflexivity | exact H]. }
    unfold ListingSerializer.run_validation. rewrite !map_app.
    apply in_or_app. right. apply in_or_app. right. apply in_or_app. right.
    apply in_or_app. left. eapply field_error_key. exact He.
Qed.

Lemma listing_write_checks_host_and_lengths_witness :
  let d := ListingSerializer.mkData 7 (String.concat "" (repeat "é" 101))
             "A house by the sea." "Malibu, California" (Decimal.mk 25000 (-2)) in
  let w := mkWorld (mkStore [User.mk 1 "john_host" "" "" "" false ""] [] [] [] 2)
                   (fun n => n) 0 0 [] 739000%Z in
  (exists errs, ListingSerializer.save None d w = (Ok (inl errs), w) /\
                In "host_id" (map fst errs)) /\
  (exists errs, ListingSerializer.save None d w = (Ok (inl errs), w) /\
                In "name" (map fst errs)).
Proof.
  intros d w.
  destruct (listing_write_checks_host_and_lengths None d w) as (Hhost & Hname & _).
  split.
  - apply Hhost. intros u [<- | []]. discriminate.
  - apply Hname. right. vm_compute. lia.
Defined.

Lemma run_validation_host (s : Store) (d : ListingSerializer.data) :
  ListingSerializer.run_validation s d = [] ->
  exists h, ListingSerializer.resolve_host s (ListingSerializer.host_id d) = Ok h /\
            In h (users s) /\ User.id h = ListingSerializer.host_id d.
Proof.
  unfold ListingSerializer.run_validation. intros H.
  apply app_eq_nil in H. destruct H as [H _].
  unfold ListingSerializer.resolve_host in *.
  destruct (find _ (users s)) as [h |] eqn:E; [| discriminate].
  apply find_some in E. destruct E as [Hin Heq]. apply Nat.eqb_eq in Heq.
  exists h. auto.
Qed.

Lemma map_keys_replace (l : Listing.t) (rows : list Listing.t) :
  map Listing.property_id
      (map (fun x => if Nat.eqb (Listing.property_id x) (Listing.property_id l)
                     then l else x) rows)
  = map Listing.property_id rows.
Proof.
  induction rows as [| x rows IH]; cbn; [reflexivity |].
  rewrite IH. destruct (Nat.eqb_spec (Listing.property_id x) (Listing.property_id l)) as [E | _];
    [rewrite E |]; reflexivity.
Qed.

(** X20. A write through the listing serializer touches the listings
    only: users, bookings and reviews are as they were, refused or not;
    an update of a stored listing keeps the keys of all listings, so the
    bookings and reviews of the listing stay attached to it; and the
    write keeps referential integrity, the host of a written listing
    being a stored user. *)
Theorem listing_write_keeps_keys_and_integrity :
  forall (instance : option Listing.t) (d : ListingSerializer.data) (w : World),
    let w' := snd (ListingSerializer.save instance d w) in
    users (db w') = users (db w) /\
    bookings (db w') = bookings (db w) /\
    reviews (db w') = reviews (db w) /\
    (forall old,
       instance = Some old ->
       In (Listing.property_id old) (map Listing.property_id (listings (db w))) ->
       map Listing.property_id (listings (db w')) =
       map Listing.property_id (listings (db w))) /\
    (fk_integrity (db w) -> fk_integrity (db w')).
Proof.
  intros instance d w w'. subst w'. unfold ListingSerializer.save.
  destruct (ListingSerializer.run_validation (db w) d) as [| x errs] eqn:Ev.
  2: { cbn. split; [reflexivity |]. split; [reflexivity |]. split; [reflexivity |].
       split; [reflexivity | auto]. }
  destruct (run_validation_host _ _ Ev) as (h & Eh & Hin & Hid).
  destruct instance as [old |].
  - set (l := ListingSerializer.apply (Listing.property_id old) d).
    assert (Hhost : In (Listing.host l) (map User.id (users (db w)))).
    { subst l. cbn. rewrite <- Hid. apply in_map. exact Hin. }
    destruct (mem_nat (Listing.property_id l) (map Listing.property_id (listings (db w))))
      eqn:Emem; cbn [snd db set_db users bookings reviews listings set_listings].
    + split; [reflexivity |]. split; [reflexivity |]. split; [reflexivity |].
      split; [intros old' _ _; apply map_keys_replace |].
      intros (Fl & Fb & Fr). split; [| split]; cbn [users listings bookings reviews].
      * apply Forall_map_replace; assumption.
      * eapply Forall_impl; [| exact Fb]. cbv beta. intros b [Hp Hu].
        cbn [users listings set_listings].
        split; [rewrite map_keys_replace; exact Hp | exact Hu].
      * eapply Forall_impl; [| exact Fr]. cbv beta. intros r [Hp Hu].
        cbn [users listings set_listings].
        split; [rewrite map_keys_replace; exact Hp | exact Hu].
    + split; [reflexivity |]. split; [reflexivity |]. split; [reflexivity |].
      split.
      { intros old' Hold Hstored. injection Hold as <-.
        apply mem_nat_true_iff in Hstored. subst l. cbn in Emem. congruence. }
      intros (Fl & Fb & Fr). split; [| split]; cbn [users listings bookings reviews].
      * apply Forall_app. split; [exact Fl | constructor; [exact Hhost | constructor]].
      * eapply Forall_impl; [| exact Fb]. cbv beta. intros b [Hp Hu].
        cbn [users listings set_listings].
        split; [rewrite map_app; apply in_or_app; left; exact Hp | exact Hu].
      * eapply Forall_impl; [| exact Fr]. cbv beta. intros r [Hp Hu].
        cbn [users listings set_listings].
        split; [rewrite map_app; apply in_or_app; left; exact Hp | exact Hu].
  - rewrite Eh. unfold ListingManager.create, bind, uuid4, ret. cbn.
    split; [reflexivity |]. split; [reflexivity |]. split; [reflexivity |].
    split; [intros old Hold; discriminate |].
    intros (Fl & Fb & Fr). split; [| split]; cbn [users listings bookings reviews].
    + apply Forall_app. split; [exact Fl |].
      constructor; [cbn; apply in_map; exact Hin | constructor].
    + eapply Forall_impl; [| exact Fb]. cbv beta. intros b [Hp Hu].
      cbn [users listings set_listings].
      split; [rewrite map_app; apply in_or_app; left; exact Hp | exact Hu].
    + eapply Forall_impl; [| exact Fr]. cbv beta. intros r [Hp Hu].
      cbn [users listings set_listings].
      split; [rewrite map_app; apply in_or_app; left; exact Hp | exact Hu].
Qed.

Lemma listing_write_keeps_keys_and_integrity_witness :
  let john := User.mk 1 "john_host" "" "" "" false "" in
  let old := Listing.mk 10 1 "Cozy Beach House" "A house by the sea."
                        "Malibu, California" (Decimal.mk 25000 (-2)) in
  let b := Booking.mk 11 10 1 (Some 739000%Z) (Some 739002%Z)
                      (Decimal.mk 50000 (-2)) "pending" in
  let d := ListingSerializer.mkData 1 "Cozy Beach House" "A house by the sea."
             "Malibu, California" (Decimal.mk 27500 (-2)) in
  let w := mkWorld (mkStore [john] [old] [b] [] 2) (fun n => n) 0 12 [] 739000%Z in
  fk_integrity (db (snd (ListingSerializer.save (Some old) d w))).
Proof.
  intros john old b d w.
  apply (listing_write_keeps_keys_and_integrity (Some old) d w).
  unfold fk_integrity. cbn.
  split; [| split]; repeat (apply Forall_cons || apply Forall_nil); cbn; auto.
Defined.

(* ================================================================== *)
(** * Further properties: a run that fails *)
(* ================================================================== *)

Lemma date_add_days_raises (t : date) (n : Z) (x : Exception) :
  date_add_days t n = Raise x ->
  x = OverflowError /\ ~ (date_min <= t + n <= date_max)%Z.
Proof.
  intros H. split.
  - unfold date_add_days in H. cbv zeta in H.
    destruct (_ && _)%bool; [discriminate | injection H as <-; reflexivity].
  - intros Hin. rewrite (date_add_days_ok _ _ Hin) in H. discriminate.
Qed.

Lemma bind_lift {A B} (r : result A) (k : A -> M B) (w : World) :
  bind (lift r) k w = match r with Ok a => k a w | Raise x => (Raise x, w) end.
Proof. destruct r; reflexivity. Qed.

(** One turn of the loop of [create_bookings], with listings and guests
    to draw from: it inserts one booking, or it raises [OverflowError]
    because a date leaves the range of dates, and then writes nothing. *)
Lemma create_booking_outcome (ls : list Listing.t) (guests : list User.t) (w : World) :
  ls <> [] -> guests <> [] ->
  (exists b w',
     Command.create_booking ls guests w = (Ok b, w') /\
     db w' = set_bookings (db w) (bookings (db w) ++ [b]) /\
     next_uuid w' = S (next_uuid w) /\ today w' = today w) \/
  (exists w',
     Command.create_booking ls guests w = (Raise OverflowError, w') /\
     db w' = db w /\ next_uuid w' = next_uuid w /\ today w' = today w /\
     ~ clock_ok (today w)).
Proof.
  intros Hls Hgs.
  destruct (choice_spec ls w Hls) as (l & w1 & E1 & _ & (D1 & N1 & T1)).
  destruct (choice_spec guests w1 Hgs) as (g & w2 & E2 & _ & (D2 & N2 & T2)).
  destruct (randint_spec (-30) 60 w2) as (k & w3 & E3 & Hk & (D3 & N3 & T3)); [lia |].
  destruct (randint_spec 2 14 w3) as (d & w4 & E4 & Hd & (D4 & N4 & T4)); [lia |].
  assert (Hst : Command.statuses <> []) by discriminate.
  destruct (choice_spec Command.statuses w4 Hst) as (st & w5 & E5 & _ & (D5 & N5 & T5)).
  assert (Ht : today w4 = today w) by congruence.
  assert (Hdb : db w4 = db w) by congruence.
  assert (Hn : next_uuid w4 = next_uuid w) by congruence.
  assert (Hrun : Command.create_booking ls guests w =
                 match date_add_days (today w4) k with
                 | Ok sd =>
                     match date_add_days sd d with
                     | Ok ed =>
                         BookingManager.create l g (Some sd) (Some ed)
                           (Decimal.mul_int (Listing.price_per_night l) d) st w5
                     | Raise x => (Raise x, w4)
                     end
                 | Raise x => (Raise x, w4)
                 end).
  { unfold Command.create_booking.
    rewrite (bind_ok _ _ _ _ _ E1), (bind_ok _ _ _ _ _ E2), (bind_ok _ _ _ _ _ E3),
      (bind_ok _ _ _ _ _ E4).
    rewrite (bind_ok _ _ _ _ _ (eq_refl : now_date w4 = (Ok (today w4), w4))).
    rewrite bind_lift. destruct (date_add_days (today w4) k) as [sd | x]; [| reflexivity].
    rewrite bind_lift. destruct (date_add_days sd d) as [ed | x]; [| reflexivity].
    rewrite (bind_ok _ _ _ _ _ E5). reflexivity. }
  rewrite Hrun. unfold clock_ok, date_min, date_max.
  destruct (date_add_days (today w4) k) as [sd | x] eqn:Es.
  - destruct (date_add_days sd d) as [ed | x] eqn:Ee.
    + left. unfold BookingManager.create, bind, uuid4. cbv beta iota zeta.
      eexists. eexists. split; [reflexivity |].
      cbn. rewrite D5, Hdb, N5, Hn, T5, Ht. repeat split.
    + right. apply date_add_days_raises in Ee. destruct Ee as [-> Hout].
      exists w4. split; [reflexivity |]. split; [exact Hdb |].
      split; [exact Hn |]. split; [exact Ht |].
      intros Hclock. apply Hout. unfold date_min, date_max.
      unfold date_add_days in Es. cbv zeta in Es.
      destruct (_ && _)%bool; [| discriminate]. injection Es as <-. lia.
  - right. apply date_add_days_raises in Es. destruct Es as [-> Hout].
    exists w4. split; [reflexivity |]. split; [exact Hdb |].
    split; [exact Hn |]. split; [exact Ht |].
    intros Hclock. apply Hout. unfold date_min, date_max. lia.
Qed.

(** The loop of [create_bookings] inserts a booking at every turn, or
    stops at the first overflow with the bookings of the turns before
    it stored. *)
Lemma create_bookings_outcome (ls : list Listing.t) (guests : list User.t) :
  ls <> [] -> guests <> [] ->
  forall (xs : list nat) (w : World),
    exists r w' bs,
      forM xs (fun _ => Command.create_booking ls guests) w = (r, w') /\
      db w' = set_bookings (db w) (bookings (db w) ++ bs) /\
      next_uuid w <= next_uuid w' /\ today w' = today w /\
      ((r = Ok bs /\ List.length bs = List.length xs) \/
       (r = Raise OverflowError /\ List.length bs < List.length xs /\
        ~ clock_ok (today w))).
Proof.
  intros Hls Hgs. induction xs as [| x xs IH]; intros w.
  - exists (Ok []), w, []. cbn. rewrite app_nil_r, set_bookings_same.
    split; [reflexivity |]. split; [reflexivity |]. split; [lia |].
    split; [reflexivity |]. left. split; reflexivity.
  - destruct (create_booking_outcome ls guests w Hls Hgs)
      as [(b & w1 & E1 & D1 & N1 & T1) | (w1 & E1 & D1 & N1 & T1 & Hclock)].
    + destruct (IH w1) as (r & w2 & bs & E2 & D2 & N2 & T2 & Hr).
      destruct Hr as [(-> & Hlen) | (-> & Hlen & Hclock)].
      * exists (Ok (b :: bs)), w2, (b :: bs).
        split; [exact (forM_cons_ok (fun _ => Command.create_booking ls guests)
                         x xs w w1 w2 b bs E1 E2) |].
        split; [rewrite D2, D1; cbn; rewrite <- app_assoc; reflexivity |].
        split; [lia |]. split; [congruence |].
        left. split; [reflexivity | cbn; lia].
      * exists (Raise OverflowError), w2, (b :: bs).
        split.
        { cbn [forM]. rewrite (bind_ok _ _ _ _ _ E1). unfold bind at 1.
          rewrite E2. reflexivity. }
        split; [rewrite D2, D1; cbn; rewrite <- app_assoc; reflexivity |].
        split; [lia |]. split; [congruence |].
        right. split; [reflexivity |]. split; [cbn; lia |].
        rewrite <- T1. exact Hclock.
    + exists (Raise OverflowError), w1, [].
      split.
      { cbn [forM]. unfold bind at 1. rewrite E1. reflexivity. }
      split; [rewrite D1, app_nil_r, set_bookings_same; reflexivity |].
      split; [lia |]. split; [exact T1 |].
      right. split; [reflexivity |]. split; [cbn; lia | exact Hclock].
Qed.

(** The command up to the bookings; the clock plays no part in it. *)
Lemma handle_until_bookings (clear : bool) (w : World) :
  users_wf (db w) ->
  let s0 := if clear then cleared (db w) else db w in
  exists us ls w2,
    let wC := snd (write (Command.created (List.length ls) "listings") w2) in
    Command.handle clear w =
      (bookings <- Command.create_bookings ls us ;;
       write (Command.created (List.length bookings) "bookings") ;;;
       reviews <- Command.create_reviews ls us ;;
       write (Command.created (List.length reviews) "reviews") ;;;
       write (String (ascii_of_nat 10)
                "✨ Database seeding completed successfully!")) wC /\
    map User.username us = map Command.ud_username Command.users_data /\
    incl us (users (db w2)) /\ NoDup (map User.id us) /\
    listings (db w2) = listings s0 ++ ls /\
    bookings (db w2) = bookings s0 /\ reviews (db w2) = reviews s0 /\
    map Listing.property_id ls = seq (next_uuid w) 8 /\
    next_uuid w2 = next_uuid w + 8 /\ today w2 = today w.
Proof.
  intros Hu s0. unfold Command.handle.
  assert (H0 : exists w0, (if clear then Command.clear_data else ret tt) w = (Ok tt, w0) /\
                          db w0 = s0 /\ next_uuid w0 = next_uuid w /\ today w0 = today w).
  { destruct clear; [apply clear_data_spec | exists w; repeat split]. }
  destruct H0 as (w0 & E0 & D0 & N0 & T0).
  rewrite (bind_ok _ _ _ _ _ E0), bind_write.
  assert (Hu0 : users_wf s0).
  { subst s0. destruct clear; [apply users_wf_cleared |]; exact Hu. }
  match goal with
  | |- context [bind Command.create_users _ ?x] =>
      destruct (create_users_loop_spec Command.users_data x)
        as (us & w1 & E1 & Hnames & Hincl & Hu1 & _ & _ & L1 & B1 & R1 & N1 & T1)
  end.
  { cbn. rewrite D0. exact Hu0. }
  cbn [db next_uuid today] in *.
  unfold Command.create_users at 1. rewrite (bind_ok _ _ _ _ _ E1), bind_write.
  destruct (seeded_users_shape us Hnames)
    as (u0 & u1 & u2 & u3 & u4 & u5 & Hus & Hhosts & Hguests & Hndus).
  match goal with
  | |- context [bind (Command.create_listings us) _ ?x] =>
      destruct (create_listings_loop_spec
                  (filter (fun u => contains "host" (User.username u)) us)
                  ltac:(rewrite Hhosts; discriminate)
                  (Command.enumerate Command.listings_data) x)
        as (ls & w2 & E2 & _ & Hids & D2 & N2 & T2)
  end.
  cbn [db next_uuid today] in *.
  change (forM (Command.enumerate Command.listings_data)
            (fun il => h <- Command.index_mod
                              (filter (fun u => contains "host" (User.username u)) us)
                              (fst il) ;;
                       ListingManager.create h (snd il)))
    with (Command.create_listings us) in E2.
  rewrite (bind_ok _ _ _ _ _ E2), bind_write.
  change (List.length (Command.enumerate Command.listings_data)) with 8 in *.
  exists us, ls, w2. cbv zeta.
  split; [reflexivity |]. split; [exact Hnames |].
  split; [rewrite D2; exact Hincl |].
  split.
  { apply (NoDup_map_incl User.id us (users (db w1))); [exact Hndus | exact Hincl |].
    apply Hu1. }
  rewrite D2. cbn [listings bookings reviews set_listings].
  split; [rewrite L1, D0; reflexivity |]. split; [rewrite B1, D0; reflexivity |].
  split; [rewrite R1, D0; reflexivity |].
  split; [rewrite Hids, N1, N0; reflexivity |].
  split; [rewrite N2, N1, N0; reflexivity | rewrite T2, T1, T0; reflexivity].
Qed.

(** X21. In a store with unique user names and keys the seed command
    can fail in one way only: a booking date leaves the range of dates,
    which needs a clock within 30 days of the first or 74 days of the
    last representable date.  It then raises [OverflowError] from
    [create_bookings] and nothing is rolled back: the six users and the
    eight listings of the run are stored, with the bookings made before
    the failure; no review was written. *)
Theorem seeding_fails_only_by_overflow_and_keeps_rows :
  forall (clear : bool) (w w' : World) (e : Exception),
    users_wf (db w) ->
    Forall (fun r => Review.property r < next_uuid w) (reviews (db w)) ->
    Command.handle clear w = (Raise e, w') ->
    let s0 := if clear then cleared (db w) else db w in
    e = OverflowError /\ ~ clock_ok (today w) /\
    incl (map Command.ud_username Command.users_data)
         (map User.username (users (db w'))) /\
    reviews (db w') = reviews s0 /\
    exists ls bs,
      listings (db w') = listings s0 ++ ls /\ List.length ls = 8 /\
      bookings (db w') = bookings s0 ++ bs /\ List.length bs < 15.
Proof.
  intros clear w w' e Hu Hr H s0.
  destruct (handle_until_bookings clear w Hu) as (us & ls & w2 & Hp).
  cbv zeta in Hp.
  destruct Hp as (Erun & Hnames & Hincl & Hndids & L & B & R & Hids & N2 & T2).
  fold s0 in L, B, R.
  destruct (seeded_users_shape us Hnames)
    as (u0 & u1 & u2 & u3 & u4 & u5 & Hus & Hhosts & Hguests & Hndus).
  assert (Hlen8 : List.length ls = 8).
  { rewrite <- (length_map Listing.property_id), Hids. apply length_seq. }
  rewrite Erun in H. clear Erun.
  destruct (create_bookings_outcome ls
              (filter (fun u => contains "guest" (User.username u)) us)
              ltac:(intros ->; discriminate)
              ltac:(rewrite Hguests; discriminate)
              (seq 0 15)
              (snd (write (Command.created (List.length ls) "listings") w2)))
    as (r & w3 & bs & E3 & D3 & N3 & T3 & Hout).
  change (forM (seq 0 15)
            (fun _ => Command.create_booking ls
                        (filter (fun u => contains "guest" (User.username u)) us)))
    with (Command.create_bookings ls us) in E3.
  cbn [db next_uuid today snd write] in D3, N3, T3.
  destruct Hout as [(-> & Hlenbs) | (-> & Hlenbs & Hclock)].
  - (* the bookings went through: so do the reviews, and the run succeeds *)
    exfalso. rewrite (bind_ok _ _ _ _ _ E3), bind_write in H.
    match type of H with
    | context [bind (Command.create_reviews ls us) _ ?x] =>
        destruct (create_reviews_spec ls us x) as (rs & w4 & E4 & _)
    end.
    { rewrite Hguests. discriminate. }
    { apply NoDup_keys_filter. exact Hndids. }
    { lia. }
    { rewrite Hids. apply seq_NoDup. }
    { cbn [db]. rewrite D3. cbn [reviews set_bookings]. rewrite R.
      intros x l Hin Hl.
      assert (Hx : Review.property x < next_uuid w).
      { subst s0. destruct clear; [destruct Hin |].
        rewrite Forall_forall in Hr. exact (Hr x Hin). }
      assert (Hp : In (Listing.property_id l) (map Listing.property_id ls))
        by (apply in_map; exact Hl).
      rewrite Hids in Hp. apply in_seq in Hp. lia. }
    rewrite (bind_ok _ _ _ _ _ E4), !bind_write in H. discriminate.
  - unfold bind at 1 in H. rewrite E3 in H. injection H as <- <-.
    split; [reflexivity |]. split; [rewrite <- T2; exact Hclock |].
    rewrite D3. cbn [users listings bookings reviews set_bookings].
    split.
    { rewrite <- Hnames. intros name Hname. apply in_map_iff in Hname.
      destruct Hname as (u & <- & Hin). apply in_map. apply Hincl. exact Hin. }
    split; [exact R |].
    exists ls, bs. split; [exact L |]. split; [exact Hlen8 |].
    split; [rewrite B; reflexivity | cbn in Hlenbs; exact Hlenbs].
Qed.

Lemma seeding_fails_only_by_overflow_and_keeps_rows_witness :
  let w := mkWorld (empty_store 1) (fun n => n * 7 + 3) 0 0 [] 3652059%Z in
  let w' := snd (Command.handle false w) in
  exists ls bs,
    listings (db w') = ls /\ List.length ls = 8 /\
    bookings (db w') = bs /\ List.length bs < 15.
Proof.
  intros w w'.
  destruct (seeding_fails_only_by_overflow_and_keeps_rows false w w' OverflowError)
    as (_ & _ & _ & _ & ls & bs & L & Hl & B & Hb).
  - repeat split; constructor.
  - constructor.
  - vm_compute. reflexivity.
  - exists ls, bs. split; [exact L |]. split; [exact Hl |]. split; [exact B | exact Hb].
Defined.
